(** * The receive path of the PGM transport (openpgm/pgm/recv.c)

    A shallow embedding of [recv.c]: the socket reader [recvskb], the three
    packet handlers [on_upstream], [on_peer] and [on_downstream], the
    dispatcher [on_pgm], the blocking helper [wait_for_event], and the
    delivery calls [pgm_recvmsgv], [pgm_recvmsg], [pgm_recvfrom] and
    [pgm_recv].

    Conventions of the embedding.
    - The transport is passed by value and returned updated.  Objects the C
      code reaches through pointers and mutates in place (socket buffers,
      peers) live in two heaps carried by the transport, and pointers are
      heap keys, so that aliasing ([transport->rx_buffer] and the [skb]
      argument of the handlers name the same buffer) is kept.
    - Functions of the library that are defined in other translation units
      (receive window, timer, wire parser, notification pipe, ...) are the
      fields of a record [collaborators].  Their private state is the field
      [ext] of the transport.
    - System calls take their results from an explicit [World]: a queue of
      [recvmsg] results and a queue of [poll]/[select] outcomes.
    - The library is single threaded here: taking and releasing
      [pending_mutex] and [peers_lock] has no counterpart.
    - [g_trace] is debug output and has no counterpart.  [g_assert] and
      [g_error] terminate the process (GLib logs at [G_LOG_LEVEL_ERROR] are
      always fatal): they end a computation with [Aborted]. *)

From stdpp Require Import gmap list.
From Stdlib Require Import ZArith NArith Lia.

Local Open Scope Z_scope.

(** ** System constants (Linux values) *)

Module Sys.
Definition AF_INET : Z := 2.
Definition AF_INET6 : Z := 10.
Definition IPPROTO_IP : Z := 0.
Definition IPPROTO_IPV6 : Z := 41.
Definition IP_PKTINFO : Z := 8.
Definition IPV6_PKTINFO : Z := 50.
Definition MSG_DONTWAIT : Z := 0x40.
Definition MSG_FIN : Z := 0x200.
Definition MSG_ERRQUEUE : Z := 0x2000.
Definition EINTR : Z := 4.
Definition EBADF : Z := 9.
Definition EAGAIN : Z := 11.
Definition ENOMEM : Z := 12.
Definition EFAULT : Z := 14.
Definition EINVAL : Z := 22.
End Sys.
Import Sys.

(** [flags & bit] as a C condition. *)
Definition flag_set (flags bit : Z) : bool := negb (Z.land flags bit =? 0).

(** ** Data model *)

Inductive GIOStatus :=
  | G_IO_STATUS_ERROR
  | G_IO_STATUS_NORMAL
  | G_IO_STATUS_EOF
  | G_IO_STATUS_AGAIN.

Global Instance GIOStatus_eq_dec : EqDecision GIOStatus.
Proof. solve_decision. Defined.

Inductive PGMRecvError :=
  | PGM_RECV_ERROR_BADF
  | PGM_RECV_ERROR_FAULT
  | PGM_RECV_ERROR_INTR
  | PGM_RECV_ERROR_INVAL
  | PGM_RECV_ERROR_NOMEM
  | PGM_RECV_ERROR_CONNRESET
  | PGM_RECV_ERROR_FAILED.

Inductive PGMPacketError :=
  | PGM_PACKET_ERROR_CKSUM
  | PGM_PACKET_ERROR_OTHER.

(** The packet types of the PGM common header.  The wire parser decodes the
    type octet; every code that names none of the nine types below is
    [PGM_UNKNOWN]. *)
Inductive pgm_type_e :=
  | PGM_SPM | PGM_POLL | PGM_POLR
  | PGM_ODATA | PGM_RDATA
  | PGM_NAK | PGM_NNAK | PGM_NCF
  | PGM_SPMR
  | PGM_UNKNOWN (code : Z).

(** Transport session identifier: global source id and source port. *)
Record pgm_tsi_t := { gsi : Z; sport : Z }.

Global Instance pgm_tsi_eq_dec : EqDecision pgm_tsi_t.
Proof. solve_decision. Defined.

Global Instance pgm_tsi_countable : Countable pgm_tsi_t :=
  inj_countable'
    (λ t, (gsi t, sport t))
    (λ p, {| gsi := p.1; sport := p.2 |})
    (λ t, match t with Build_pgm_tsi_t _ _ => eq_refl end).

Definition pgm_gsi_equal (a b : Z) : bool := a =? b.

Record sockaddr := {
  sa_family : Z;
  sa_addr : Z;
  sa_scope_id : Z
}.

Definition sockaddr_zero : sockaddr :=
  {| sa_family := 0; sa_addr := 0; sa_scope_id := 0 |}.

(** The fields of [struct pgm_header] that the receive path reads. *)
Record pgm_header_t := {
  pgm_sport : Z;
  pgm_dport : Z;
  pgm_type : pgm_type_e
}.

(** [sizeof(struct pgm_header)]: the 16 octets of the PGM common header. *)
Definition sizeof_pgm_header : Z := 16.

(** A socket buffer.  [skb_head] is the byte region; [skb_data], [skb_tail]
    and [skb_header] are offsets into it where the C code has pointers.
    The structure is declared in skbuff.h, outside the sources: the widths
    of its integer fields are not known here and the fields are unbounded. *)
Record pgm_sk_buff_t := {
  skb_transport : bool;          (* the back pointer has been set *)
  skb_tstamp : Z;
  skb_head : list Z;
  skb_truesize : Z;              (* capacity asked from pgm_alloc_skb *)
  skb_data : Z;
  skb_len : Z;
  skb_tail : Z;
  skb_header : Z;                (* offset of the parsed header *)
  skb_pgm_header : pgm_header_t;
  skb_tsi : pgm_tsi_t
}.

Inductive receiver_counter :=
  | PGM_PC_RECEIVER_BYTES_RECEIVED
  | PGM_PC_RECEIVER_PACKETS_DISCARDED.

Inductive source_counter :=
  | PGM_PC_SOURCE_CKSUM_ERRORS
  | PGM_PC_SOURCE_PACKETS_DISCARDED.

Global Instance receiver_counter_eq_dec : EqDecision receiver_counter.
Proof. solve_decision. Defined.
Global Instance source_counter_eq_dec : EqDecision source_counter.
Proof. solve_decision. Defined.

(** [stats[i]++] and [stats[i] += n] on a statistics array.  The element
    type is declared outside this file; counters are unbounded here. *)
Definition stat_add {I : Type} `{EqDecision I} (i : I) (n : N) (stats : I → N)
  : I → N :=
  λ j, if decide (j = i) then (stats j + n)%N else stats j.

Definition stat_incr {I : Type} `{EqDecision I} (i : I) (stats : I → N)
  : I → N := stat_add i 1%N stats.

Record pgm_peer_t := {
  peer_tsi : pgm_tsi_t;
  peer_last_packet : Z;
  peer_group_nla : sockaddr;
  peer_cumulative_stats : receiver_counter → N
}.

(** One entry of the caller's message vector: the buffers of one APDU. *)
Record pgm_msgv_t := {
  msgv_len : N;
  msgv_skb : list nat
}.

Record GError := {
  err_code : PGMRecvError;
  err_tsi : option pgm_tsi_t;    (* the TSI printed into the message *)
  err_errno : option Z           (* the errno printed into the message *)
}.

(** Ancillary data of one datagram.  [CMSG_DATA] is kept as the fields the
    reader takes from [struct in_pktinfo] or [struct in6_pktinfo]. *)
Record cmsghdr := {
  cmsg_level : Z;
  cmsg_type : Z;
  ipi_addr : Z;
  ipi6_addr : Z;
  ipi6_ifindex : Z
}.

(** What one [recvmsg] call yields: the return value, the bytes written to
    the buffer, the source address and the control messages. *)
Record datagram := {
  dg_len : Z;
  dg_bytes : list Z;
  dg_src : sockaddr;
  dg_cmsgs : list cmsghdr
}.

(** What one [poll] or [select] call yields: the return value, [revents] of
    each polled descriptor ([fds[0]] is the receive socket), and the
    descriptors left in [readfds]. *)
Record wait_outcome := {
  wo_ready : Z;
  wo_revents : list Z;
  wo_readfds : list Z;
  wo_errno : Z       (* errno left by a failed call *)
}.

(** The machine around the library.  The last four fields describe the stack
    frame a delivery call gets: the address of its local [src], and what
    its locals [src], [dst] and [source], which are declared without an
    initialiser, hold before their first assignment. *)
Record World := {
  sock_queue : list datagram;
  wait_queue : list wait_outcome;
  clock : Z;
  errno : Z;
  addr_of_src : Z;
  stack_src : sockaddr;
  stack_dst : sockaddr;
  stack_source : option nat
}.

(** Result of a computation that may hit [g_assert]/[g_error], run out of
    the fuel that bounds the delivery loop, or read memory outside every
    object ([Undefined]). *)
Inductive outcome (A : Type) :=
  | Done (a : A)
  | Aborted
  | OutOfFuel
  | Undefined.
Arguments Done {A} a.
Arguments Aborted {A}.
Arguments OutOfFuel {A}.
Arguments Undefined {A}.

Global Instance outcome_ret : MRet outcome := λ A a, Done a.
Global Instance outcome_bind : MBind outcome := λ A B k m,
  match m with
  | Done a => k a
  | Aborted => Aborted
  | OutOfFuel => OutOfFuel
  | Undefined => Undefined
  end.

Definition g_assert (b : bool) : outcome unit :=
  if b then Done () else Aborted.

(** [g_error]: logs the message and terminates the process. *)
Definition g_error {A : Type} : outcome A := Aborted.

(** ** The transport *)

Section Transport.
Context {Ext : Type}.

(** The fields of [pgm_transport_t] that [recv.c] names, the two heaps
    ([skbs], [peers]) and the state of the collaborators ([ext]).  The
    hashtable maps a TSI to a pointer into [peers]. *)
Record pgm_transport_t := {
  is_bound : bool;
  is_destroyed : bool;
  is_reset : bool;
  is_abort_on_reset : bool;
  can_send_data : bool;
  can_recv_data : bool;
  is_pending_read : bool;
  is_edge_triggered_recv : bool;
  udp_encap_ucast_port : Z;
  max_tpdu : Z;
  nak_bo_ivl : Z;
  tsi : pgm_tsi_t;
  dport : Z;
  recv_sock : Z;
  rx_buffer : option nat;
  peers_hashtable : gmap pgm_tsi_t nat;
  peers_pending : list nat;
  cumulative_stats : source_counter → N;
  skbs : gmap nat pgm_sk_buff_t;
  peers : gmap nat pgm_peer_t;
  ext : Ext
}.

Definition set_is_reset (v : bool) (t : pgm_transport_t)
  : pgm_transport_t :=
  {| is_bound := is_bound t; is_destroyed := is_destroyed t;
     is_reset := v; is_abort_on_reset := is_abort_on_reset t;
     can_send_data := can_send_data t; can_recv_data := can_recv_data t;
     is_pending_read := is_pending_read t;
     is_edge_triggered_recv := is_edge_triggered_recv t;
     udp_encap_ucast_port := udp_encap_ucast_port t;
     max_tpdu := max_tpdu t; nak_bo_ivl := nak_bo_ivl t; tsi := tsi t;
     dport := dport t; recv_sock := recv_sock t; rx_buffer := rx_buffer t;
     peers_hashtable := peers_hashtable t;
     peers_pending := peers_pending t;
     cumulative_stats := cumulative_stats t; skbs := skbs t;
     peers := peers t; ext := ext t |}.

Definition set_can_send_data (v : bool) (t : pgm_transport_t)
  : pgm_transport_t :=
  {| is_bound := is_bound t; is_destroyed := is_destroyed t;
     is_reset := is_reset t; is_abort_on_reset := is_abort_on_reset t;
     can_send_data := v; can_recv_data := can_recv_data t;
     is_pending_read := is_pending_read t;
     is_edge_triggered_recv := is_edge_triggered_recv t;
     udp_encap_ucast_port := udp_encap_ucast_port t;
     max_tpdu := max_tpdu t; nak_bo_ivl := nak_bo_ivl t; tsi := tsi t;
     dport := dport t; recv_sock := recv_sock t; rx_buffer := rx_buffer t;
     peers_hashtable := peers_hashtable t;
     peers_pending := peers_pending t;
     cumulative_stats := cumulative_stats t; skbs := skbs t;
     peers := peers t; ext := ext t |}.

Definition set_is_pending_read (v : bool) (t : pgm_transport_t)
  : pgm_transport_t :=
  {| is_bound := is_bound t; is_destroyed := is_destroyed t;
     is_reset := is_reset t; is_abort_on_reset := is_abort_on_reset t;
     can_send_data := can_send_data t; can_recv_data := can_recv_data t;
     is_pending_read := v;
     is_edge_triggered_recv := is_edge_triggered_recv t;
     udp_encap_ucast_port := udp_encap_ucast_port t;
     max_tpdu := max_tpdu t; nak_bo_ivl := nak_bo_ivl t; tsi := tsi t;
     dport := dport t; recv_sock := recv_sock t; rx_buffer := rx_buffer t;
     peers_hashtable := peers_hashtable t;
     peers_pending := peers_pending t;
     cumulative_stats := cumulative_stats t; skbs := skbs t;
     peers := peers t; ext := ext t |}.

Definition set_rx_buffer (v : option nat) (t : pgm_transport_t)
  : pgm_transport_t :=
  {| is_bound := is_bound t; is_destroyed := is_destroyed t;
     is_reset := is_reset t; is_abort_on_reset := is_abort_on_reset t;
     can_send_data := can_send_data t; can_recv_data := can_recv_data t;
     is_pending_read := is_pending_read t;
     is_edge_triggered_recv := is_edge_triggered_recv t;
     udp_encap_ucast_port := udp_encap_ucast_port t;
     max_tpdu := max_tpdu t; nak_bo_ivl := nak_bo_ivl t; tsi := tsi t;
     dport := dport t; recv_sock := recv_sock t; rx_buffer := v;
     peers_hashtable := peers_hashtable t;
     peers_pending := peers_pending t;
     cumulative_stats := cumulative_stats t; skbs := skbs t;
     peers := peers t; ext := ext t |}.

Definition set_peers_hashtable (v : gmap pgm_tsi_t nat) (t : pgm_transport_t)
  : pgm_transport_t :=
  {| is_bound := is_bound t; is_destroyed := is_destroyed t;
     is_reset := is_reset t; is_abort_on_reset := is_abort_on_reset t;
     can_send_data := can_send_data t; can_recv_data := can_recv_data t;
     is_pending_read := is_pending_read t;
     is_edge_triggered_recv := is_edge_triggered_recv t;
     udp_encap_ucast_port := udp_encap_ucast_port t;
     max_tpdu := max_tpdu t; nak_bo_ivl := nak_bo_ivl t; tsi := tsi t;
     dport := dport t; recv_sock := recv_sock t; rx_buffer := rx_buffer t;
     peers_hashtable := v; peers_pending := peers_pending t;
     cumulative_stats := cumulative_stats t; skbs := skbs t;
     peers := peers t; ext := ext t |}.

Definition set_peers_pending (v : list nat) (t : pgm_transport_t)
  : pgm_transport_t :=
  {| is_bound := is_bound t; is_destroyed := is_destroyed t;
     is_reset := is_reset t; is_abort_on_reset := is_abort_on_reset t;
     can_send_data := can_send_data t; can_recv_data := can_recv_data t;
     is_pending_read := is_pending_read t;
     is_edge_triggered_recv := is_edge_triggered_recv t;
     udp_encap_ucast_port := udp_encap_ucast_port t;
     max_tpdu := max_tpdu t; nak_bo_ivl := nak_bo_ivl t; tsi := tsi t;
     dport := dport t; recv_sock := recv_sock t; rx_buffer := rx_buffer t;
     peers_hashtable := peers_hashtable t; peers_pending := v;
     cumulative_stats := cumulative_stats t; skbs := skbs t;
     peers := peers t; ext := ext t |}.

Definition set_cumulative_stats (v : source_counter → N) (t : pgm_transport_t)
  : pgm_transport_t :=
  {| is_bound := is_bound t; is_destroyed := is_destroyed t;
     is_reset := is_reset t; is_abort_on_reset := is_abort_on_reset t;
     can_send_data := can_send_data t; can_recv_data := can_recv_data t;
     is_pending_read := is_pending_read t;
     is_edge_triggered_recv := is_edge_triggered_recv t;
     udp_encap_ucast_port := udp_encap_ucast_port t;
     max_tpdu := max_tpdu t; nak_bo_ivl := nak_bo_ivl t; tsi := tsi t;
     dport := dport t; recv_sock := recv_sock t; rx_buffer := rx_buffer t;
     peers_hashtable := peers_hashtable t;
     peers_pending := peers_pending t; cumulative_stats := v;
     skbs := skbs t; peers := peers t; ext := ext t |}.

Definition set_skbs (v : gmap nat pgm_sk_buff_t) (t : pgm_transport_t)
  : pgm_transport_t :=
  {| is_bound := is_bound t; is_destroyed := is_destroyed t;
     is_reset := is_reset t; is_abort_on_reset := is_abort_on_reset t;
     can_send_data := can_send_data t; can_recv_data := can_recv_data t;
     is_pending_read := is_pending_read t;
     is_edge_triggered_recv := is_edge_triggered_recv t;
     udp_encap_ucast_port := udp_encap_ucast_port t;
     max_tpdu := max_tpdu t; nak_bo_ivl := nak_bo_ivl t; tsi := tsi t;
     dport := dport t; recv_sock := recv_sock t; rx_buffer := rx_buffer t;
     peers_hashtable := peers_hashtable t;
     peers_pending := peers_pending t;
     cumulative_stats := cumulative_stats t; skbs := v; peers := peers t;
     ext := ext t |}.

Definition set_peers (v : gmap nat pgm_peer_t) (t : pgm_transport_t)
  : pgm_transport_t :=
  {| is_bound := is_bound t; is_destroyed := is_destroyed t;
     is_reset := is_reset t; is_abort_on_reset := is_abort_on_reset t;
     can_send_data := can_send_data t; can_recv_data := can_recv_data t;
     is_pending_read := is_pending_read t;
     is_edge_triggered_recv := is_edge_triggered_recv t;
     udp_encap_ucast_port := udp_encap_ucast_port t;
     max_tpdu := max_tpdu t; nak_bo_ivl := nak_bo_ivl t; tsi := tsi t;
     dport := dport t; recv_sock := recv_sock t; rx_buffer := rx_buffer t;
     peers_hashtable := peers_hashtable t;
     peers_pending := peers_pending t;
     cumulative_stats := cumulative_stats t; skbs := skbs t; peers := v;
     ext := ext t |}.

Definition set_ext (v : Ext) (t : pgm_transport_t)
  : pgm_transport_t :=
  {| is_bound := is_bound t; is_destroyed := is_destroyed t;
     is_reset := is_reset t; is_abort_on_reset := is_abort_on_reset t;
     can_send_data := can_send_data t; can_recv_data := can_recv_data t;
     is_pending_read := is_pending_read t;
     is_edge_triggered_recv := is_edge_triggered_recv t;
     udp_encap_ucast_port := udp_encap_ucast_port t;
     max_tpdu := max_tpdu t; nak_bo_ivl := nak_bo_ivl t; tsi := tsi t;
     dport := dport t; recv_sock := recv_sock t; rx_buffer := rx_buffer t;
     peers_hashtable := peers_hashtable t;
     peers_pending := peers_pending t;
     cumulative_stats := cumulative_stats t; skbs := skbs t;
     peers := peers t; ext := v |}.

(** *** Heap access *)

Definition skb_zero : pgm_sk_buff_t :=
  {| skb_transport := false; skb_tstamp := 0; skb_head := [];
     skb_truesize := 0; skb_data := 0; skb_len := 0; skb_tail := 0;
     skb_header := 0;
     skb_pgm_header :=
       {| pgm_sport := 0; pgm_dport := 0; pgm_type := PGM_SPM |};
     skb_tsi := {| gsi := 0; sport := 0 |} |}.

(** [*skb].  The receive path only dereferences buffers it has been
    handed; a pointer outside the heap reads as the zero buffer. *)
Definition skb_at (t : pgm_transport_t) (skb : nat) : pgm_sk_buff_t :=
  default skb_zero (skbs t !! skb).

Definition skb_update (f : pgm_sk_buff_t → pgm_sk_buff_t) (skb : nat)
    (t : pgm_transport_t) : pgm_transport_t :=
  set_skbs (alter f skb (skbs t)) t.

Definition peer_update (f : pgm_peer_t → pgm_peer_t) (peer : nat)
    (t : pgm_transport_t) : pgm_transport_t :=
  set_peers (alter f peer (peers t)) t.

(** [transport->cumulative_stats[i]++] *)
Definition transport_stat_incr (i : source_counter) (t : pgm_transport_t)
  : pgm_transport_t :=
  set_cumulative_stats (stat_incr i (cumulative_stats t)) t.

(** [peer->cumulative_stats[i] += n] *)
Definition peer_stat_add (i : receiver_counter) (n : N) (peer : nat)
    (t : pgm_transport_t) : pgm_transport_t :=
  peer_update
    (λ p, {| peer_tsi := peer_tsi p;
             peer_last_packet := peer_last_packet p;
             peer_group_nla := peer_group_nla p;
             peer_cumulative_stats :=
               stat_add i n (peer_cumulative_stats p) |})
    peer t.

Definition peer_set_last_packet (v : Z) (peer : nat) (t : pgm_transport_t)
  : pgm_transport_t :=
  peer_update
    (λ p, {| peer_tsi := peer_tsi p;
             peer_last_packet := v;
             peer_group_nla := peer_group_nla p;
             peer_cumulative_stats := peer_cumulative_stats p |})
    peer t.

Definition peer_set_group_nla (v : sockaddr) (peer : nat)
    (t : pgm_transport_t) : pgm_transport_t :=
  peer_update
    (λ p, {| peer_tsi := peer_tsi p;
             peer_last_packet := peer_last_packet p;
             peer_group_nla := v;
             peer_cumulative_stats := peer_cumulative_stats p |})
    peer t.

(** Move [skb->data] to the offset [data] and take the PGM common header
    off [skb->len]. *)
Definition skb_pull_header (data : Z) (s : pgm_sk_buff_t) : pgm_sk_buff_t :=
  {| skb_transport := skb_transport s; skb_tstamp := skb_tstamp s;
     skb_head := skb_head s; skb_truesize := skb_truesize s;
     skb_data := data;
     skb_len := skb_len s - sizeof_pgm_header;
     skb_tail := skb_tail s; skb_header := skb_header s;
     skb_pgm_header := skb_pgm_header s; skb_tsi := skb_tsi s |}.

(** Modelled from the spec: [pgm_alloc_skb] is defined in skbuff.h, which
    is not among the sources.  The spec has the downstream handler
    "allocate a fresh [rx_buffer] sized to [max_tpdu]": a new heap cell, at
    an address no live buffer has, of the capacity asked. *)
Definition skb_blank (size : Z) : pgm_sk_buff_t :=
  {| skb_transport := false; skb_tstamp := 0; skb_head := [];
     skb_truesize := size; skb_data := 0; skb_len := 0; skb_tail := 0;
     skb_header := 0; skb_pgm_header := skb_pgm_header skb_zero;
     skb_tsi := skb_tsi skb_zero |}.

Definition pgm_alloc_skb (size : Z) (t : pgm_transport_t)
  : pgm_transport_t * nat :=
  let p := fresh (dom (skbs t)) in
  (set_skbs (<[p := skb_blank size]> (skbs t)) t, p).

(** *** Collaborators

    The functions [recv.c] calls that other translation units define.
    Each takes the transport and returns it updated, together with its C
    return value.  The wire parsers are handed the buffer only. *)
Record flush_result := {
  fl_transport : pgm_transport_t;
  fl_msgv : list pgm_msgv_t;
  fl_pmsg : N;
  fl_bytes_read : N;
  fl_data_read : N;
  fl_retval : Z
}.

Record collaborators := {
  (* source.h *)
  pgm_on_nak : pgm_transport_t → nat → pgm_transport_t * bool;
  pgm_on_nnak : pgm_transport_t → nat → pgm_transport_t * bool;
  pgm_on_spmr : pgm_transport_t → option nat → nat → pgm_transport_t * bool;
  (* receiver.h *)
  pgm_on_peer_nak : pgm_transport_t → nat → nat → pgm_transport_t * bool;
  pgm_on_data : pgm_transport_t → nat → nat → pgm_transport_t * bool;
  pgm_on_ncf : pgm_transport_t → nat → nat → pgm_transport_t * bool;
  pgm_on_spm : pgm_transport_t → nat → nat → pgm_transport_t * bool;
  pgm_new_peer :
    pgm_transport_t → pgm_tsi_t → sockaddr → sockaddr → pgm_transport_t * nat;
  pgm_peer_has_pending : pgm_transport_t → nat → bool;
  pgm_peer_set_pending : pgm_transport_t → nat → pgm_transport_t;
  pgm_flush_peers_pending :
    pgm_transport_t → list pgm_msgv_t → N → N → N → N → flush_result;
  pgm_set_reset_error :
    pgm_transport_t → nat → list pgm_msgv_t →
    pgm_transport_t * list pgm_msgv_t;
  (* packet.h *)
  pgm_parse_raw :
    pgm_sk_buff_t → sockaddr →
    pgm_sk_buff_t * sockaddr * bool * option PGMPacketError;
  pgm_parse_udp_encap :
    pgm_sk_buff_t → pgm_sk_buff_t * bool * option PGMPacketError;
  (* timer.h *)
  pgm_timer_check : pgm_transport_t → bool;
  pgm_timer_dispatch : pgm_transport_t → pgm_transport_t;
  pgm_timer_prepare : pgm_transport_t → pgm_transport_t;
  pgm_timer_expiration : pgm_transport_t → Z;
  (* notify.h *)
  pgm_notify_is_valid : pgm_transport_t → bool;
  pgm_notify_clear : pgm_transport_t → pgm_transport_t;
  pgm_notify_send : pgm_transport_t → pgm_transport_t;
  (* transport.h *)
  pgm_transport_poll_info : pgm_transport_t → Z;
  pgm_transport_select_info : pgm_transport_t → Z;
  (* sockaddr.h *)
  pgm_sockaddr_is_addr_multicast : sockaddr → bool
}.
End Transport.

Arguments pgm_transport_t : clear implicits.
Arguments collaborators : clear implicits.
Arguments flush_result : clear implicits.

(** ** Helpers declared in headers outside the sources *)

(** Modelled from the spec: [pgm_is_downstream], [pgm_is_upstream] and
    [pgm_is_peer] are defined in packet.h, which is not among the sources.
    The spec's frame classifier gives the three sets: downstream
    {ODATA, RDATA, NCF, SPM, POLL}, upstream {NAK, NNAK, SPMR, POLR}, and
    peer-capable {NAK, SPMR}. *)
Definition pgm_is_downstream (ty : pgm_type_e) : bool :=
  match ty with
  | PGM_ODATA | PGM_RDATA | PGM_NCF | PGM_SPM | PGM_POLL => true
  | _ => false
  end.

Definition pgm_is_upstream (ty : pgm_type_e) : bool :=
  match ty with
  | PGM_NAK | PGM_NNAK | PGM_SPMR | PGM_POLR => true
  | _ => false
  end.

Definition pgm_is_peer (ty : pgm_type_e) : bool :=
  match ty with
  | PGM_NAK | PGM_SPMR => true
  | _ => false
  end.

(** [pgm_sockaddr_family (sa)]: the [sa_family] of the address [sa] points
    to, the 16-bit field at offset 0 of a [struct sockaddr]. *)
Definition pgm_sockaddr_family (sa : sockaddr) : Z := sa_family sa.

(** What a [struct sockaddr] access sees when it is handed the address of a
    pointer variable instead of the address of a socket address: the
    pointer's own 8 octets.  On the little-endian LP64 targets of the
    library the octets at offset 0 and 1, read as [sa_family], are the low
    16 bits of the pointer value; the following octets are the rest of it. *)
Definition sockaddr_view_of_pointer (p : Z) : sockaddr :=
  {| sa_family := Z.land p 0xffff;
     sa_addr := Z.shiftr p 16;
     sa_scope_id := 0 |}.

(** [pgm_time_update_now ()] *)
Definition pgm_time_update_now (w : World) : Z := clock w.

(** ** System calls *)

Definition set_sock_queue (q : list datagram) (w : World) : World :=
  {| sock_queue := q; wait_queue := wait_queue w; clock := clock w;
     errno := errno w; addr_of_src := addr_of_src w;
     stack_src := stack_src w; stack_dst := stack_dst w;
     stack_source := stack_source w |}.

Definition set_wait_queue (q : list wait_outcome) (w : World) : World :=
  {| sock_queue := sock_queue w; wait_queue := q; clock := clock w;
     errno := errno w; addr_of_src := addr_of_src w;
     stack_src := stack_src w; stack_dst := stack_dst w;
     stack_source := stack_source w |}.

Definition set_errno (e : Z) (w : World) : World :=
  {| sock_queue := sock_queue w; wait_queue := wait_queue w; clock := clock w;
     errno := e; addr_of_src := addr_of_src w;
     stack_src := stack_src w; stack_dst := stack_dst w;
     stack_source := stack_source w |}.

(** [recvmsg (sock, &msg, MSG_DONTWAIT)]: the next queued result, or -1 with
    [EAGAIN] when nothing is queued. *)
Definition recvmsg (w : World) : World * datagram :=
  match sock_queue w with
  | d :: q => (set_sock_queue q w, d)
  | [] =>
      (set_errno EAGAIN w,
       {| dg_len := -1; dg_bytes := []; dg_src := sockaddr_zero;
          dg_cmsgs := [] |})
  end.

(** [poll (fds, n_fds, timeout)] or [select (n_fds, &readfds, ...)]: the next
    queued outcome; with nothing queued the wait times out. *)
Definition wait_syscall (w : World) : World * wait_outcome :=
  match wait_queue w with
  | o :: q =>
      (set_wait_queue q (if wo_ready o =? -1 then set_errno (wo_errno o) w
                         else w), o)
  | [] =>
      (w, {| wo_ready := 0; wo_revents := []; wo_readfds := [];
             wo_errno := 0 |})
  end.

(** ** recvskb *)

(** The walk over the control messages: the first IPv4 or IPv6 packet-info
    message gives the destination address. *)
Fixpoint pktinfo_dst (cmsgs : list cmsghdr) (dst : sockaddr)
  : option sockaddr :=
  match cmsgs with
  | [] => None
  | cmsg :: rest =>
      if (IPPROTO_IP =? cmsg_level cmsg) && (IP_PKTINFO =? cmsg_type cmsg)
      then Some {| sa_family := AF_INET;
                   sa_addr := ipi_addr cmsg;
                   sa_scope_id := sa_scope_id dst |}
      else if (IPPROTO_IPV6 =? cmsg_level cmsg)
              && (IPV6_PKTINFO =? cmsg_type cmsg)
      then Some {| sa_family := AF_INET6;
                   sa_addr := ipi6_addr cmsg;
                   sa_scope_id := ipi6_ifindex cmsg |}
      else pktinfo_dst rest dst
  end.

Record recvskb_result {Ext : Type} := {
  rs_transport : pgm_transport_t Ext;
  rs_world : World;
  rs_src : sockaddr;
  rs_dst : sockaddr;
  rs_len : Z
}.
Arguments recvskb_result : clear implicits.

Section Reader.
Context {Ext : Type}.
Local Abbreviation transport_t := (pgm_transport_t Ext).

(** [src_addr] is the value of the pointer argument, [src] and [dst] what
    [src_addr] and [dst_addr] point to. *)
Definition recvskb (transport : transport_t) (w : World) (skb : nat)
    (flags : Z) (src_addr : Z) (src dst : sockaddr)
  : recvskb_result Ext :=
  let '(w1, d) := recvmsg w in
  let len := dg_len d in
  let src1 := if 0 <=? len then dg_src d else src in
  let t1 :=
    if len =? 0 then transport
    else
      skb_update
        (λ s, {| skb_transport := true;
                 skb_tstamp := pgm_time_update_now w1;
                 skb_head :=
                   if 0 <? len
                   then take (Z.to_nat (max_tpdu transport)) (dg_bytes d)
                   else skb_head s;
                 skb_truesize := skb_truesize s;
                 skb_data := 0;
                 skb_len := len;
                 skb_tail := 0 + len;
                 skb_header := skb_header s;
                 skb_pgm_header := skb_pgm_header s;
                 skb_tsi := skb_tsi s |})
        skb transport in
  if negb (udp_encap_ucast_port transport =? 0)
     || (AF_INET6 =? pgm_sockaddr_family (sockaddr_view_of_pointer src_addr))
  then
    match pktinfo_dst (dg_cmsgs d) dst with
    | Some dst1 =>
        {| rs_transport := t1; rs_world := w1; rs_src := src1;
           rs_dst := dst1; rs_len := len |}
    | None =>
        (* discard on invalid address *)
        {| rs_transport := t1; rs_world := w1; rs_src := src1;
           rs_dst := dst; rs_len := -1 |}
    end
  else
    {| rs_transport := t1; rs_world := w1; rs_src := src1;
       rs_dst := dst; rs_len := len |}.
End Reader.

(** ** The packet handlers and the dispatcher *)

Section Handlers.
Context {Ext : Type}.
Variable K : collaborators Ext.
Local Abbreviation transport_t := (pgm_transport_t Ext).

(** [out_discarded] of [on_upstream] *)
Definition upstream_discarded (transport : transport_t)
  : transport_t * bool :=
  (transport_stat_incr PGM_PC_SOURCE_PACKETS_DISCARDED transport, false).

(** [out_discarded] of [on_peer] and of [on_downstream]: the discard is
    counted on the peer [*source] names or, with no peer, on the transport
    when it is a sending one. *)
Definition receiver_discarded (transport : transport_t)
    (source : option nat) : transport_t * option nat * bool :=
  match source with
  | Some peer =>
      (peer_stat_add PGM_PC_RECEIVER_PACKETS_DISCARDED 1 peer transport,
       source, false)
  | None =>
      if can_send_data transport
      then (transport_stat_incr PGM_PC_SOURCE_PACKETS_DISCARDED transport,
            source, false)
      else (transport, source, false)
  end.

(** upstream = receiver to source *)
Definition on_upstream (transport : transport_t) (skb : nat)
  : outcome (transport_t * bool) :=
  let header := skb_pgm_header (skb_at transport skb) in
  g_assert (pgm_dport header =? sport (tsi transport));;
  if negb (can_send_data transport) then
    (* Discarded packet for muted source. *)
    mret (upstream_discarded transport)
  else if negb (pgm_sport header =? dport transport) then
    mret (upstream_discarded transport)
  else if negb (pgm_gsi_equal (gsi (skb_tsi (skb_at transport skb)))
                              (gsi (tsi transport))) then
    mret (upstream_discarded transport)
  else
    (* advance SKB pointer to PGM type header *)
    let t1 :=
      skb_update (λ s, skb_pull_header (skb_data s + sizeof_pgm_header) s)
                 skb transport in
    match pgm_type (skb_pgm_header (skb_at t1 skb)) with
    | PGM_NAK =>
        let '(t2, ok) := pgm_on_nak K t1 skb in
        mret (if ok then (t2, true) else upstream_discarded t2)
    | PGM_NNAK =>
        let '(t2, ok) := pgm_on_nnak K t1 skb in
        mret (if ok then (t2, true) else upstream_discarded t2)
    | PGM_SPMR =>
        let '(t2, ok) := pgm_on_spmr K t1 None skb in
        mret (if ok then (t2, true) else upstream_discarded t2)
    | _ =>
        (* Discarded unsupported PGM type packet. *)
        mret (upstream_discarded t1)
    end.

(** peer to peer message, either multicast NAK or multicast SPMR.
    [source] is what [*source] holds on entry; the second component of
    the result is what it holds on return. *)
Definition on_peer (transport : transport_t) (skb : nat)
    (source : option nat) : outcome (transport_t * option nat * bool) :=
  let header := skb_pgm_header (skb_at transport skb) in
  g_assert (negb (pgm_dport header =? sport (tsi transport)));;
  if negb (can_recv_data transport) then
    (* Discarded packet for muted receiver. *)
    mret (receiver_discarded transport source)
  else if negb (pgm_sport header =? dport transport) then
    mret (receiver_discarded transport source)
  else
    let source := peers_hashtable transport !! skb_tsi (skb_at transport skb) in
    match source with
    | None =>
        (* Discarded packet about new source. *)
        mret (receiver_discarded transport source)
    | Some peer =>
        let t1 :=
          skb_update
            (λ s, skb_pull_header (skb_data s + sizeof_pgm_header) s)
            skb transport in
        match pgm_type (skb_pgm_header (skb_at t1 skb)) with
        | PGM_NAK =>
            let '(t2, ok) := pgm_on_peer_nak K t1 peer skb in
            mret (if ok then (t2, source, true)
                  else receiver_discarded t2 source)
        | PGM_SPMR =>
            let '(t2, ok) := pgm_on_spmr K t1 source skb in
            mret (if ok then (t2, source, true)
                  else receiver_discarded t2 source)
        | _ =>
            (* Discarded unsupported PGM type packet. *)
            mret (receiver_discarded t1 source)
        end
    end.

(** source to receiver message *)
Definition on_downstream (transport : transport_t) (skb : nat)
    (src_addr dst_addr : sockaddr) (source : option nat)
  : outcome (transport_t * option nat * bool) :=
  let header := skb_pgm_header (skb_at transport skb) in
  if negb (can_recv_data transport) then
    (* Discarded packet for muted receiver. *)
    mret (receiver_discarded transport source)
  else if negb (pgm_dport header =? dport transport) then
    (* Discarded packet on data-destination port mismatch. *)
    mret (receiver_discarded transport source)
  else
    (* search for TSI peer context or create a new one *)
    let '(t1, peer) :=
      match peers_hashtable transport !! skb_tsi (skb_at transport skb) with
      | Some peer => (transport, peer)
      | None =>
          pgm_new_peer K transport (skb_tsi (skb_at transport skb))
                       src_addr dst_addr
      end in
    let source := Some peer in
    let t2 :=
      peer_stat_add PGM_PC_RECEIVER_BYTES_RECEIVED
                    (Z.to_N (skb_len (skb_at t1 skb))) peer t1 in
    let t3 := peer_set_last_packet (skb_tstamp (skb_at t2 skb)) peer t2 in
    let t4 :=
      skb_update (λ s, skb_pull_header (skb_header s + sizeof_pgm_header) s)
                 skb t3 in
    (* handle PGM packet type *)
    match pgm_type (skb_pgm_header (skb_at t4 skb)) with
    | PGM_ODATA | PGM_RDATA =>
        let '(t5, ok) := pgm_on_data K t4 peer skb in
        if ok then
          let '(t6, fresh_skb) := pgm_alloc_skb (max_tpdu t5) t5 in
          mret (set_rx_buffer (Some fresh_skb) t6, source, true)
        else mret (receiver_discarded t5 source)
    | PGM_NCF =>
        let '(t5, ok) := pgm_on_ncf K t4 peer skb in
        mret (if ok then (t5, source, true)
              else receiver_discarded t5 source)
    | PGM_SPM =>
        let '(t5, ok) := pgm_on_spm K t4 peer skb in
        if ok then
          (* update group NLA if appropriate *)
          if pgm_sockaddr_is_addr_multicast K dst_addr
          then mret (peer_set_group_nla dst_addr peer t5, source, true)
          else mret (t5, source, true)
        else mret (receiver_discarded t5 source)
    | _ =>
        (* Discarded unsupported PGM type packet. *)
        mret (receiver_discarded t4 source)
    end.

(** process a pgm packet *)
Definition on_pgm (transport : transport_t) (skb : nat)
    (src_addr dst_addr : sockaddr) (source : option nat)
  : outcome (transport_t * option nat * bool) :=
  let header := skb_pgm_header (skb_at transport skb) in
  let discarded :=
    (* Discarded unknown PGM packet. *)
    if can_send_data transport
    then mret (transport_stat_incr PGM_PC_SOURCE_PACKETS_DISCARDED transport,
               source, false)
    else mret (transport, source, false) in
  if pgm_is_downstream (pgm_type header) then
    on_downstream transport skb src_addr dst_addr source
  else if pgm_dport header =? sport (tsi transport) then
    if pgm_is_upstream (pgm_type header) || pgm_is_peer (pgm_type header)
    then
      '(t1, ok) ← on_upstream transport skb;
      mret (t1, None, ok)
    else discarded
  else if pgm_is_peer (pgm_type header) then
    on_peer transport skb source
  else discarded.
End Handlers.

(** ** wait_for_event *)

Section Wait.
Context {Ext : Type}.
Variable K : collaborators Ext.
(** Whether the library is built with [CONFIG_HAVE_POLL]. *)
Variable CONFIG_HAVE_POLL : bool.
Local Abbreviation transport_t := (pgm_transport_t Ext).

(** The test made on the outcome of the wait: [fds[0].revents] with
    [poll], [FD_ISSET (transport->recv_sock, &readfds)] with [select]. *)
Definition recv_sock_event (transport : transport_t) (o : wait_outcome)
  : bool :=
  if CONFIG_HAVE_POLL
  then negb (default 0 (wo_revents o !! 0%nat) =? 0)
  else bool_decide (recv_sock transport ∈ wo_readfds o).

(** flush any waiting notifications / clear event notification *)
Definition clear_pending_read (transport : transport_t) : transport_t :=
  if is_pending_read transport
  then set_is_pending_read false (pgm_notify_clear K transport)
  else transport.

(** block on receiving socket: returns EAGAIN for waiting data, EINTR for
    waiting timer event, EFAULT for libc error. *)
Definition wait_for_event (transport : transport_t) (w : World)
    (timeout : Z) : outcome (transport_t * World * Z) :=
  g_assert (negb (timeout =? 0));;
  let info :=
    if CONFIG_HAVE_POLL then pgm_transport_poll_info K transport
    else pgm_transport_select_info K transport in
  if info =? -1 then mret (transport, w, EFAULT)
  else
    let t1 := clear_pending_read transport in
    let '(w1, o) := wait_syscall w in
    let ready := wo_ready o in
    if ready =? -1 then mret (t1, w1, EFAULT)
    else if (0 <? ready) && recv_sock_event t1 o
    then mret (t1, w1, EAGAIN)    (* recv again on empty *)
    else mret (t1, w1, EINTR).    (* state generated event *)
End Wait.

(** ** Error mapping *)

Definition pgm_recv_error_from_errno (err_no : Z) : PGMRecvError :=
  if err_no =? EBADF then PGM_RECV_ERROR_BADF
  else if err_no =? EFAULT then PGM_RECV_ERROR_FAULT
  else if err_no =? EINTR then PGM_RECV_ERROR_INTR
  else if err_no =? EINVAL then PGM_RECV_ERROR_INVAL
  else if err_no =? ENOMEM then PGM_RECV_ERROR_NOMEM
  else PGM_RECV_ERROR_FAILED.

(** ** The delivery engine *)

(** The labels of [pgm_recvmsgv].  [L_flush_first] is the flush made before
    the first read ("second, flush any remaining contiguous messages from
    previous call(s)"), which goes on to [recv_again]. *)
Inductive label :=
  | L_flush_first
  | L_recv_again
  | L_flush_pending
  | L_check_for_repeat
  | L_out.

Section Delivery.
Context {Ext : Type}.
Variable K : collaborators Ext.
Variable CONFIG_HAVE_POLL : bool.
Local Abbreviation transport_t := (pgm_transport_t Ext).

(** The transport, the world, the caller's vector and the locals of
    [pgm_recvmsgv] at a label.  [c_pmsg] is [pmsg - msg_start].  The locals
    keep their value from one round of the loop to the next; [c_source] is
    the local [source], which has no initialiser and which [on_downstream]
    and [on_peer] read on the discards they make before their lookup. *)
Record config := {
  c_transport : transport_t;
  c_world : World;
  c_msgv : list pgm_msgv_t;
  c_pmsg : N;
  c_bytes_read : N;
  c_data_read : N;
  c_len : Z;
  c_bytes_received : N;
  c_src : sockaddr;
  c_dst : sockaddr;
  c_source : option nat
}.

(** What a delivery call leaves behind: its return value, the transport
    and the world, the caller's vector, what was stored through
    [_bytes_read] and [error] (nothing when the pointer is NULL or the
    store is not reached), and the locals [bytes_read] and [data_read]
    at the return. *)
Record recv_result := {
  r_status : GIOStatus;
  r_transport : transport_t;
  r_world : World;
  r_msgv : list pgm_msgv_t;
  r_bytes_read_out : option N;
  r_error : option GError;
  r_bytes_read : N;
  r_data_read : N
}.

Inductive next :=
  | Goto (l : label) (c : config)
  | Return (r : recv_result)
  | Abort.

Definition with_transport (t : transport_t) (c : config) : config :=
  {| c_transport := t; c_world := c_world c; c_msgv := c_msgv c;
     c_pmsg := c_pmsg c; c_bytes_read := c_bytes_read c;
     c_data_read := c_data_read c; c_len := c_len c;
     c_bytes_received := c_bytes_received c; c_src := c_src c;
     c_dst := c_dst c; c_source := c_source c |}.

(** [peer->tsi] *)
Definition tsi_of_peer (t : transport_t) (peer : nat) : pgm_tsi_t :=
  default {| gsi := 0; sport := 0 |} (peer_tsi <$> peers t !! peer).

(** The report of a reset, which [pgm_recvmsgv] has twice in the same
    words: on entry, and at [out] when nothing was read. *)
Definition report_reset (flags : Z) (error : bool) (t : transport_t)
    (w : World) (msg_start : list pgm_msgv_t) (bytes_read data_read : N)
  : outcome recv_result :=
  match peers_pending t with
  | [] => Aborted         (* g_assert (NULL != transport->peers_pending) *)
  | peer :: _ =>
      let '(t1, msgv1, err) :=
        if flag_set flags MSG_ERRQUEUE then
          let '(t1, msgv1) := pgm_set_reset_error K t peer msg_start in
          (t1, msgv1, None)
        else if error then
          (t, msg_start,
           Some {| err_code := PGM_RECV_ERROR_CONNRESET;
                   err_tsi := Some (tsi_of_peer t peer);
                   err_errno := None |})
        else (t, msg_start, None) in
      let t2 :=
        if negb (is_abort_on_reset t1)
        then set_is_reset (negb (is_reset t1)) t1
        else t1 in
      mret {| r_status := G_IO_STATUS_EOF; r_transport := t2; r_world := w;
              r_msgv := msgv1; r_bytes_read_out := None; r_error := err;
              r_bytes_read := bytes_read; r_data_read := data_read |}
  end.

(** [pgm_flush_peers_pending (transport, &pmsg, msg_end, &bytes_read,
    &data_read)] on the locals of a configuration. *)
Definition flush (msg_len : N) (c : config) : config * Z :=
  let r :=
    pgm_flush_peers_pending K (c_transport c) (c_msgv c) (c_pmsg c) msg_len
                            (c_bytes_read c) (c_data_read c) in
  ({| c_transport := fl_transport r; c_world := c_world c;
      c_msgv := fl_msgv r; c_pmsg := fl_pmsg r;
      c_bytes_read := fl_bytes_read r; c_data_read := fl_data_read r;
      c_len := c_len c; c_bytes_received := c_bytes_received c;
      c_src := c_src c; c_dst := c_dst c; c_source := c_source c |},
   fl_retval r).

(** The parser the kind of socket asks for, run on the receive buffer:
    [pgm_parse_udp_encap (transport->rx_buffer, &err)] or
    [pgm_parse_raw (transport->rx_buffer, &dst, &err)]. *)
Definition parse_frame (t : transport_t) (rx : nat) (src dst : sockaddr)
  : transport_t * sockaddr * bool * option PGMPacketError :=
  let '(s1, dst1, is_valid, err) :=
    if negb (udp_encap_ucast_port t =? 0)
       || (AF_INET6 =? pgm_sockaddr_family src)
    then
      let '(s1, ok, err) := pgm_parse_udp_encap K (skb_at t rx) in
      (s1, dst, ok, err)
    else pgm_parse_raw K (skb_at t rx) dst in
  (skb_update (λ _, s1) rx t, dst1, is_valid, err).

(** One datagram from [recv_again] to the next label: read, parse,
    dispatch. *)
Definition recv_again (c : config) : next :=
  match rx_buffer (c_transport c) with
  | None => Abort
  | Some rx =>
      let r :=
        recvskb (c_transport c) (c_world c) rx MSG_DONTWAIT
                (addr_of_src (c_world c)) (c_src c) (c_dst c) in
      let len := rs_len r in
      let c1 :=
        {| c_transport := rs_transport r; c_world := rs_world r;
           c_msgv := c_msgv c; c_pmsg := c_pmsg c;
           c_bytes_read := c_bytes_read c; c_data_read := c_data_read c;
           c_len := len; c_bytes_received := c_bytes_received c;
           c_src := rs_src r; c_dst := rs_dst r;
           c_source := c_source c |} in
      if len <? 0 then Goto L_check_for_repeat c1
      else if len =? 0 then Goto L_out c1
      else
        let received := (c_bytes_received c + Z.to_N len)%N in
        let '(t2, dst1, is_valid, err) :=
          parse_frame (rs_transport r) rx (rs_src r) (rs_dst r) in
        if negb is_valid then
          (* Discarded invalid packet. *)
          let t3 :=
            if can_send_data t2 then
              transport_stat_incr PGM_PC_SOURCE_PACKETS_DISCARDED
                (match err with
                 | Some PGM_PACKET_ERROR_CKSUM =>
                     transport_stat_incr PGM_PC_SOURCE_CKSUM_ERRORS t2
                 | _ => t2
                 end)
            else t2 in
          Goto L_recv_again
            {| c_transport := t3; c_world := rs_world r;
               c_msgv := c_msgv c; c_pmsg := c_pmsg c;
               c_bytes_read := c_bytes_read c;
               c_data_read := c_data_read c; c_len := len;
               c_bytes_received := received; c_src := rs_src r;
               c_dst := dst1; c_source := c_source c |}
        else
          match on_pgm K t2 rx (rs_src r) dst1 (c_source c) with
          | Done (t3, source, ok) =>
              let c3 t :=
                {| c_transport := t; c_world := rs_world r;
                   c_msgv := c_msgv c; c_pmsg := c_pmsg c;
                   c_bytes_read := c_bytes_read c;
                   c_data_read := c_data_read c; c_len := len;
                   c_bytes_received := received; c_src := rs_src r;
                   c_dst := dst1; c_source := source |} in
              if negb ok then Goto L_recv_again (c3 t3)
              else
                (* check whether this source has waiting data *)
                match source with
                | Some peer =>
                    if pgm_peer_has_pending K t3 peer
                    then Goto L_flush_pending
                           (c3 (pgm_peer_set_pending K t3 peer))
                    else Goto L_flush_pending (c3 t3)
                | None => Goto L_flush_pending (c3 t3)
                end
          | _ => Abort
          end
  end.

(** [out:] *)
Definition out (flags : Z) (_bytes_read error : bool) (c : config) : next :=
  let t := c_transport c in
  let result :=
    if (c_data_read c =? 0)%N then
      let t1 := clear_pending_read K t in
      (* report data loss *)
      if is_reset t1
      then report_reset flags error t1 (c_world c) (c_msgv c)
                        (c_bytes_read c) (c_data_read c)
      else
        mret {| r_status := G_IO_STATUS_AGAIN; r_transport := t1;
                r_world := c_world c; r_msgv := c_msgv c;
                r_bytes_read_out := None; r_error := None;
                r_bytes_read := c_bytes_read c;
                r_data_read := c_data_read c |}
    else
      let t1 :=
        match peers_pending t with
        | [] => t
        | _ :: _ =>
            (* set event notification for additional available data *)
            if is_pending_read t && is_edge_triggered_recv t
            then set_is_pending_read false (pgm_notify_clear K t)
            else if negb (is_pending_read t)
                    && negb (is_edge_triggered_recv t)
            then set_is_pending_read true (pgm_notify_send K t)
            else t
        end in
      mret {| r_status := G_IO_STATUS_NORMAL; r_transport := t1;
              r_world := c_world c; r_msgv := c_msgv c;
              r_bytes_read_out :=
                if _bytes_read then Some (c_bytes_read c) else None;
              r_error := None;
              r_bytes_read := c_bytes_read c;
              r_data_read := c_data_read c |} in
  match result with
  | Done r => Return r
  | _ => Abort
  end.

(** [flush_pending:] and the flush before the first read: flush any
    contiguous packets, leave for [out] when the flush says so. *)
Definition flush_pending (msg_len : N) (after : label) (c : config) : next :=
  match peers_pending (c_transport c) with
  | [] => Goto after c
  | _ :: _ =>
      let '(c1, retval) := flush msg_len c in
      if negb (retval =? 0) then Goto L_out c1 else Goto after c1
  end.

(** [check_for_repeat:] *)
Definition check_for_repeat (msg_len : N) (flags : Z) (error : bool)
    (c : config) : next :=
  if flag_set flags MSG_DONTWAIT then
    (* repeat if non-blocking and not full *)
    if (0 <? c_len c) && (c_pmsg c <? msg_len)%N
    then Goto L_recv_again c
    else Goto L_out c
  else
    (* repeat if blocking and empty, i.e. received non data packet. *)
    if (c_data_read c =? 0)%N then
      match
        wait_for_event K CONFIG_HAVE_POLL (c_transport c) (c_world c)
          (pgm_timer_expiration K (c_transport c))
      with
      | Done (t1, w1, wait_status) =>
          let c1 :=
            {| c_transport := t1; c_world := w1; c_msgv := c_msgv c;
               c_pmsg := c_pmsg c; c_bytes_read := c_bytes_read c;
               c_data_read := c_data_read c; c_len := c_len c;
               c_bytes_received := c_bytes_received c; c_src := c_src c;
               c_dst := c_dst c; c_source := c_source c |} in
          if EAGAIN =? wait_status then Goto L_recv_again c1
          else if EINTR =? wait_status then
            Goto L_flush_pending
                 (with_transport (pgm_timer_dispatch K t1) c1)
          else if EFAULT =? wait_status then
            Return
              {| r_status := G_IO_STATUS_ERROR; r_transport := t1;
                 r_world := w1; r_msgv := c_msgv c;
                 r_bytes_read_out := None;
                 r_error :=
                   if error
                   then Some
                          {| err_code :=
                               pgm_recv_error_from_errno (errno w1);
                             err_tsi := None;
                             err_errno := Some (errno w1) |}
                   else None;
                 r_bytes_read := c_bytes_read c;
                 r_data_read := c_data_read c |}
          else Goto L_out c1
      | _ => Abort
      end
    else Goto L_out c.

(** One move of the delivery loop: the code from a label to the next
    jump or return. *)
Definition step (msg_len : N) (flags : Z) (_bytes_read error : bool)
    (pc : label) (c : config) : next :=
  match pc with
  | L_flush_first => flush_pending msg_len L_recv_again c
  | L_recv_again => recv_again c
  | L_flush_pending => flush_pending msg_len L_check_for_repeat c
  | L_check_for_repeat => check_for_repeat msg_len flags error c
  | L_out => out flags _bytes_read error c
  end.

Fixpoint recv_loop (fuel : nat) (msg_len : N) (flags : Z)
    (_bytes_read error : bool) (pc : label) (c : config)
  : outcome recv_result :=
  match fuel with
  | O => OutOfFuel
  | S fuel' =>
      match step msg_len flags _bytes_read error pc c with
      | Goto l c' => recv_loop fuel' msg_len flags _bytes_read error l c'
      | Return r => Done r
      | Abort => Aborted
      end
  end.

Definition status_only (status : GIOStatus) (t : transport_t) (w : World)
    (msg_start : list pgm_msgv_t) : recv_result :=
  {| r_status := status; r_transport := t; r_world := w;
     r_msgv := msg_start; r_bytes_read_out := None; r_error := None;
     r_bytes_read := 0; r_data_read := 0 |}.

(** The configuration in which the loop is entered: the timer has been
    run if it was due, nothing is read yet, and the locals without an
    initialiser hold what the stack held. *)
Definition entry_config (transport : transport_t) (w : World)
    (msg_start : list pgm_msgv_t) : config :=
  {| c_transport :=
       (* timer status *)
       if pgm_timer_check K transport
       then pgm_timer_prepare K (pgm_timer_dispatch K transport)
       else transport;
     c_world := w; c_msgv := msg_start;
     c_pmsg := 0; c_bytes_read := 0; c_data_read := 0;
     c_len := 0; c_bytes_received := 0;
     c_src := stack_src w; c_dst := stack_dst w;
     c_source := stack_source w |}.

(** [pgm_recvmsgv].  [msg_start] is the caller's vector of [msg_len]
    entries; [_bytes_read] and [error] tell whether the two out-pointers
    are non-NULL.  The transport, its hashtable and the vector are values
    here, so the guards and assertions on NULL pointers ([transport],
    [msg_start], [peers_hashtable], [rand_]) have no counterpart. *)
Definition pgm_recvmsgv (fuel : nat) (transport : transport_t) (w : World)
    (msg_start : list pgm_msgv_t) (msg_len : N) (flags : Z)
    (_bytes_read error : bool) : outcome recv_result :=
  if negb (is_bound transport) then
    mret (status_only G_IO_STATUS_ERROR transport w msg_start)
  else if is_destroyed transport then
    mret (status_only G_IO_STATUS_ERROR transport w msg_start)
  else
    (* pre-conditions *)
    g_assert (bool_decide (is_Some (rx_buffer transport)));;
    g_assert (0 <? max_tpdu transport);;
    g_assert (1 <? nak_bo_ivl transport);;
    g_assert (pgm_notify_is_valid K transport);;
    if is_reset transport then
      report_reset flags error transport w msg_start 0 0
    else
      recv_loop fuel msg_len flags _bytes_read error L_flush_first
                (entry_config transport w msg_start).

(** read one contiguous apdu *)
Definition pgm_recvmsg (fuel : nat) (transport : transport_t) (w : World)
    (msgv : pgm_msgv_t) (flags : Z) (bytes_read error : bool)
  : outcome recv_result :=
  pgm_recvmsgv fuel transport w [msgv] 1 flags bytes_read error.
End Delivery.

(** ** pgm_recvfrom and pgm_recv *)

(** [g_ntohs] on a little-endian host: the two octets swapped. *)
Definition g_ntohs (x : Z) : Z :=
  Z.lor (Z.shiftl (Z.land x 0xff) 8) (Z.land (Z.shiftr x 8) 0xff).

(** The [n] octets of [buf] from offset [off]; octets past the end of the
    modelled region read as 0. *)
Definition read_bytes (buf : list Z) (off : Z) (n : N) : list Z :=
  (λ i, default 0 (buf !! (Z.to_nat off + i)%nat)) <$> seq 0 (N.to_nat n).

(** [memcpy (dest + off, src, n)] *)
Definition memcpy (dest : list Z) (off : N) (src : list Z) : list Z :=
  list_inserts (N.to_nat off) src dest.

Section Recvfrom.
Context {Ext : Type}.
Variable K : collaborators Ext.
Variable CONFIG_HAVE_POLL : bool.
Local Abbreviation transport_t := (pgm_transport_t Ext).

Record recvfrom_result := {
  rf_status : GIOStatus;
  rf_transport : transport_t;
  rf_world : World;
  rf_data : list Z;               (* the caller's buffer *)
  rf_bytes_read_out : option N;   (* what was stored through _bytes_read *)
  rf_from : option pgm_tsi_t;     (* what was stored through from *)
  rf_error : option GError
}.

(** The copy loop of [pgm_recvfrom].  [skb] is the pointer
    [msgv.msgv_skb[0]] and [index] the number of [skb++] made on it: the
    loop steps the buffer pointer itself, not the vector of buffer
    pointers, so from the second round on it reads past the buffer
    object. *)
Fixpoint recvfrom_copy (fuel : nat) (t : transport_t) (skb : nat)
    (index : nat) (data : list Z) (len bytes_copied bytes_read : N)
  : outcome (list Z * N) :=
  if (bytes_copied <? bytes_read)%N then
    match fuel with
    | O => OutOfFuel
    | S fuel' =>
        match index with
        | O =>
            let copy_len := Z.to_N (skb_len (skb_at t skb)) in
            '(copy_len, bytes_read) ←
              (if (len <? bytes_copied + copy_len)%N then
                 (* APDU truncated, original length .. bytes. *)
                 @g_error unit;;
                 mret ((len - bytes_copied)%N, len)
               else mret (copy_len, bytes_read));
            recvfrom_copy fuel' t skb (S index)
              (memcpy data bytes_copied
                 (read_bytes (skb_head (skb_at t skb))
                             (skb_data (skb_at t skb)) copy_len))
              len (bytes_copied + copy_len)%N bytes_read
        | S _ => Undefined
        end
    end
  else mret (data, bytes_copied).

(** vanilla read function.  [data] is the caller's buffer of [len]
    octets; [_bytes_read], [from] and [error] tell whether the
    out-pointers are non-NULL.  The local [msgv] starts out empty; a
    Normal return that left it without a buffer makes the read of
    [msgv.msgv_skb[0]] undefined. *)
Definition pgm_recvfrom (fuel : nat) (transport : transport_t) (w : World)
    (data : list Z) (len : N) (flags : Z) (_bytes_read from error : bool)
  : outcome recvfrom_result :=
  r ← pgm_recvmsg K CONFIG_HAVE_POLL fuel transport w
        {| msgv_len := 0; msgv_skb := [] |}
        (Z.land flags (Z.lnot (Z.lor MSG_FIN MSG_ERRQUEUE))) true error;
  if negb (bool_decide (r_status r = G_IO_STATUS_NORMAL)) then
    mret {| rf_status := r_status r; rf_transport := r_transport r;
            rf_world := r_world r; rf_data := data;
            rf_bytes_read_out := None; rf_from := None;
            rf_error := r_error r |}
  else
    match r_msgv r !! 0%nat ≫= (λ msgv, msgv_skb msgv !! 0%nat),
          r_bytes_read_out r with
    | Some skb, Some bytes_read =>
        let t := r_transport r in
        let from_tsi :=
          if from
          then Some {| gsi := gsi (skb_tsi (skb_at t skb));
                       sport := g_ntohs (sport (skb_tsi (skb_at t skb))) |}
          else None in
        '(data1, bytes_copied) ←
          recvfrom_copy fuel t skb 0 data len 0 bytes_read;
        mret {| rf_status := G_IO_STATUS_NORMAL; rf_transport := t;
                rf_world := r_world r; rf_data := data1;
                rf_bytes_read_out :=
                  if _bytes_read then Some bytes_copied else None;
                rf_from := from_tsi; rf_error := r_error r |}
    | _, _ => Undefined
    end.

Definition pgm_recv (fuel : nat) (transport : transport_t) (w : World)
    (data : list Z) (len : N) (flags : Z) (bytes_read error : bool)
  : outcome recvfrom_result :=
  pgm_recvfrom fuel transport w data len flags bytes_read false error.
End Recvfrom.

(** The arguments of one delivery call. *)
Record delivery_call := {
  call_fuel : nat;
  call_msg_start : list pgm_msgv_t;
  call_msg_len : N;
  call_flags : Z;
  call_bytes_read : bool;
  call_error : bool
}.

(** ** A bench of collaborators

    Small stand-ins for the collaborators, on which the model runs: a wire
    parser for the 16-octet common header, a receive window that queues
    the data packets of each peer and hands them out one APDU per packet,
    a timer that is never due, and a notification pipe without state.
    The window state [ext] maps a peer to the buffers it holds. *)

Module Bench.
Definition window_state := gmap nat (list nat).
Definition transport_t := pgm_transport_t window_state.

Definition ENOBUFS : Z := 105.

Definition decode_type (code : Z) : pgm_type_e :=
  if code =? 0 then PGM_SPM else if code =? 1 then PGM_POLL
  else if code =? 2 then PGM_POLR else if code =? 4 then PGM_ODATA
  else if code =? 5 then PGM_RDATA else if code =? 8 then PGM_NAK
  else if code =? 9 then PGM_NNAK else if code =? 10 then PGM_NCF
  else if code =? 12 then PGM_SPMR else PGM_UNKNOWN code.

(** Source port, destination port, type, options, checksum, GSI and TSDU
    length, in network order; a datagram shorter than the header is
    invalid.  The checksum is not verified. *)
Definition parse (s : pgm_sk_buff_t)
  : pgm_sk_buff_t * bool * option PGMPacketError :=
  match skb_head s with
  | sp1 :: sp0 :: dp1 :: dp0 :: ty :: _ :: _ :: _
    :: g5 :: g4 :: g3 :: g2 :: g1 :: g0 :: _ :: _ :: _ =>
      let ty := decode_type (Z.land ty 0xf) in
      let sp := sp1 * 256 + sp0 in
      let dp := dp1 * 256 + dp0 in
      ({| skb_transport := skb_transport s; skb_tstamp := skb_tstamp s;
          skb_head := skb_head s; skb_truesize := skb_truesize s;
          skb_data := skb_data s; skb_len := skb_len s;
          skb_tail := skb_tail s; skb_header := 0;
          skb_pgm_header :=
            {| pgm_sport := sp; pgm_dport := dp; pgm_type := ty |};
          skb_tsi :=
            {| gsi := ((((g5 * 256 + g4) * 256 + g3) * 256 + g2) * 256
                       + g1) * 256 + g0;
               sport := if pgm_is_upstream ty || pgm_is_peer ty
                        then dp else sp |} |},
       true, None)
  | _ => (s, false, Some PGM_PACKET_ERROR_OTHER)
  end.

Definition window (t : transport_t) (peer : nat) : list nat :=
  default [] (ext t !! peer).

(** The window takes a data packet that carries at least one octet. *)
Definition on_data (t : transport_t) (peer skb : nat)
  : transport_t * bool :=
  if 0 <? skb_len (skb_at t skb)
  then (set_ext (<[peer := window t peer ++ [skb]]> (ext t)) t, true)
  else (t, false).

Definition peer_has_pending (t : transport_t) (peer : nat) : bool :=
  match window t peer with [] => false | _ :: _ => true end.

Definition peer_set_pending (t : transport_t) (peer : nat) : transport_t :=
  if bool_decide (peer ∈ peers_pending t) then t
  else set_peers_pending (peers_pending t ++ [peer]) t.

(** Hands out the oldest packet of the first pending peer as one APDU,
    when the vector has room. *)
Definition flush_peers_pending (t : transport_t) (msgv : list pgm_msgv_t)
    (pmsg msg_end bytes_read data_read : N) : flush_result window_state :=
  let unchanged t retval :=
    {| fl_transport := t; fl_msgv := msgv; fl_pmsg := pmsg;
       fl_bytes_read := bytes_read; fl_data_read := data_read;
       fl_retval := retval |} in
  match peers_pending t with
  | [] => unchanged t 0
  | peer :: rest =>
      match window t peer with
      | [] => unchanged (set_peers_pending rest t) 0
      | skb :: more =>
          let n := Z.to_N (skb_len (skb_at t skb)) in
          let t1 :=
            set_peers_pending
              (match more with [] => rest | _ :: _ => peer :: rest end)
              (set_ext (<[peer := more]> (ext t)) t) in
          if (n =? 0)%N then unchanged t1 0
          else if (pmsg <? msg_end)%N then
            {| fl_transport := t1;
               fl_msgv :=
                 <[N.to_nat pmsg :=
                     {| msgv_len := 1; msgv_skb := [skb] |}]> msgv;
               fl_pmsg := (pmsg + 1)%N;
               fl_bytes_read := (bytes_read + n)%N;
               fl_data_read := (data_read + 1)%N;
               fl_retval :=
                 if (pmsg + 1 <? msg_end)%N then 0 else - ENOBUFS |}
          else unchanged t (- ENOBUFS)
      end
  end.

Definition new_peer (t : transport_t) (tsi : pgm_tsi_t)
    (src_addr dst_addr : sockaddr) : transport_t * nat :=
  let p := fresh (dom (peers t)) in
  (set_peers_hashtable (<[tsi := p]> (peers_hashtable t))
     (set_peers
        (<[p := {| peer_tsi := tsi; peer_last_packet := 0;
                   peer_group_nla := dst_addr;
                   peer_cumulative_stats := λ _, 0%N |}]> (peers t)) t),
   p).

(** The reset descriptor: an empty buffer that carries the peer's TSI, in
    the first entry of the vector. *)
Definition set_reset_error (t : transport_t) (peer : nat)
    (msgv : list pgm_msgv_t) : transport_t * list pgm_msgv_t :=
  let '(t1, e) := pgm_alloc_skb 0 t in
  (skb_update
     (λ s, {| skb_transport := true; skb_tstamp := skb_tstamp s;
              skb_head := skb_head s; skb_truesize := skb_truesize s;
              skb_data := skb_data s; skb_len := skb_len s;
              skb_tail := skb_tail s; skb_header := skb_header s;
              skb_pgm_header := skb_pgm_header s;
              skb_tsi := tsi_of_peer t peer |}) e t1,
   <[0%nat := {| msgv_len := 0; msgv_skb := [e] |}]> msgv).

Definition is_addr_multicast (sa : sockaddr) : bool :=
  (sa_family sa =? AF_INET) && (Z.shiftr (sa_addr sa) 28 =? 14).

Definition K : collaborators window_state :=
  {| pgm_on_nak := λ t _, (t, true);
     pgm_on_nnak := λ t _, (t, true);
     pgm_on_spmr := λ t _ _, (t, true);
     pgm_on_peer_nak := λ t _ _, (t, true);
     pgm_on_data := on_data;
     pgm_on_ncf := λ t _ _, (t, true);
     pgm_on_spm := λ t _ _, (t, true);
     pgm_new_peer := new_peer;
     pgm_peer_has_pending := peer_has_pending;
     pgm_peer_set_pending := peer_set_pending;
     pgm_flush_peers_pending := flush_peers_pending;
     pgm_set_reset_error := set_reset_error;
     pgm_parse_raw := λ s dst, let '(s1, ok, e) := parse s in (s1, dst, ok, e);
     pgm_parse_udp_encap := parse;
     pgm_timer_check := λ _, false;
     pgm_timer_dispatch := λ t, t;
     pgm_timer_prepare := λ t, t;
     pgm_timer_expiration := λ _, 1000;
     pgm_notify_is_valid := λ _, true;
     pgm_notify_clear := λ t, t;
     pgm_notify_send := λ t, t;
     pgm_transport_poll_info := λ _, 2;
     pgm_transport_select_info := λ _, 2;
     pgm_sockaddr_is_addr_multicast := is_addr_multicast |}.

(** A bound transport that both sends and receives: source port 7500,
    data-destination port 7600, one receive buffer at address 0. *)
Definition transport0 : transport_t :=
  {| is_bound := true; is_destroyed := false; is_reset := false;
     is_abort_on_reset := false; can_send_data := true;
     can_recv_data := true; is_pending_read := false;
     is_edge_triggered_recv := false; udp_encap_ucast_port := 0;
     max_tpdu := 1500; nak_bo_ivl := 50;
     tsi := {| gsi := 1; sport := 7500 |}; dport := 7600; recv_sock := 3;
     rx_buffer := Some 0%nat; peers_hashtable := ∅; peers_pending := [];
     cumulative_stats := λ _, 0%N;
     skbs := {[ 0%nat := fst (fst (parse skb_zero)) ]};
     peers := ∅; ext := ∅ |}.

(** The octets of a PGM packet: header and payload. *)
Definition packet (sp dp ty gsi : Z) (payload : list Z) : list Z :=
  [sp / 256; sp mod 256; dp / 256; dp mod 256; ty; 0; 0; 0;
   0; 0; 0; 0; 0; gsi; 0; Z.of_nat (length payload)] ++ payload.

Definition datagram_of (src : sockaddr) (cmsgs : list cmsghdr)
    (bytes : list Z) : datagram :=
  {| dg_len := Z.of_nat (length bytes); dg_bytes := bytes; dg_src := src;
     dg_cmsgs := cmsgs |}.

Definition ipv4 (addr : Z) : sockaddr :=
  {| sa_family := AF_INET; sa_addr := addr; sa_scope_id := 0 |}.
Definition ipv6 (addr : Z) : sockaddr :=
  {| sa_family := AF_INET6; sa_addr := addr; sa_scope_id := 0 |}.

(** [transport0] with the octets [bytes] read into its receive buffer
    and parsed. *)
Definition received (bytes : list Z) : transport_t :=
  skb_update
    (λ s, (parse {| skb_transport := true; skb_tstamp := 1;
                    skb_head := bytes; skb_truesize := skb_truesize s;
                    skb_data := 0; skb_len := Z.of_nat (length bytes);
                    skb_tail := Z.of_nat (length bytes);
                    skb_header := skb_header s;
                    skb_pgm_header := skb_pgm_header s;
                    skb_tsi := skb_tsi s |}).1.1)
    0%nat transport0.

(** ODATA "hello" from the source (7, 9000) to our data port. *)
Definition odata_hello : list Z :=
  packet 9000 7600 4 7 [104; 101; 108; 108; 111].

(** [transport0] with one known peer, first in [peers_pending], and an
    unrecoverable loss flagged. *)
Definition transport_reset : transport_t :=
  set_is_reset true
    (set_peers_pending [0%nat]
       (new_peer transport0 {| gsi := 7; sport := 9000 |}
                 (ipv4 1) (ipv4 2)).1).

(** A window that hands out all the packets it holds for the first
    pending peer as the fragments of one APDU. *)
Definition flush_fragments (t : transport_t) (msgv : list pgm_msgv_t)
    (pmsg msg_end bytes_read data_read : N) : flush_result window_state :=
  let unchanged t retval :=
    {| fl_transport := t; fl_msgv := msgv; fl_pmsg := pmsg;
       fl_bytes_read := bytes_read; fl_data_read := data_read;
       fl_retval := retval |} in
  match peers_pending t with
  | [] => unchanged t 0
  | peer :: rest =>
      match window t peer with
      | [] => unchanged (set_peers_pending rest t) 0
      | skb :: more =>
          if (pmsg <? msg_end)%N then
            {| fl_transport :=
                 set_peers_pending rest (set_ext (<[peer := []]> (ext t)) t);
               fl_msgv :=
                 <[N.to_nat pmsg :=
                     {| msgv_len := N.of_nat (length (skb :: more));
                        msgv_skb := skb :: more |}]> msgv;
               fl_pmsg := (pmsg + 1)%N;
               fl_bytes_read :=
                 (bytes_read
                  + foldr (λ s n, Z.to_N (skb_len (skb_at t s)) + n) 0
                          (skb :: more))%N;
               fl_data_read := (data_read + 1)%N;
               fl_retval :=
                 if (pmsg + 1 <? msg_end)%N then 0 else - ENOBUFS |}
          else unchanged t (- ENOBUFS)
      end
  end.

(** A buffer of the window that holds the octets [payload]. *)
Definition fragment (payload : list Z) : pgm_sk_buff_t :=
  {| skb_transport := true; skb_tstamp := 1; skb_head := payload;
     skb_truesize := 1500; skb_data := 0;
     skb_len := Z.of_nat (length payload);
     skb_tail := Z.of_nat (length payload); skb_header := 0;
     skb_pgm_header :=
       {| pgm_sport := 9000; pgm_dport := 7600; pgm_type := PGM_ODATA |};
     skb_tsi := {| gsi := 7; sport := 9000 |} |}.

(** [transport0] with one known peer whose window holds the APDU "hello"
    in two fragments, "hel" and "lo", ready to be flushed. *)
Definition transport_fragments : transport_t :=
  set_ext {[ 0%nat := [1%nat; 2%nat] ]}
    (set_skbs
       (<[2%nat := fragment [108; 111]]>
          (<[1%nat := fragment [104; 101; 108]]> (skbs transport0)))
       (set_peers_pending [0%nat]
          (new_peer transport0 {| gsi := 7; sport := 9000 |}
                    (ipv4 1) (ipv4 2)).1)).

(** [transport0] as a receiver only: a muted source. *)
Definition transport_muted : transport_t :=
  set_can_send_data false transport0.

(** A NAK sent to our source port. *)
Definition nak_to_us : list Z := packet 7600 7500 8 1 [].

(** ODATA without payload from the source (7, 9000): the window refuses
    it. *)
Definition odata_empty : list Z := packet 9000 7600 4 7 [].

(** An SPMR multicast among receivers (not to our source port), about a
    source we do not know. *)
Definition spmr_among_peers : list Z := packet 7600 9999 12 7 [].

(** One non-blocking call with a vector of one entry. *)
Definition call0 : delivery_call :=
  {| call_fuel := 10;
     call_msg_start := [{| msgv_len := 0; msgv_skb := [] |}];
     call_msg_len := 1; call_flags := MSG_DONTWAIT;
     call_bytes_read := true; call_error := true |}.

Definition world0 (q : list datagram) (waits : list wait_outcome) : World :=
  {| sock_queue := q; wait_queue := waits; clock := 1; errno := 0;
     addr_of_src := 0x7ffc00001000;
     stack_src := sockaddr_zero; stack_dst := sockaddr_zero;
     stack_source := None |}.
End Bench.

(** * Specification-side definitions *)

(** ** The frame classifier *)

Global Instance pgm_type_eq_dec : EqDecision pgm_type_e.
Proof. solve_decision. Defined.

Inductive route := Downstream | Upstream | Peer | Discard.

Definition downstream_types : list pgm_type_e :=
  [PGM_ODATA; PGM_RDATA; PGM_NCF; PGM_SPM; PGM_POLL].
Definition upstream_types : list pgm_type_e :=
  [PGM_NAK; PGM_NNAK; PGM_SPMR; PGM_POLR].
Definition peer_types : list pgm_type_e := [PGM_NAK; PGM_SPMR].

(** The routing rule in the words of the specification: downstream types
    go downstream; otherwise a frame addressed to our source port with an
    upstream- or peer-capable type goes upstream; otherwise a frame
    addressed elsewhere with a peer-capable type goes to the peer handler;
    anything else is discarded. *)
Definition frame_route_spec (our_sport : Z) (h : pgm_header_t) : route :=
  if bool_decide (pgm_type h ∈ downstream_types) then Downstream
  else if bool_decide (pgm_dport h = our_sport
                       ∧ (pgm_type h ∈ upstream_types
                          ∨ pgm_type h ∈ peer_types)) then Upstream
  else if bool_decide (pgm_dport h ≠ our_sport ∧ pgm_type h ∈ peer_types)
  then Peer
  else Discard.

(** What the dispatcher does on each route. *)
Definition on_pgm_spec {Ext} (K : collaborators Ext)
    (transport : pgm_transport_t Ext) (skb : nat) (src_addr dst_addr : sockaddr)
    (source : option nat)
  : outcome (pgm_transport_t Ext * option nat * bool) :=
  match frame_route_spec (sport (tsi transport))
                         (skb_pgm_header (skb_at transport skb)) with
  | Downstream => on_downstream K transport skb src_addr dst_addr source
  | Upstream =>
      '(t1, ok) ← on_upstream K transport skb; mret (t1, None, ok)
  | Peer => on_peer K transport skb source
  | Discard =>
      mret (if can_send_data transport
            then transport_stat_incr PGM_PC_SOURCE_PACKETS_DISCARDED transport
            else transport, source, false)
  end.


(** ** The outcome of a wait *)

(** Some descriptor other than the receive socket is reported readable:
    an entry of [fds] after the first has events, or [readfds] holds a
    descriptor that is not [recv_sock]. *)
Definition other_descriptor_event (CONFIG_HAVE_POLL : bool) (recv_sock : Z)
    (o : wait_outcome) : bool :=
  if CONFIG_HAVE_POLL
  then existsb (λ revents, negb (revents =? 0)) (tail (wo_revents o))
  else existsb (λ fd, negb (fd =? recv_sock)) (wo_readfds o).

(** The wait failed: the descriptor set could not be built, or the
    blocking call returned -1. *)
Definition wait_failed {Ext} (K : collaborators Ext) (CONFIG_HAVE_POLL : bool)
    (transport : pgm_transport_t Ext) (o : wait_outcome) : Prop :=
  (if CONFIG_HAVE_POLL then pgm_transport_poll_info K transport
   else pgm_transport_select_info K transport) = -1
  ∨ wo_ready o = -1.

(** ** Contracts of the collaborators

    What a property of the receive path asks of the functions defined
    elsewhere is that they leave some observation [f] of the transport as
    it is.  The contracts are stated per group of collaborators. *)

Section Contracts.
Context {Ext A : Type}.
Variable f : pgm_transport_t Ext → A.
Variable K : collaborators Ext.

(** The packet processors of the source and of the receive window. *)
Record processors_keep : Prop := {
  on_nak_keeps : ∀ t s t' ok, pgm_on_nak K t s = (t', ok) → f t' = f t;
  on_nnak_keeps : ∀ t s t' ok, pgm_on_nnak K t s = (t', ok) → f t' = f t;
  on_spmr_keeps :
    ∀ t p s t' ok, pgm_on_spmr K t p s = (t', ok) → f t' = f t;
  on_peer_nak_keeps :
    ∀ t p s t' ok, pgm_on_peer_nak K t p s = (t', ok) → f t' = f t;
  on_data_keeps :
    ∀ t p s t' ok, pgm_on_data K t p s = (t', ok) → f t' = f t;
  on_ncf_keeps : ∀ t p s t' ok, pgm_on_ncf K t p s = (t', ok) → f t' = f t;
  on_spm_keeps : ∀ t p s t' ok, pgm_on_spm K t p s = (t', ok) → f t' = f t
}.

Definition new_peer_keeps : Prop :=
  ∀ t tsi src dst t' p, pgm_new_peer K t tsi src dst = (t', p) → f t' = f t.

(** The collaborators of the delivery loop: pending list, flush, timer
    and notification. *)
Record engine_keeps : Prop := {
  set_pending_keeps : ∀ t p, f (pgm_peer_set_pending K t p) = f t;
  flush_keeps :
    ∀ t m p e b d,
      f (fl_transport (pgm_flush_peers_pending K t m p e b d)) = f t;
  timer_dispatch_keeps : ∀ t, f (pgm_timer_dispatch K t) = f t;
  timer_prepare_keeps : ∀ t, f (pgm_timer_prepare K t) = f t;
  notify_clear_keeps : ∀ t, f (pgm_notify_clear K t) = f t;
  notify_send_keeps : ∀ t, f (pgm_notify_send K t) = f t
}.

(** [f] does not look at what the receive path itself stores into:
    buffers, peers, counters, the receive buffer pointer and the
    pending-read flag. *)
Record writes_keep : Prop := {
  set_skbs_keeps : ∀ v t, f (set_skbs v t) = f t;
  set_peers_keeps : ∀ v t, f (set_peers v t) = f t;
  set_cumulative_stats_keeps : ∀ v t, f (set_cumulative_stats v t) = f t;
  set_rx_buffer_keeps : ∀ v t, f (set_rx_buffer v t) = f t;
  set_is_pending_read_keeps : ∀ v t, f (set_is_pending_read v t) = f t
}.
End Contracts.

(** Modelled from the spec: [pgm_new_peer] is defined in receiver.c, which
    is not among the sources.  The spec has the downstream handler "create
    a new peer from (tsi, src_addr, dst_addr) and insert" it in the peer
    mapping: the mapping gains the entry from that TSI to the peer the
    call returns, and nothing else. *)
Definition new_peer_inserts {Ext} (K : collaborators Ext) : Prop :=
  ∀ t tsi src dst t' p,
    pgm_new_peer K t tsi src dst = (t', p) →
    peers_hashtable t' = <[tsi := p]> (peers_hashtable t).

Definition is_data_packet (ty : pgm_type_e) : bool :=
  bool_decide (ty ∈ [PGM_ODATA; PGM_RDATA]).

(** The two tests [on_downstream] makes before it looks the peer up. *)
Definition downstream_filters {Ext} (t : pgm_transport_t Ext) (skb : nat)
  : bool :=
  can_recv_data t
  && (pgm_dport (skb_pgm_header (skb_at t skb)) =? dport t).

(** The two tests [on_peer] makes before it looks the peer up. *)
Definition peer_filters {Ext} (t : pgm_transport_t Ext) (skb : nat) : bool :=
  can_recv_data t
  && (pgm_sport (skb_pgm_header (skb_at t skb)) =? dport t).

(** Modelled from the spec: [pgm_flush_peers_pending] is defined in
    receiver.c, which is not among the sources.  The spec has it flush the
    contiguous APDUs of the pending peers "into the caller's vector from
    [pmsg] up to [msg_end]", each entry being one APDU of one or more
    buffers, counted in [data_read] with its octets added to [bytes_read].
    So the count of APDUs never goes down; the caller's vector changes only
    when the count goes up; and every counted APDU brings at least one
    octet, so that a positive count comes with a positive number of
    octets. *)
Record flush_contract {Ext} (K : collaborators Ext) : Prop := {
  flush_never_uncounts :
    ∀ t m p e b d,
      (d ≤ fl_data_read (pgm_flush_peers_pending K t m p e b d))%N;
  flush_counts_entries :
    ∀ t m p e b d,
      fl_data_read (pgm_flush_peers_pending K t m p e b d) = d →
      fl_msgv (pgm_flush_peers_pending K t m p e b d) = m;
  flush_counts_octets :
    ∀ t m p e b d,
      (d ≠ 0%N → b ≠ 0%N) →
      fl_data_read (pgm_flush_peers_pending K t m p e b d) ≠ 0%N →
      fl_bytes_read (pgm_flush_peers_pending K t m p e b d) ≠ 0%N
}.

(** Writing the reset descriptor changes neither [is_reset] nor
    [is_abort_on_reset]. *)
Definition reset_descriptor_keeps_flags {Ext} (K : collaborators Ext) : Prop :=
  ∀ t peer msgv,
    is_reset (pgm_set_reset_error K t peer msgv).1 = is_reset t
    ∧ is_abort_on_reset (pgm_set_reset_error K t peer msgv).1
      = is_abort_on_reset t.

(** No collaborator raises or clears [is_reset]. *)
Definition no_new_reset {Ext} (K : collaborators Ext) : Prop :=
  processors_keep is_reset K ∧ new_peer_keeps is_reset K
  ∧ engine_keeps is_reset K.

(** The preconditions [pgm_recvmsgv] asserts once its guards are passed. *)
Definition delivery_preconditions {Ext} (K : collaborators Ext)
    (t : pgm_transport_t Ext) : Prop :=
  is_bound t = true ∧ is_destroyed t = false
  ∧ is_Some (rx_buffer t) ∧ 0 < max_tpdu t ∧ 1 < nak_bo_ivl t
  ∧ pgm_notify_is_valid K t = true.

(** [K] with another [pgm_set_reset_error]. *)
Definition with_set_reset_error {Ext} (K : collaborators Ext)
    (f : pgm_transport_t Ext → nat → list pgm_msgv_t →
         pgm_transport_t Ext * list pgm_msgv_t) : collaborators Ext :=
  {| pgm_on_nak := pgm_on_nak K; pgm_on_nnak := pgm_on_nnak K;
     pgm_on_spmr := pgm_on_spmr K; pgm_on_peer_nak := pgm_on_peer_nak K;
     pgm_on_data := pgm_on_data K; pgm_on_ncf := pgm_on_ncf K;
     pgm_on_spm := pgm_on_spm K; pgm_new_peer := pgm_new_peer K;
     pgm_peer_has_pending := pgm_peer_has_pending K;
     pgm_peer_set_pending := pgm_peer_set_pending K;
     pgm_flush_peers_pending := pgm_flush_peers_pending K;
     pgm_set_reset_error := f;
     pgm_parse_raw := pgm_parse_raw K;
     pgm_parse_udp_encap := pgm_parse_udp_encap K;
     pgm_timer_check := pgm_timer_check K;
     pgm_timer_dispatch := pgm_timer_dispatch K;
     pgm_timer_prepare := pgm_timer_prepare K;
     pgm_timer_expiration := pgm_timer_expiration K;
     pgm_notify_is_valid := pgm_notify_is_valid K;
     pgm_notify_clear := pgm_notify_clear K;
     pgm_notify_send := pgm_notify_send K;
     pgm_transport_poll_info := pgm_transport_poll_info K;
     pgm_transport_select_info := pgm_transport_select_info K;
     pgm_sockaddr_is_addr_multicast := pgm_sockaddr_is_addr_multicast K |}.

(** [K] with another [pgm_flush_peers_pending]. *)
Definition with_flush_peers_pending {Ext} (K : collaborators Ext)
    (f : pgm_transport_t Ext → list pgm_msgv_t → N → N → N → N →
         flush_result Ext) : collaborators Ext :=
  {| pgm_on_nak := pgm_on_nak K; pgm_on_nnak := pgm_on_nnak K;
     pgm_on_spmr := pgm_on_spmr K; pgm_on_peer_nak := pgm_on_peer_nak K;
     pgm_on_data := pgm_on_data K; pgm_on_ncf := pgm_on_ncf K;
     pgm_on_spm := pgm_on_spm K; pgm_new_peer := pgm_new_peer K;
     pgm_peer_has_pending := pgm_peer_has_pending K;
     pgm_peer_set_pending := pgm_peer_set_pending K;
     pgm_flush_peers_pending := f;
     pgm_set_reset_error := pgm_set_reset_error K;
     pgm_parse_raw := pgm_parse_raw K;
     pgm_parse_udp_encap := pgm_parse_udp_encap K;
     pgm_timer_check := pgm_timer_check K;
     pgm_timer_dispatch := pgm_timer_dispatch K;
     pgm_timer_prepare := pgm_timer_prepare K;
     pgm_timer_expiration := pgm_timer_expiration K;
     pgm_notify_is_valid := pgm_notify_is_valid K;
     pgm_notify_clear := pgm_notify_clear K;
     pgm_notify_send := pgm_notify_send K;
     pgm_transport_poll_info := pgm_transport_poll_info K;
     pgm_transport_select_info := pgm_transport_select_info K;
     pgm_sockaddr_is_addr_multicast := pgm_sockaddr_is_addr_multicast K |}.

(** The flags [pgm_recvfrom] hands to [pgm_recvmsg]. *)
Definition recvfrom_mask : Z := Z.lnot (Z.lor MSG_FIN MSG_ERRQUEUE).

(** ** Discarded frames

    How one datagram read at [recv_again] fares: whether the parser took
    it, where the classifier sends it, whether the handler returned TRUE,
    what [*source] held when the handler returned, and whether the
    transport is a sending one. *)
Record frame_verdict := {
  fv_valid : bool;
  fv_route : route;
  fv_accepted : bool;
  fv_source : option nat;
  fv_can_send : bool
}.

(** The verdict on the datagram that [recv_again] reads in the
    configuration [c]; none when nothing is read. *)
Definition frame_verdict_of {Ext} (K : collaborators Ext) (c : config)
  : option frame_verdict :=
  match rx_buffer (c_transport c) with
  | None => None
  | Some rx =>
      let r :=
        recvskb (c_transport c) (c_world c) rx MSG_DONTWAIT
                (addr_of_src (c_world c)) (c_src c) (c_dst c) in
      if rs_len r <=? 0 then None
      else
        let '(t2, dst1, is_valid, _) :=
          parse_frame K (rs_transport r) rx (rs_src r) (rs_dst r) in
        if negb is_valid then
          Some {| fv_valid := false; fv_route := Discard;
                  fv_accepted := false; fv_source := c_source c;
                  fv_can_send := can_send_data t2 |}
        else
          match on_pgm K t2 rx (rs_src r) dst1 (c_source c) with
          | Done (_, source, ok) =>
              Some {| fv_valid := true;
                      fv_route :=
                        frame_route_spec (sport (tsi t2))
                                         (skb_pgm_header (skb_at t2 rx));
                      fv_accepted := ok; fv_source := source;
                      fv_can_send := can_send_data t2 |}
          | _ => None
          end
  end.

(** The frames the claim counts: rejected by parsing, by classification,
    by the upstream handler or by the downstream handler, while
    [can_send_data] is true. *)
Definition claimed_source_discard (v : frame_verdict) : bool :=
  fv_can_send v
  && (negb (fv_valid v)
      || match fv_route v with
         | Discard => true
         | Upstream | Downstream => negb (fv_accepted v)
         | Peer => false
         end).

(** The frames the code counts: rejected by parsing or by classification
    while [can_send_data] is true; rejected by the upstream handler; or
    rejected by the downstream or the peer handler while [can_send_data]
    is true and [*source] is NULL. *)
Definition counts_as_source_discard (v : frame_verdict) : bool :=
  if negb (fv_valid v) then fv_can_send v
  else
    match fv_route v with
    | Discard => fv_can_send v
    | Upstream => negb (fv_accepted v)
    | Downstream | Peer =>
        negb (fv_accepted v) && bool_decide (fv_source v = None)
        && fv_can_send v
    end.

Definition frame_count {Ext} (count : frame_verdict → bool)
    (K : collaborators Ext) (pc : label) (c : config) : N :=
  match pc, frame_verdict_of K c with
  | L_recv_again, Some v => if count v then 1%N else 0%N
  | _, _ => 0%N
  end.

(** The number of counted frames in the run of the loop from [pc] and
    [c]. *)
Fixpoint loop_discards {Ext} (count : frame_verdict → bool)
    (K : collaborators Ext) (CONFIG_HAVE_POLL : bool) (fuel : nat)
    (msg_len : N) (flags : Z) (_bytes_read error : bool) (pc : label)
    (c : config) : N :=
  match fuel with
  | O => 0%N
  | S fuel' =>
      (frame_count count K pc c
       + match step K CONFIG_HAVE_POLL msg_len flags _bytes_read error pc c
         with
         | Goto l c' =>
             loop_discards count K CONFIG_HAVE_POLL fuel' msg_len flags
                           _bytes_read error l c'
         | _ => 0
         end)%N
  end.

(** The number of counted frames in one call: a call that stops at a guard
    or reports a reset on entry reads nothing. *)
Definition call_discards {Ext} (count : frame_verdict → bool)
    (K : collaborators Ext) (CONFIG_HAVE_POLL : bool)
    (t : pgm_transport_t Ext) (w : World) (a : delivery_call) : N :=
  if negb (is_bound t) || is_destroyed t || is_reset t then 0%N
  else
    loop_discards count K CONFIG_HAVE_POLL (call_fuel a) (call_msg_len a)
      (call_flags a) (call_bytes_read a) (call_error a) L_flush_first
      (entry_config K t w (call_msg_start a)).

Definition run_call {Ext} (K : collaborators Ext) (CONFIG_HAVE_POLL : bool)
    (t : pgm_transport_t Ext) (w : World) (a : delivery_call)
  : outcome recv_result :=
  pgm_recvmsgv K CONFIG_HAVE_POLL (call_fuel a) t w (call_msg_start a)
               (call_msg_len a) (call_flags a) (call_bytes_read a)
               (call_error a).

(** A run of delivery calls, each on the transport and the world the one
    before left. *)
Fixpoint run_calls {Ext} (K : collaborators Ext) (CONFIG_HAVE_POLL : bool)
    (calls : list delivery_call) (t : pgm_transport_t Ext) (w : World)
  : outcome (pgm_transport_t Ext * World) :=
  match calls with
  | [] => mret (t, w)
  | a :: rest =>
      r ← run_call K CONFIG_HAVE_POLL t w a;
      run_calls K CONFIG_HAVE_POLL rest (r_transport r) (r_world r)
  end.

(** The number of counted frames over a run. *)
Fixpoint run_discards {Ext} (count : frame_verdict → bool)
    (K : collaborators Ext) (CONFIG_HAVE_POLL : bool)
    (calls : list delivery_call) (t : pgm_transport_t Ext) (w : World) : N :=
  match calls with
  | [] => 0%N
  | a :: rest =>
      (call_discards count K CONFIG_HAVE_POLL t w a
       + match run_call K CONFIG_HAVE_POLL t w a with
         | Done r =>
             run_discards count K CONFIG_HAVE_POLL rest (r_transport r)
                          (r_world r)
         | _ => 0
         end)%N
  end.

(** [transport->cumulative_stats[PGM_PC_SOURCE_PACKETS_DISCARDED]] *)
Definition source_packets_discarded {Ext} (t : pgm_transport_t Ext) : N :=
  cumulative_stats t PGM_PC_SOURCE_PACKETS_DISCARDED.

(** No collaborator moves the source discard counter. *)
Definition discard_counter_is_ours {Ext} (K : collaborators Ext) : Prop :=
  processors_keep source_packets_discarded K
  ∧ new_peer_keeps source_packets_discarded K
  ∧ engine_keeps source_packets_discarded K
  ∧ ∀ t peer msgv,
      source_packets_discarded (pgm_set_reset_error K t peer msgv).1
      = source_packets_discarded t.

(** The invariant of the delivery loop behind Normal and Again: nothing is
    in the vector before an APDU is counted, and a counted APDU comes with
    octets. *)
Definition counts_agree {Ext} (msg_start : list pgm_msgv_t)
    (c : @config Ext) : Prop :=
  (c_data_read c = 0%N → c_msgv c = msg_start)
  ∧ (c_data_read c ≠ 0%N → c_bytes_read c ≠ 0%N).

(** * Further specification-side definitions *)

(** ** Termination of a non-blocking call

    An upper bound on the number of jumps the delivery loop can still make
    from the label [pc] in the configuration [c] when [MSG_DONTWAIT] is
    set: every datagram still queued costs at most three jumps
    ([recv_again], [flush_pending], [check_for_repeat]). *)
Definition nonblocking_measure {Ext} (pc : label) (c : @config Ext) : nat :=
  let n := length (sock_queue (c_world c)) in
  match pc with
  | L_out => 1
  | L_check_for_repeat => if 0 <? c_len c then 3 * n + 4 else 2
  | L_flush_pending => if 0 <? c_len c then 3 * n + 5 else 3
  | L_recv_again => 3 * n + 3
  | L_flush_first => 3 * n + 4
  end.

(** ** What a delivery call stores through its out-pointers

    Octets are reported only with Normal and through a non-NULL
    [_bytes_read]; an error is stored only through a non-NULL [error], and
    it is either the connection reset that comes with Eof when ERRQUEUE is
    not asked for, or the mapping of [errno] that comes with Error in a
    blocking call. *)
Definition out_pointers_discipline (flags : Z) (_bytes_read error : bool)
    {Ext} (r : @recv_result Ext) : Prop :=
  (r_bytes_read_out r ≠ None →
   r_status r = G_IO_STATUS_NORMAL ∧ _bytes_read = true)
  ∧ (r_status r = G_IO_STATUS_NORMAL ∨ r_status r = G_IO_STATUS_AGAIN →
     r_error r = None)
  ∧ ∀ e, r_error r = Some e →
      error = true
      ∧ ((r_status r = G_IO_STATUS_EOF
          ∧ err_code e = PGM_RECV_ERROR_CONNRESET
          ∧ flag_set flags MSG_ERRQUEUE = false)
         ∨ (r_status r = G_IO_STATUS_ERROR
            ∧ flag_set flags MSG_DONTWAIT = false
            ∧ err_code e = pgm_recv_error_from_errno (errno (r_world r))
            ∧ err_code e ≠ PGM_RECV_ERROR_CONNRESET)).

(** The notification pipe does not touch the list of pending peers nor
    the trigger mode. *)
Definition notify_keeps_pending {Ext} (K : collaborators Ext) : Prop :=
  ∀ t,
    peers_pending (pgm_notify_clear K t) = peers_pending t
    ∧ is_edge_triggered_recv (pgm_notify_clear K t) = is_edge_triggered_recv t
    ∧ peers_pending (pgm_notify_send K t) = peers_pending t
    ∧ is_edge_triggered_recv (pgm_notify_send K t) = is_edge_triggered_recv t.

(** ** What an accepted frame has passed

    The session filter of each route of the dispatcher, on the transport
    and the parsed buffer as [on_pgm] receives them. *)
Definition session_filter {Ext} (t : pgm_transport_t Ext) (skb : nat)
    (r : route) : Prop :=
  let h := skb_pgm_header (skb_at t skb) in
  match r with
  | Downstream => can_recv_data t = true ∧ pgm_dport h = dport t
  | Upstream =>
      can_send_data t = true
      ∧ pgm_dport h = sport (tsi t)
      ∧ pgm_sport h = dport t
      ∧ gsi (skb_tsi (skb_at t skb)) = gsi (tsi t)
  | Peer =>
      can_recv_data t = true
      ∧ pgm_dport h ≠ sport (tsi t)
      ∧ pgm_sport h = dport t
      ∧ is_Some (peers_hashtable t !! skb_tsi (skb_at t skb))
  | Discard => False
  end.

(** The packet types a handler has a processor for. *)
Definition processed_types : list pgm_type_e :=
  [PGM_ODATA; PGM_RDATA; PGM_NCF; PGM_SPM; PGM_NAK; PGM_NNAK; PGM_SPMR].

(** ** The peer [*source] names when the dispatcher returns

    [source] is what the caller's [*source] held before the call, [t] the
    transport before and [t'] the transport after.  Upstream the slot is
    cleared.  A frame that a handler rejects before its lookup, and a
    frame on the discard route, leave the slot as the caller had it. *)
Definition source_after {Ext} (t : pgm_transport_t Ext) (skb : nat)
    (source : option nat) (t' : pgm_transport_t Ext) : option nat :=
  let frame_tsi := skb_tsi (skb_at t skb) in
  match frame_route_spec (sport (tsi t)) (skb_pgm_header (skb_at t skb)) with
  | Downstream =>
      if downstream_filters t skb then peers_hashtable t' !! frame_tsi
      else source
  | Upstream => None
  | Peer =>
      if peer_filters t skb then peers_hashtable t !! frame_tsi else source
  | Discard => source
  end.

(** ** Receiver statistics

    [peer->cumulative_stats[i]] of the peer at [peer]; nothing when no
    peer lives there. *)
Definition peer_counter {Ext} (i : receiver_counter) (peer : nat)
    (t : pgm_transport_t Ext) : option N :=
  (λ p, peer_cumulative_stats p i) <$> peers t !! peer.

(** ** What a delivery call leaves alone

    An observation [f] of the transport that no store of the receive path
    reaches (buffers, peers, counters, the receive buffer pointer, the
    pending-read flag, the reset flag) and that every collaborator
    keeps. *)
Definition out_of_reach {Ext A} (K : collaborators Ext)
    (f : pgm_transport_t Ext → A) : Prop :=
  writes_keep f
  ∧ (∀ v t, f (set_is_reset v t) = f t)
  ∧ processors_keep f K
  ∧ new_peer_keeps f K
  ∧ engine_keeps f K
  ∧ ∀ t peer msgv, f (pgm_set_reset_error K t peer msgv).1 = f t.

(** The session configuration: what the transport is bound to and how it
    is set up. *)
Definition session_configuration {Ext} (t : pgm_transport_t Ext) :=
  (is_bound t, is_destroyed t, is_abort_on_reset t, can_send_data t,
   can_recv_data t, is_edge_triggered_recv t, udp_encap_ucast_port t,
   max_tpdu t, nak_bo_ivl t, tsi t, dport t, recv_sock t).

(** ** The stamp of a failed read

    What [recvskb] makes of the buffer when [recvmsg] returns -1: the test
    on the length is [if (len)], so the back pointer and the time stamp are
    set, [data] goes back to [head], and the -1 is assigned to the length
    and added to [data] for the tail.  (The fields are unbounded here, as
    everywhere in this file: their widths are declared in skbuff.h.) *)
Definition failed_read_stamp (now : Z) (s : pgm_sk_buff_t) : pgm_sk_buff_t :=
  {| skb_transport := true; skb_tstamp := now; skb_head := skb_head s;
     skb_truesize := skb_truesize s; skb_data := 0; skb_len := -1;
     skb_tail := -1; skb_header := skb_header s;
     skb_pgm_header := skb_pgm_header s; skb_tsi := skb_tsi s |}.

(** ** Packet information

    The control messages [recvskb] looks for, and the address it makes of
    one: an IPv4 message gives family and address and leaves the scope id
    of [*dst_addr] as it is; an IPv6 message gives family, address and
    scope id. *)
Definition is_in_pktinfo (cmsg : cmsghdr) : bool :=
  (IPPROTO_IP =? cmsg_level cmsg) && (IP_PKTINFO =? cmsg_type cmsg).

Definition is_in6_pktinfo (cmsg : cmsghdr) : bool :=
  (IPPROTO_IPV6 =? cmsg_level cmsg) && (IPV6_PKTINFO =? cmsg_type cmsg).

Definition is_pktinfo (cmsg : cmsghdr) : bool :=
  is_in_pktinfo cmsg || is_in6_pktinfo cmsg.

Definition pktinfo_address (cmsg : cmsghdr) (dst : sockaddr) : sockaddr :=
  if is_in_pktinfo cmsg
  then {| sa_family := AF_INET; sa_addr := ipi_addr cmsg;
          sa_scope_id := sa_scope_id dst |}
  else {| sa_family := AF_INET6; sa_addr := ipi6_addr cmsg;
          sa_scope_id := ipi6_ifindex cmsg |}.

(** The bench transport on a UDP encapsulated socket, unicast port 3056. *)
Definition transport_udp_encap : Bench.transport_t :=
  {| is_bound := true; is_destroyed := false; is_reset := false;
     is_abort_on_reset := false; can_send_data := true;
     can_recv_data := true; is_pending_read := false;
     is_edge_triggered_recv := false; udp_encap_ucast_port := 3056;
     max_tpdu := 1500; nak_bo_ivl := 50;
     tsi := tsi Bench.transport0; dport := 7600; recv_sock := 3;
     rx_buffer := Some 0%nat; peers_hashtable := ∅; peers_pending := [];
     cumulative_stats := λ _, 0%N;
     skbs := skbs Bench.transport0;
     peers := ∅; ext := ∅ |}.

(** ** The source statistics

    No collaborator moves a counter of [transport->cumulative_stats]. *)
Definition statistics_are_ours {Ext} (K : collaborators Ext) : Prop :=
  processors_keep cumulative_stats K
  ∧ new_peer_keeps cumulative_stats K
  ∧ engine_keeps cumulative_stats K
  ∧ ∀ t peer msgv,
      cumulative_stats (pgm_set_reset_error K t peer msgv).1
      = cumulative_stats t.

(** [transport->cumulative_stats[PGM_PC_SOURCE_CKSUM_ERRORS]] *)
Definition source_cksum_errors {Ext} (t : pgm_transport_t Ext) : N :=
  cumulative_stats t PGM_PC_SOURCE_CKSUM_ERRORS.

(** From the statistics [s] to the statistics [s'] the checksum errors
    have not gone down, and have grown by no more than the discards. *)
Definition counters_grow (s s' : source_counter → N) : Prop :=
  (s PGM_PC_SOURCE_CKSUM_ERRORS ≤ s' PGM_PC_SOURCE_CKSUM_ERRORS)%N
  ∧ (s' PGM_PC_SOURCE_CKSUM_ERRORS + s PGM_PC_SOURCE_PACKETS_DISCARDED
     ≤ s' PGM_PC_SOURCE_PACKETS_DISCARDED + s PGM_PC_SOURCE_CKSUM_ERRORS)%N.

(** ** A call that cannot stop in an assertion

    Collaborators that raise no reset and leave [transport->rx_buffer]
    alone, and a transport that is not reset and has a receive buffer. *)
Definition healthy {Ext} (K : collaborators Ext) : Prop :=
  no_new_reset K
  ∧ processors_keep rx_buffer K
  ∧ new_peer_keeps rx_buffer K
  ∧ engine_keeps rx_buffer K.

Definition readable {Ext} (t : pgm_transport_t Ext) : Prop :=
  is_reset t = false ∧ is_Some (rx_buffer t).

(** * Properties *)

(** ** The frame classifier *)

Lemma pgm_is_downstream_spec ty :
  pgm_is_downstream ty = bool_decide (ty ∈ downstream_types).
Proof. destruct ty; reflexivity. Qed.

Lemma pgm_is_upstream_spec ty :
  pgm_is_upstream ty = bool_decide (ty ∈ upstream_types).
Proof. destruct ty; reflexivity. Qed.

Lemma pgm_is_peer_spec ty :
  pgm_is_peer ty = bool_decide (ty ∈ peer_types).
Proof. destruct ty; reflexivity. Qed.

Lemma frame_route_spec_code our_sport h :
  frame_route_spec our_sport h =
    if pgm_is_downstream (pgm_type h) then Downstream
    else if pgm_dport h =? our_sport then
      if pgm_is_upstream (pgm_type h) || pgm_is_peer (pgm_type h)
      then Upstream else Discard
    else if pgm_is_peer (pgm_type h) then Peer else Discard.
Proof.
  unfold frame_route_spec.
  rewrite pgm_is_downstream_spec, pgm_is_upstream_spec, pgm_is_peer_spec.
  destruct (Z.eqb_spec (pgm_dport h) our_sport) as [Heq | Hne];
    repeat case_bool_decide; simpl; try reflexivity; exfalso; tauto.
Qed.

Lemma on_pgm_eq_spec {Ext} (K : collaborators Ext)
    (transport : pgm_transport_t Ext) (skb : nat) (src_addr dst_addr : sockaddr)
    (source : option nat) :
  on_pgm K transport skb src_addr dst_addr source
  = on_pgm_spec K transport skb src_addr dst_addr source.
Proof.
  unfold on_pgm, on_pgm_spec. rewrite frame_route_spec_code.
  destruct (pgm_is_downstream _); [reflexivity |].
  destruct (_ =? _).
  - destruct (_ || _); [reflexivity |].
    destruct (can_send_data transport); reflexivity.
  - destruct (pgm_is_peer _); [reflexivity |].
    destruct (can_send_data transport); reflexivity.
Qed.

(** C4.  The dispatcher [on_pgm] routes every parsed frame by the rule of
    [frame_route_spec]: to [on_downstream] iff the type is one of ODATA,
    RDATA, NCF, SPM, POLL; otherwise to [on_upstream] (with [*source] set to
    NULL) iff the destination port is our source port and the type is
    upstream- or peer-capable; otherwise to [on_peer] iff the destination
    port is not ours and the type is NAK or SPMR; otherwise the frame is
    discarded, and the source discard counter moves only when
    [can_send_data] is set. *)
Theorem on_pgm_routes {Ext} (K : collaborators Ext)
    (transport : pgm_transport_t Ext) (skb : nat) (src_addr dst_addr : sockaddr)
    (source : option nat) :
  on_pgm K transport skb src_addr dst_addr source
  = match frame_route_spec (sport (tsi transport))
                           (skb_pgm_header (skb_at transport skb)) with
    | Downstream => on_downstream K transport skb src_addr dst_addr source
    | Upstream =>
        '(t1, ok) ← on_upstream K transport skb; mret (t1, None, ok)
    | Peer => on_peer K transport skb source
    | Discard =>
        mret (if can_send_data transport
              then transport_stat_incr PGM_PC_SOURCE_PACKETS_DISCARDED
                     transport
              else transport, source, false)
    end.
Proof.
  unfold on_pgm. rewrite frame_route_spec_code.
  destruct (pgm_is_downstream _); [reflexivity |].
  destruct (_ =? _).
  - destruct (_ || _); [reflexivity |].
    destruct (can_send_data transport); reflexivity.
  - destruct (pgm_is_peer _); [reflexivity |].
    destruct (can_send_data transport); reflexivity.
Qed.

(** ** wait_for_event *)



(** C8, as the code has it.  A call of [wait_for_event] with a non-zero
    timeout returns, and with [o] the outcome of its [poll]/[select]: it
    returns EFAULT exactly when building the descriptor set or the blocking
    call failed; it returns EAGAIN exactly when nothing failed, the call
    reported a ready descriptor and the receive socket has an event; and it
    returns EINTR in every other case without failure, a timeout included. *)
Theorem wait_for_event_status {Ext} (K : collaborators Ext)
    (CONFIG_HAVE_POLL : bool) (transport : pgm_transport_t Ext) (w : World)
    (timeout : Z) :
  timeout ≠ 0 →
  let o := (wait_syscall w).2 in
  ∃ t' w' status,
    wait_for_event K CONFIG_HAVE_POLL transport w timeout
      = Done (t', w', status)
    ∧ (status = EFAULT ↔ wait_failed K CONFIG_HAVE_POLL transport o)
    ∧ (status = EAGAIN ↔
         ¬ wait_failed K CONFIG_HAVE_POLL transport o
         ∧ 0 < wo_ready o
         ∧ recv_sock_event CONFIG_HAVE_POLL t' o = true)
    ∧ (status = EINTR ↔
         ¬ wait_failed K CONFIG_HAVE_POLL transport o
         ∧ ¬ (0 < wo_ready o
              ∧ recv_sock_event CONFIG_HAVE_POLL t' o = true)).
Proof.
  intros Htimeout o. unfold wait_for_event, wait_failed.
  apply Z.eqb_neq in Htimeout. rewrite Htimeout. simpl.
  set (info := if CONFIG_HAVE_POLL then _ else _).
  destruct (Z.eqb_spec info (-1)) as [Hinfo | Hinfo].
  { eexists _, _, _. split; [reflexivity |].
    unfold EFAULT, EAGAIN, EINTR. intuition congruence. }
  subst o. destruct (wait_syscall w) as [w1 o]. simpl.
  destruct (Z.eqb_spec (wo_ready o) (-1)) as [Hready | Hready].
  { eexists _, _, _. split; [reflexivity |].
    unfold EFAULT, EAGAIN, EINTR. intuition congruence. }
  destruct (Z.ltb_spec 0 (wo_ready o)) as [Hpos | Hpos]; simpl.
  - destruct (recv_sock_event _ _ o) eqn:Hsock;
      (eexists _, _, _; split; [reflexivity |]);
      unfold EFAULT, EAGAIN, EINTR; intuition congruence.
  - eexists _, _, _. split; [reflexivity |].
    unfold EFAULT, EAGAIN, EINTR. intuition (try congruence; lia).
Qed.

(** The bench at a timed-out wait. *)
Lemma wait_for_event_status_witness :
  (1000 : Z) ≠ 0
  ∧ ∃ t' w' status,
      wait_for_event Bench.K true Bench.transport0 (Bench.world0 [] []) 1000
        = Done (t', w', status)
      ∧ (status = EINTR ↔
           ¬ wait_failed Bench.K true Bench.transport0
               (wait_syscall (Bench.world0 [] [])).2
           ∧ ¬ (0 < wo_ready (wait_syscall (Bench.world0 [] [])).2
                ∧ recv_sock_event true t'
                    (wait_syscall (Bench.world0 [] [])).2 = true)).
Proof.
  split; [lia |].
  destruct (wait_for_event_status Bench.K true Bench.transport0
              (Bench.world0 [] []) 1000 ltac:(lia))
    as (t' & w' & status & Hrun & _ & _ & Hintr).
  exists t', w', status. split; [exact Hrun | exact Hintr].
Defined.

(** C8, as stated, fails: a wait that times out (no descriptor ready at
    all) returns EINTR although no non-socket descriptor was readable. *)
Lemma wait_for_event_timeout_returns_EINTR :
  let o := {| wo_ready := 0; wo_revents := [0; 0]; wo_readfds := [];
              wo_errno := 0 |} in
  wait_for_event Bench.K true Bench.transport0 (Bench.world0 [] [o]) 1000
    = Done (Bench.transport0, Bench.world0 [] [], EINTR)
  ∧ other_descriptor_event true (recv_sock Bench.transport0) o = false
  ∧ ¬ (∀ status, wait_for_event Bench.K true Bench.transport0
                     (Bench.world0 [] [o]) 1000
                   = Done (Bench.transport0, Bench.world0 [] [], status) →
                 (status = EINTR ↔
                    other_descriptor_event true (recv_sock Bench.transport0) o
                    = true)).
Proof.
  intros o. split_and!; [reflexivity | reflexivity |].
  intros H. specialize (H EINTR eq_refl). destruct H as [H _].
  specialize (H eq_refl). discriminate H.
Qed.

(** ** recvskb *)

(** The address of an object aligned on four octets never reads as
    [AF_INET6] through [sockaddr_view_of_pointer]. *)
Lemma aligned_pointer_family (p : Z) :
  p mod 4 = 0 →
  (AF_INET6 =? pgm_sockaddr_family (sockaddr_view_of_pointer p)) = false.
Proof.
  intros Halign. apply Z.eqb_neq. unfold pgm_sockaddr_family, AF_INET6. simpl.
  change 65535 with (Z.ones 16). rewrite Z.land_ones by lia.
  intros Heq. change (2 ^ 16) with 65536 in Heq.
  Z.div_mod_to_equations. lia.
Qed.

(** On a socket without UDP encapsulation the reader never asks for the
    packet information: whatever the family of the source address and
    whatever the control messages, it returns what [recvmsg] returned. *)
Lemma recvskb_raw_socket {Ext} (transport : pgm_transport_t Ext) (w : World)
    (skb : nat) (flags src_addr : Z) (src dst : sockaddr) :
  udp_encap_ucast_port transport = 0 →
  src_addr mod 4 = 0 →
  rs_len (recvskb transport w skb flags src_addr src dst)
  = dg_len (recvmsg w).2.
Proof.
  intros Hraw Halign. unfold recvskb.
  rewrite Hraw, aligned_pointer_family by exact Halign.
  destruct (recvmsg w) as [w1 d]. reflexivity.
Qed.

(** With UDP encapsulation the packet information is mandatory: without
    it the reader returns -1. *)
Lemma recvskb_udp_encap_requires_pktinfo {Ext} (transport : pgm_transport_t Ext)
    (w : World) (skb : nat) (flags src_addr : Z) (src dst : sockaddr) :
  udp_encap_ucast_port transport ≠ 0 →
  pktinfo_dst (dg_cmsgs (recvmsg w).2) dst = None →
  rs_len (recvskb transport w skb flags src_addr src dst) = -1.
Proof.
  intros Hudp Hnone. unfold recvskb.
  destruct (recvmsg w) as [w1 d]. simpl in *.
  apply Z.eqb_neq in Hudp. rewrite Hudp, Hnone. reflexivity.
Qed.

(** A read that [recvskb] refuses goes to [check_for_repeat] and leaves
    both source counters as they were. *)
Lemma refused_read_is_not_counted {Ext} (K : collaborators Ext) (c : config)
    (rx : nat) :
  rx_buffer (c_transport c) = Some rx →
  rs_len (recvskb (c_transport c) (c_world c) rx MSG_DONTWAIT
                  (addr_of_src (c_world c)) (c_src c) (c_dst c)) < 0 →
  ∃ c', recv_again K c = Goto L_check_for_repeat c'
        ∧ cumulative_stats (c_transport c')
          = cumulative_stats (c_transport c).
Proof.
  intros Hrx Hlen. unfold recv_again. rewrite Hrx.
  apply Z.ltb_lt in Hlen. rewrite Hlen.
  eexists. split; [reflexivity |]. simpl.
  unfold recvskb. destruct (recvmsg (c_world c)) as [w1 d].
  repeat case_match; reflexivity.
Qed.

(** C3 fails on the code.  A datagram of 21 octets from an IPv6 source,
    without any control message, read on a socket that is not UDP
    encapsulated: [recvskb] returns its length, not -1. *)
Theorem recvskb_ipv6_without_pktinfo :
  let d := Bench.datagram_of (Bench.ipv6 1) []
             (Bench.packet 9000 7600 4 7 [104; 101; 108; 108; 111]) in
  let w := Bench.world0 [d] [] in
  pgm_sockaddr_family (dg_src d) = AF_INET6
  ∧ pktinfo_dst (dg_cmsgs d) (stack_dst w) = None
  ∧ udp_encap_ucast_port Bench.transport0 = 0
  ∧ rs_len (recvskb Bench.transport0 w 0 MSG_DONTWAIT (addr_of_src w)
                    (stack_src w) (stack_dst w)) = 21.
Proof. intros d w. split_and!; reflexivity. Qed.

(** ** What the handlers leave alone *)

Ltac unfold_outcome :=
  unfold g_assert, mret, outcome_ret, mbind, outcome_bind in *.

Ltac unfold_stores :=
  unfold upstream_discarded, receiver_discarded, transport_stat_incr,
    peer_stat_add, peer_set_last_packet, peer_set_group_nla, skb_update,
    peer_update, pgm_alloc_skb, clear_pending_read in *.

Ltac strip_stores Hwrites :=
  repeat first
    [ rewrite (set_skbs_keeps _ Hwrites)
    | rewrite (set_peers_keeps _ Hwrites)
    | rewrite (set_cumulative_stats_keeps _ Hwrites)
    | rewrite (set_rx_buffer_keeps _ Hwrites)
    | rewrite (set_is_pending_read_keeps _ Hwrites) ].

Ltac through_processor Hproc :=
  etrans;
  [ first [ eapply (on_nak_keeps _ _ Hproc); eassumption
          | eapply (on_nnak_keeps _ _ Hproc); eassumption
          | eapply (on_spmr_keeps _ _ Hproc); eassumption
          | eapply (on_peer_nak_keeps _ _ Hproc); eassumption
          | eapply (on_data_keeps _ _ Hproc); eassumption
          | eapply (on_ncf_keeps _ _ Hproc); eassumption
          | eapply (on_spm_keeps _ _ Hproc); eassumption ] |].

Ltac keeps_with Hwrites Hproc :=
  repeat (strip_stores Hwrites; try reflexivity;
          try through_processor Hproc).

Section HandlersKeep.
Context {Ext A : Type}.
Variable f : pgm_transport_t Ext → A.
Variable K : collaborators Ext.
Hypothesis Hwrites : writes_keep f.
Hypothesis Hproc : processors_keep f K.

Ltac keeps := keeps_with Hwrites Hproc.

Lemma on_upstream_keeps t skb t' ok :
  on_upstream K t skb = Done (t', ok) → f t' = f t.
Proof.
  unfold on_upstream. unfold_outcome. intros H.
  repeat case_match; simplify_eq/=; unfold_stores; keeps.
Qed.

Lemma on_peer_keeps t skb source t' source' ok :
  on_peer K t skb source = Done (t', source', ok) → f t' = f t.
Proof.
  unfold on_peer. unfold_outcome. intros H.
  repeat case_match; simplify_eq/=; unfold_stores;
    repeat case_match; simplify_eq/=; keeps.
Qed.


Lemma on_downstream_known_peer t skb src dst source t' source' ok :
  downstream_filters t skb = false
  ∨ is_Some (peers_hashtable t !! skb_tsi (skb_at t skb)) →
  on_downstream K t skb src dst source = Done (t', source', ok) →
  f t' = f t.
Proof.
  unfold on_downstream, downstream_filters. unfold_outcome.
  intros [Hfilter | [peer Hpeer]] H.
  - destruct (can_recv_data t); simpl in *;
      [rewrite Hfilter in H; simpl in H |];
      unfold_stores; repeat case_match; simplify_eq/=; keeps.
  - rewrite Hpeer in H.
    repeat case_match; simplify_eq/=; unfold_stores;
      repeat case_match; simplify_eq/=; keeps.
Qed.

Lemma on_downstream_new_peer t skb src dst source t' source' ok :
  downstream_filters t skb = true →
  peers_hashtable t !! skb_tsi (skb_at t skb) = None →
  on_downstream K t skb src dst source = Done (t', source', ok) →
  ∃ t1 peer,
    pgm_new_peer K t (skb_tsi (skb_at t skb)) src dst = (t1, peer)
    ∧ f t' = f t1 ∧ source' = Some peer.
Proof.
  unfold on_downstream, downstream_filters. unfold_outcome.
  intros [Hrecv Hport]%andb_prop Hpeer H.
  rewrite Hrecv, Hport, Hpeer in H. simpl in H.
  destruct (pgm_new_peer K t _ src dst) as [t1 peer] eqn:Hnew.
  exists t1, peer. split; [reflexivity |].
  repeat case_match; simplify_eq/=; unfold_stores;
    repeat case_match; simplify_eq/=; (split; [keeps | reflexivity]).
Qed.

Lemma on_downstream_keeps t skb src dst source t' source' ok :
  new_peer_keeps f K →
  on_downstream K t skb src dst source = Done (t', source', ok) →
  f t' = f t.
Proof.
  intros Hnew H.
  destruct (downstream_filters t skb) eqn:Hfilter;
    [| eauto using on_downstream_known_peer].
  destruct (peers_hashtable t !! skb_tsi (skb_at t skb)) eqn:Hpeer;
    [eauto using on_downstream_known_peer |].
  destruct (on_downstream_new_peer _ _ _ _ _ _ _ _ Hfilter Hpeer H)
    as (t1 & peer & Hcall & Hkeep & _).
  rewrite Hkeep. eapply Hnew, Hcall.
Qed.

Lemma on_pgm_keeps t skb src dst source t' source' ok :
  new_peer_keeps f K →
  on_pgm K t skb src dst source = Done (t', source', ok) →
  f t' = f t.
Proof.
  intros Hnew. rewrite on_pgm_eq_spec. unfold on_pgm_spec.
  destruct (frame_route_spec _ _).
  - apply on_downstream_keeps, Hnew.
  - destruct (on_upstream K t skb) as [[t1 ok1] | | |] eqn:Hup;
      unfold_outcome; intros; simplify_eq.
    eapply on_upstream_keeps; eassumption.
  - apply on_peer_keeps.
  - unfold_outcome. intros; simplify_eq. unfold_stores.
    destruct (can_send_data t); keeps.
Qed.
End HandlersKeep.

(** ** The peer mapping *)

(** C7.  The peer mapping grows only in the downstream handler.  For a
    downstream packet that passes the [can_recv_data] and [dport] filters
    and whose TSI is not in the mapping, [on_downstream] leaves the mapping
    with exactly one more entry, from that TSI to the new peer.  In every
    other case it leaves the mapping as it was.  [on_peer] never changes
    the mapping, and discards a packet whose TSI it does not find.
    [on_upstream] never changes the mapping. *)
Theorem peer_mapping_grows_only_downstream {Ext} (K : collaborators Ext) :
  processors_keep peers_hashtable K →
  new_peer_inserts K →
  (∀ t skb src dst source t' source' ok,
     on_downstream K t skb src dst source = Done (t', source', ok) →
     let tsi := skb_tsi (skb_at t skb) in
     if downstream_filters t skb
        && bool_decide (peers_hashtable t !! tsi = None)
     then ∃ peer,
            peers_hashtable t' = <[tsi := peer]> (peers_hashtable t)
            ∧ size (peers_hashtable t') = S (size (peers_hashtable t))
            ∧ source' = Some peer
     else peers_hashtable t' = peers_hashtable t)
  ∧ (∀ t skb source t' source' ok,
       on_peer K t skb source = Done (t', source', ok) →
       peers_hashtable t' = peers_hashtable t
       ∧ (peer_filters t skb = true →
          peers_hashtable t !! skb_tsi (skb_at t skb) = None →
          ok = false ∧ source' = None))
  ∧ (∀ t skb t' ok,
       on_upstream K t skb = Done (t', ok) →
       peers_hashtable t' = peers_hashtable t).
Proof.
  intros Hproc Hnew.
  assert (Hwrites : writes_keep (@peers_hashtable Ext))
    by (split; reflexivity).
  split_and!.
  - intros t skb src dst source t' source' ok Hrun tsi.
    destruct (downstream_filters t skb) eqn:Hfilter; simpl;
      [| eapply on_downstream_known_peer; eauto].
    case_bool_decide as Hpeer.
    + destruct (on_downstream_new_peer _ K Hwrites Hproc _ _ _ _ _ _ _ _
                  Hfilter Hpeer Hrun) as (t1 & peer & Hcall & Hkeep & ->).
      apply Hnew in Hcall. exists peer. rewrite Hkeep, Hcall.
      split_and!; [reflexivity | | reflexivity].
      by apply map_size_insert_None.
    + eapply on_downstream_known_peer; eauto.
      right. by apply not_eq_None_Some.
  - intros t skb source t' source' ok Hrun. split.
    + eapply on_peer_keeps; eauto.
    + unfold peer_filters. intros [Hrecv Hport]%andb_prop Hpeer.
      revert Hrun. unfold on_peer. unfold_outcome.
      rewrite Hrecv, Hport, Hpeer. simpl.
      unfold_stores. repeat case_match; intros; simplify_eq; done.
  - intros t skb t' ok Hrun. eapply on_upstream_keeps; eauto.
Qed.

(** The bench keeps every observation that does not look at the window
    state. *)
Lemma bench_processors_keep {A} (f : Bench.transport_t → A) :
  (∀ v t, f (set_ext v t) = f t) → processors_keep f Bench.K.
Proof.
  intros Hext. split; simpl; intros; simplify_eq; try reflexivity.
  unfold Bench.on_data in *. case_match; simplify_eq; [apply Hext | done].
Qed.

Lemma bench_new_peer_inserts : new_peer_inserts Bench.K.
Proof. intros t tsi src dst t' p [= <- <-]. reflexivity. Qed.

Lemma peer_mapping_grows_only_downstream_witness :
  processors_keep peers_hashtable Bench.K
  ∧ new_peer_inserts Bench.K
  ∧ match
      on_downstream Bench.K (Bench.received Bench.odata_hello) 0
        (Bench.ipv4 1) (Bench.ipv4 2) None
    with
    | Done (t', source', ok) =>
        ok = true
        ∧ size (peers_hashtable (Bench.received Bench.odata_hello)) = 0%nat
        ∧ size (peers_hashtable t') = 1%nat
    | _ => False
    end.
Proof.
  pose proof (bench_processors_keep peers_hashtable (λ _ _, eq_refl)) as Hproc.
  pose proof bench_new_peer_inserts as Hnew.
  split; [exact Hproc |]. split; [exact Hnew |].
  destruct (on_downstream _ _ _ _ _ _) as [[[t' source'] ok] | | |] eqn:Hrun;
    try (vm_compute in Hrun; discriminate Hrun).
  pose proof (proj1 (peer_mapping_grows_only_downstream Bench.K Hproc Hnew)
                _ _ _ _ _ _ _ _ Hrun) as Hgrow.
  vm_compute in Hgrow. destruct Hgrow as (peer & _ & Hsize & _).
  split_and!; [| reflexivity | exact Hsize].
  vm_compute in Hrun. by injection Hrun.
Defined.

(** ** The receive buffer *)



Lemma skb_header_update {Ext} (g : pgm_sk_buff_t → pgm_sk_buff_t) (skb : nat)
    (t : pgm_transport_t Ext) :
  (∀ s, skb_pgm_header (g s) = skb_pgm_header s) →
  skb_pgm_header (skb_at (skb_update g skb t) skb)
  = skb_pgm_header (skb_at t skb).
Proof.
  intros Hg. unfold skb_at, skb_update. simpl. rewrite lookup_alter_eq.
  destruct (skbs t !! skb); simpl; [apply Hg | reflexivity].
Qed.

Lemma pgm_alloc_skb_fresh {Ext} (size : Z) (t t' : pgm_transport_t Ext)
    (p : nat) :
  pgm_alloc_skb size t = (t', p) →
  skbs t !! p = None
  ∧ skbs t' = <[p := skb_blank size]> (skbs t)
  ∧ rx_buffer t' = rx_buffer t.
Proof.
  unfold pgm_alloc_skb. intros [= <- <-]. split_and!; try reflexivity.
  apply not_elem_of_dom, is_fresh.
Qed.

(** C6.  For every packet [on_downstream] processes: when the packet is
    ODATA or RDATA and the handler returns TRUE, that is, the peer's
    receive window took it, [transport->rx_buffer] is a buffer that
    [pgm_alloc_skb (max_tpdu)] has just allocated, at an address that was
    free when the window returned.  In every other case (another type, a
    filter that rejects the packet, a window that refuses the data)
    [rx_buffer] is the pointer it was. *)
Theorem rx_buffer_replaced_iff_data_accepted {Ext} (K : collaborators Ext)
    (t : pgm_transport_t Ext) (skb : nat) (src dst : sockaddr)
    (source : option nat) t' source' ok :
  processors_keep (λ t, (rx_buffer t, max_tpdu t)) K →
  new_peer_keeps (λ t, (rx_buffer t, max_tpdu t, skbs t)) K →
  on_downstream K t skb src dst source = Done (t', source', ok) →
  if ok && is_data_packet (pgm_type (skb_pgm_header (skb_at t skb)))
  then ∃ t4 t5 peer p,
         pgm_on_data K t4 peer skb = (t5, true)
         ∧ skbs t5 !! p = None
         ∧ rx_buffer t' = Some p
         ∧ skbs t' = <[p := skb_blank (max_tpdu t)]> (skbs t5)
  else rx_buffer t' = rx_buffer t.
Proof.
  intros Hproc Hnew Hrun.
  assert (Hproc_rx : processors_keep (@rx_buffer Ext) K).
  { destruct Hproc. split; intros;
      match goal with
      | H : ∀ _, _, E : _ = (_, _) |- _ => solve [apply H in E; congruence]
      end. }
  assert (Hwrites : ∀ (v : gmap nat pgm_sk_buff_t) (t : pgm_transport_t Ext),
             rx_buffer (set_skbs v t) = rx_buffer t) by reflexivity.
  revert Hrun. unfold on_downstream. unfold_outcome.
  destruct (can_recv_data t); simpl;
    [| unfold_stores; repeat case_match; intros; simplify_eq/=; done].
  destruct (_ =? _); simpl;
    [| unfold_stores; repeat case_match; intros; simplify_eq/=; done].
  set (found := peers_hashtable t !! _).
  assert (∃ t1 peer,
            match found with
            | Some peer => (t, peer)
            | None => pgm_new_peer K t (skb_tsi (skb_at t skb)) src dst
            end = (t1, peer)
            ∧ rx_buffer t1 = rx_buffer t ∧ max_tpdu t1 = max_tpdu t
            ∧ skbs t1 = skbs t) as (t1 & peer & -> & Hrx1 & Hmax1 & Hskbs1).
  { destruct found as [peer |]; [by exists t, peer |].
    destruct (pgm_new_peer K t _ src dst) as [t1 peer] eqn:Hcall.
    exists t1, peer. apply Hnew in Hcall. by simplify_eq. }
  set (t4 := skb_update _ skb _).
  assert (Hty : skb_pgm_header (skb_at t4 skb) = skb_pgm_header (skb_at t skb)).
  { subst t4. rewrite skb_header_update by reflexivity.
    unfold skb_at. unfold_stores. simpl. by rewrite Hskbs1. }
  assert (Hrx4 : rx_buffer t4 = rx_buffer t) by exact Hrx1.
  assert (Hmax4 : max_tpdu t4 = max_tpdu t) by exact Hmax1.
  rewrite Hty. clearbody t4.
  destruct (pgm_type (skb_pgm_header (skb_at t skb))) eqn:Htype;
    unfold is_data_packet; simpl;
    try (unfold_stores; repeat case_match; intros; simplify_eq/=;
         rewrite ?andb_false_r; simpl;
         first [ exact Hrx4
               | etrans; [| exact Hrx4];
                 first [ eapply (on_ncf_keeps _ _ Hproc_rx); eassumption
                       | eapply (on_spm_keeps _ _ Hproc_rx); eassumption ] ]).
  all: destruct (pgm_on_data K t4 peer skb) as [t5 accepted] eqn:Hdata;
    pose proof (on_data_keeps _ _ Hproc _ _ _ _ _ Hdata) as Hkeep;
    simpl in Hkeep; injection Hkeep as Hrx5 Hmax5;
    destruct accepted; unfold_outcome.
  1, 3: unfold pgm_alloc_skb; intros [= <- <- <-]; simpl;
    exists t4, t5, peer, (fresh (dom (skbs t5)));
    split_and!; [done | apply not_elem_of_dom, is_fresh | done |];
    simpl; congruence.
  all: unfold_stores; intros [= <- <- <-]; simpl; congruence.
Qed.

Lemma bench_new_peer_keeps {A} (f : Bench.transport_t → A) :
  (∀ v t, f (set_peers v t) = f t) →
  (∀ v t, f (set_peers_hashtable v t) = f t) →
  new_peer_keeps f Bench.K.
Proof.
  intros Hpeers Htable t tsi src dst t' p [= <- <-].
  by rewrite Htable, Hpeers.
Qed.

Lemma rx_buffer_replaced_iff_data_accepted_witness :
  processors_keep (λ t, (rx_buffer t, max_tpdu t)) Bench.K
  ∧ new_peer_keeps (λ t, (rx_buffer t, max_tpdu t, skbs t)) Bench.K
  ∧ match
      on_downstream Bench.K (Bench.received Bench.odata_hello) 0
        (Bench.ipv4 1) (Bench.ipv4 2) None
    with
    | Done (t', source', ok) =>
        ok = true
        ∧ ∃ p, rx_buffer t' = Some p
               ∧ skbs t' !! p = Some (skb_blank 1500)
    | _ => False
    end.
Proof.
  pose proof (bench_processors_keep (λ t, (rx_buffer t, max_tpdu t))
                (λ _ _, eq_refl)) as Hproc.
  pose proof (bench_new_peer_keeps (λ t, (rx_buffer t, max_tpdu t, skbs t))
                (λ _ _, eq_refl) (λ _ _, eq_refl)) as Hnew.
  split; [exact Hproc |]. split; [exact Hnew |].
  destruct (on_downstream _ _ _ _ _ _) as [[[t' source'] ok] | | |] eqn:Hrun;
    try (vm_compute in Hrun; discriminate Hrun).
  pose proof (rx_buffer_replaced_iff_data_accepted Bench.K _ _ _ _ _ _ _ _
                Hproc Hnew Hrun) as Hrx.
  assert (Hok : ok = true) by (vm_compute in Hrun; by injection Hrun).
  subst ok. split; [reflexivity |].
  change (∃ t4 t5 peer p,
            pgm_on_data Bench.K t4 peer 0 = (t5, true)
            ∧ skbs t5 !! p = None
            ∧ rx_buffer t' = Some p
            ∧ skbs t' = <[p := skb_blank 1500]> (skbs t5)) in Hrx.
  destruct Hrx as (t4 & t5 & peer & p & _ & _ & Hp & Hheap).
  exists p. split; [exact Hp |]. rewrite Hheap. apply lookup_insert_eq.
Defined.

(** ** The delivery loop *)

Section Loop.
Context {Ext : Type}.
Variable K : collaborators Ext.
Variable CONFIG_HAVE_POLL : bool.
Variables (msg_len : N) (flags : Z) (_bytes_read error : bool).

Local Abbreviation step' :=
  (step K CONFIG_HAVE_POLL msg_len flags _bytes_read error).
Local Abbreviation recv_loop' :=
  (recv_loop K CONFIG_HAVE_POLL).

(** A property of the configurations that every jump keeps holds where
    the loop returns. *)
Lemma recv_loop_invariant (I : config → Prop) :
  (∀ pc c l c', I c → step' pc c = Goto l c' → I c') →
  ∀ fuel pc c r,
    I c →
    recv_loop' fuel msg_len flags _bytes_read error pc c = Done r →
    ∃ pc' c', I c' ∧ step' pc' c' = Return r.
Proof.
  intros Hstep fuel. induction fuel as [| fuel IH]; [done |].
  intros pc c r Hc. simpl.
  destruct (step' pc c) as [l c' | r' |] eqn:Hpc; [| | done].
  - apply IH. eapply Hstep; eassumption.
  - intros [= ->]. eauto.
Qed.

(** Reading and dispatching a datagram touches neither the caller's
    vector nor the two counts of the call. *)
Lemma recv_again_locals c l c' :
  recv_again K c = Goto l c' →
  c_msgv c' = c_msgv c ∧ c_pmsg c' = c_pmsg c
  ∧ c_bytes_read c' = c_bytes_read c ∧ c_data_read c' = c_data_read c.
Proof.
  unfold recv_again. intros H.
  repeat case_match; simplify_eq/=; done.
Qed.

Lemma check_for_repeat_locals c l c' :
  check_for_repeat K CONFIG_HAVE_POLL msg_len flags error c = Goto l c' →
  c_msgv c' = c_msgv c ∧ c_pmsg c' = c_pmsg c
  ∧ c_bytes_read c' = c_bytes_read c ∧ c_data_read c' = c_data_read c.
Proof.
  unfold check_for_repeat. intros H.
  repeat case_match; simplify_eq/=; done.
Qed.

Lemma flush_pending_cases after c l c' :
  flush_pending K msg_len after c = Goto l c' →
  c' = c ∨ c' = (flush K msg_len c).1.
Proof.
  unfold flush_pending. intros H.
  repeat case_match; simplify_eq/=; auto.
Qed.

Lemma out_never_jumps c l c' : out K flags _bytes_read error c ≠ Goto l c'.
Proof. unfold out. repeat case_match; done. Qed.
End Loop.

(** The three ways through [pgm_recvmsgv]: a guard fails, a reset is
    reported on entry, or the loop runs. *)
Lemma pgm_recvmsgv_cases {Ext} (K : collaborators Ext)
    (CONFIG_HAVE_POLL : bool) (fuel : nat) (t : pgm_transport_t Ext)
    (w : World) (msg_start : list pgm_msgv_t) (msg_len : N) (flags : Z)
    (_bytes_read error : bool) (r : recv_result) :
  pgm_recvmsgv K CONFIG_HAVE_POLL fuel t w msg_start msg_len flags
               _bytes_read error = Done r →
  (r = status_only G_IO_STATUS_ERROR t w msg_start)
  ∨ (is_reset t = true
     ∧ report_reset K flags error t w msg_start 0 0 = Done r)
  ∨ (is_reset t = false
     ∧ recv_loop K CONFIG_HAVE_POLL fuel msg_len flags _bytes_read error
         L_flush_first (entry_config K t w msg_start) = Done r).
Proof.
  unfold pgm_recvmsgv. unfold_outcome.
  destruct (negb (is_bound t)); [intros [= <-]; auto |].
  destruct (is_destroyed t); [intros [= <-]; auto |].
  destruct (bool_decide _); [| done].
  destruct (0 <? max_tpdu t); [| done].
  destruct (1 <? nak_bo_ivl t); [| done].
  destruct (pgm_notify_is_valid K t); [| done].
  destruct (is_reset t); auto.
Qed.

Lemma report_reset_status {Ext} (K : collaborators Ext) flags error
    (t : pgm_transport_t Ext) w msg_start b d r :
  report_reset K flags error t w msg_start b d = Done r →
  r_status r = G_IO_STATUS_EOF.
Proof.
  unfold report_reset. unfold_outcome.
  repeat case_match; intros; simplify_eq/=; done.
Qed.

(** ** Normal and Again *)

Section NormalAgain.
Context {Ext : Type}.
Variable K : collaborators Ext.
Variable CONFIG_HAVE_POLL : bool.
Variables (msg_start : list pgm_msgv_t) (msg_len : N) (flags : Z).
Variables (_bytes_read error : bool).
Hypothesis Hflush : flush_contract K.

Local Abbreviation counts_agree := (@counts_agree Ext msg_start).

Lemma flush_counts_agree c :
  counts_agree c → counts_agree (flush K msg_len c).1.
Proof.
  intros [Hvector Hoctets]. unfold flush, counts_agree. simpl. split.
  - intros Hzero.
    pose proof (flush_never_uncounts K Hflush (c_transport c) (c_msgv c)
                  (c_pmsg c) msg_len (c_bytes_read c) (c_data_read c)).
    assert (c_data_read c = 0%N) as Hbefore by lia.
    rewrite (flush_counts_entries K Hflush) by congruence. auto.
  - apply (flush_counts_octets K Hflush), Hoctets.
Qed.

Lemma step_counts_agree pc c l c' :
  counts_agree c →
  step K CONFIG_HAVE_POLL msg_len flags _bytes_read error pc c = Goto l c' →
  counts_agree c'.
Proof.
  intros Hc. destruct pc; simpl; intros Hstep.
  - apply flush_pending_cases in Hstep as [-> | ->];
      auto using flush_counts_agree.
  - apply recv_again_locals in Hstep as (Hm & _ & Hb & Hd).
    unfold counts_agree. by rewrite Hm, Hb, Hd.
  - apply flush_pending_cases in Hstep as [-> | ->];
      auto using flush_counts_agree.
  - apply check_for_repeat_locals in Hstep as (Hm & _ & Hb & Hd).
    unfold counts_agree. by rewrite Hm, Hb, Hd.
  - by apply out_never_jumps in Hstep.
Qed.

Lemma return_counts_agree pc c r :
  counts_agree c →
  step K CONFIG_HAVE_POLL msg_len flags _bytes_read error pc c = Return r →
  (r_status r = G_IO_STATUS_NORMAL →
     (0 < r_data_read r)%N ∧ (0 < r_bytes_read r)%N
     ∧ r_bytes_read_out r
       = if _bytes_read then Some (r_bytes_read r) else None)
  ∧ (r_status r = G_IO_STATUS_AGAIN → r_msgv r = msg_start).
Proof.
  intros [Hvector Hoctets].
  destruct pc; simpl;
    [ unfold flush_pending | unfold recv_again | unfold flush_pending
    | unfold check_for_repeat | unfold out, report_reset ];
    unfold_outcome; intros Hret;
    repeat case_match; simplify_eq/=; split; try done.
  all: intros _;
    match goal with
    | H : (c_data_read _ =? 0)%N = false |- _ =>
        apply N.eqb_neq in H; specialize (Hoctets H);
        split_and!; [lia | lia | reflexivity]
    | H : (c_data_read _ =? 0)%N = true |- _ =>
        apply N.eqb_eq in H; auto
    end.
Qed.

Lemma recv_loop_counts_agree fuel pc c r :
  counts_agree c →
  recv_loop K CONFIG_HAVE_POLL fuel msg_len flags _bytes_read error pc c
    = Done r →
  (r_status r = G_IO_STATUS_NORMAL →
     (0 < r_data_read r)%N ∧ (0 < r_bytes_read r)%N
     ∧ r_bytes_read_out r
       = if _bytes_read then Some (r_bytes_read r) else None)
  ∧ (r_status r = G_IO_STATUS_AGAIN → r_msgv r = msg_start).
Proof.
  intros Hc Hrun.
  destruct (recv_loop_invariant K CONFIG_HAVE_POLL msg_len flags
              _bytes_read error counts_agree step_counts_agree
              fuel pc c r Hc Hrun) as (pc' & c' & Hc' & Hret).
  eapply return_counts_agree; eassumption.
Qed.
End NormalAgain.


Lemma bench_flush_contract : flush_contract Bench.K.
Proof.
  split; simpl; intros t m p e b d; unfold Bench.flush_peers_pending;
    repeat case_match; simpl; try lia; try done.
  all: match goal with
       | H : (_ =? 0)%N = false |- _ => apply N.eqb_neq in H
       end; intros; lia.
Qed.


(** ** What the delivery loop leaves alone *)

Section EngineKeeps.
Context {Ext A : Type}.
Variable f : pgm_transport_t Ext → A.
Variable K : collaborators Ext.
Variable CONFIG_HAVE_POLL : bool.
Hypothesis Hpending : ∀ v t, f (set_is_pending_read v t) = f t.
Hypothesis Hengine : engine_keeps f K.

Lemma clear_pending_read_keeps t : f (clear_pending_read K t) = f t.
Proof.
  unfold clear_pending_read. destruct (is_pending_read t); [| done].
  by rewrite Hpending, (notify_clear_keeps f K Hengine).
Qed.

Lemma wait_for_event_keeps t w timeout t' w' status :
  wait_for_event K CONFIG_HAVE_POLL t w timeout = Done (t', w', status) →
  f t' = f t.
Proof.
  unfold wait_for_event. unfold_outcome.
  repeat case_match; intros; simplify_eq/=;
    auto using clear_pending_read_keeps.
Qed.

Lemma entry_config_keeps t w msg_start :
  f (c_transport (entry_config K t w msg_start)) = f t.
Proof.
  simpl. destruct (pgm_timer_check K t); [| done].
  by rewrite (timer_prepare_keeps f K Hengine),
             (timer_dispatch_keeps f K Hengine).
Qed.

Lemma flush_pending_keeps msg_len after c l c' :
  flush_pending K msg_len after c = Goto l c' →
  f (c_transport c') = f (c_transport c).
Proof.
  intros [-> | ->]%flush_pending_cases; [done |].
  apply (flush_keeps f K Hengine).
Qed.

Lemma check_for_repeat_keeps msg_len flags error c l c' :
  check_for_repeat K CONFIG_HAVE_POLL msg_len flags error c = Goto l c' →
  f (c_transport c') = f (c_transport c).
Proof.
  unfold check_for_repeat.
  destruct (flag_set flags MSG_DONTWAIT).
  { case_match; intros; by simplify_eq. }
  destruct (c_data_read c =? 0)%N; [| intros; by simplify_eq].
  destruct (wait_for_event _ _ _ _ _) as [[[t1 w1] status] | | |] eqn:Hwait;
    [| done..].
  apply wait_for_event_keeps in Hwait.
  repeat case_match; intros; simplify_eq/=; try done.
  by rewrite (timer_dispatch_keeps f K Hengine).
Qed.

Lemma recvskb_keeps (Hskbs : ∀ v t, f (set_skbs v t) = f t)
    t w skb flags src_addr src dst :
  f (rs_transport (recvskb t w skb flags src_addr src dst)) = f t.
Proof.
  unfold recvskb. unfold_stores.
  repeat case_match; simplify_eq/=; rewrite ?Hskbs; done.
Qed.

Hypothesis Hwrites : writes_keep f.
Hypothesis Hproc : processors_keep f K.
Hypothesis Hnew : new_peer_keeps f K.

Lemma parse_frame_keeps t rx src dst :
  f (parse_frame K t rx src dst).1.1.1 = f t.
Proof.
  unfold parse_frame. repeat case_match; simpl.
  all: unfold_stores; by rewrite (set_skbs_keeps f Hwrites).
Qed.

Lemma recv_again_keeps c l c' :
  recv_again K c = Goto l c' → f (c_transport c') = f (c_transport c).
Proof.
  unfold recv_again.
  destruct (rx_buffer (c_transport c)) as [rx |]; [| done].
  pose proof (recvskb_keeps (set_skbs_keeps f Hwrites) (c_transport c)
                (c_world c) rx MSG_DONTWAIT (addr_of_src (c_world c))
                (c_src c) (c_dst c)) as Hread.
  destruct (recvskb _ _ _ _ _ _ _) as [t1 w1 src1 dst1 len]. simpl in *.
  destruct (len <? 0); [intros; by simplify_eq |].
  destruct (len =? 0); [intros; by simplify_eq |].
  pose proof (parse_frame_keeps t1 rx src1 dst1) as Hparse.
  destruct (parse_frame K t1 rx src1 dst1) as [[[t2 dst2] is_valid] err].
  simpl in Hparse.
  destruct is_valid; simpl.
  - destruct (on_pgm K _ rx src1 _ (c_source c))
      as [[[t3 source] ok] | | |] eqn:Hpgm; [| done..].
    apply (on_pgm_keeps f K Hwrites Hproc _ _ _ _ _ _ _ _ Hnew) in Hpgm.
    repeat case_match; intros; simplify_eq/=;
      rewrite ?(set_pending_keeps f K Hengine); congruence.
  - unfold_stores.
    repeat case_match; intros; simplify_eq/=; strip_stores Hwrites;
      congruence.
Qed.

Lemma step_keeps msg_len flags _bytes_read error pc c l c' :
  step K CONFIG_HAVE_POLL msg_len flags _bytes_read error pc c = Goto l c' →
  f (c_transport c') = f (c_transport c).
Proof.
  destruct pc; simpl;
    eauto using flush_pending_keeps, check_for_repeat_keeps,
                recv_again_keeps.
  intros H. by apply out_never_jumps in H.
Qed.
End EngineKeeps.

(** ** Reset *)

Section Reset.
Context {Ext : Type}.
Variable K : collaborators Ext.
Variable CONFIG_HAVE_POLL : bool.

Lemma pgm_recvmsgv_on_reset fuel t w msg_start msg_len flags
    _bytes_read error :
  delivery_preconditions K t →
  is_reset t = true →
  pgm_recvmsgv K CONFIG_HAVE_POLL fuel t w msg_start msg_len flags
               _bytes_read error
  = report_reset K flags error t w msg_start 0 0.
Proof.
  intros (Hbound & Hlive & Hrx & Hmax & Hivl & Hnotify) Hreset.
  unfold pgm_recvmsgv. unfold_outcome.
  rewrite Hbound, Hlive, Hnotify, Hreset. simpl.
  rewrite bool_decide_eq_true_2 by exact Hrx.
  by rewrite (proj2 (Z.ltb_lt _ _) Hmax), (proj2 (Z.ltb_lt _ _) Hivl).
Qed.

Lemma return_without_reset msg_len flags _bytes_read error pc c r :
  (∀ t, is_reset (pgm_notify_clear K t) = is_reset t) →
  is_reset (c_transport c) = false →
  step K CONFIG_HAVE_POLL msg_len flags _bytes_read error pc c = Return r →
  r_status r ≠ G_IO_STATUS_EOF.
Proof.
  intros Hclear Hreset.
  assert (is_reset (clear_pending_read K (c_transport c)) = false) as Hc.
  { unfold clear_pending_read. case_match; [| done].
    simpl. by rewrite Hclear. }
  destruct pc; simpl;
    [ unfold flush_pending | unfold recv_again | unfold flush_pending
    | unfold check_for_repeat | unfold out ];
    unfold_outcome; try rewrite Hc;
    repeat case_match; intros; simplify_eq/=; done.
Qed.

Lemma no_reset_no_eof fuel t w msg_start msg_len flags _bytes_read error r :
  no_new_reset K →
  is_reset t = false →
  pgm_recvmsgv K CONFIG_HAVE_POLL fuel t w msg_start msg_len flags
               _bytes_read error = Done r →
  r_status r ≠ G_IO_STATUS_EOF.
Proof.
  intros (Hproc & Hnew & Hengine) Hreset Hrun.
  assert (Hwrites : writes_keep (@is_reset Ext)) by (split; reflexivity).
  apply pgm_recvmsgv_cases in Hrun as [-> | [[? _] | [_ Hrun]]];
    [done | congruence |].
  assert (Hstep : ∀ pc c l c',
             is_reset (c_transport c) = false →
             step K CONFIG_HAVE_POLL msg_len flags _bytes_read error pc c
               = Goto l c' →
             is_reset (c_transport c') = false).
  { intros pc c l c' Hc Hstep.
    by rewrite (step_keeps is_reset K CONFIG_HAVE_POLL
                  (λ _ _, eq_refl) Hengine Hwrites Hproc Hnew
                  _ _ _ _ _ _ _ _ Hstep). }
  assert (Hentry :
            is_reset (c_transport (entry_config K t w msg_start)) = false)
    by (by rewrite (entry_config_keeps is_reset K Hengine)).
  destruct (recv_loop_invariant K CONFIG_HAVE_POLL msg_len flags
              _bytes_read error _ Hstep _ _ _ _ Hentry Hrun)
    as (pc' & c' & Hc' & Hret).
  eapply return_without_reset; eauto.
  apply (notify_clear_keeps _ _ Hengine).
Qed.
End Reset.


Lemma bench_reset_descriptor_keeps_flags :
  reset_descriptor_keeps_flags Bench.K.
Proof. intros t peer msgv. split; reflexivity. Qed.

Lemma bench_delivery_preconditions_reset :
  delivery_preconditions Bench.K Bench.transport_reset.
Proof. unfold delivery_preconditions. simpl. split_and!; by eauto. Qed.


(** ** pgm_recvfrom and the FIN and ERRQUEUE flags *)

Lemma recvfrom_mask_set (flags : Z) :
  Z.land (Z.lor flags (Z.lor MSG_FIN MSG_ERRQUEUE)) recvfrom_mask
  = Z.land flags recvfrom_mask.
Proof.
  unfold recvfrom_mask. apply Z.bits_inj'. intros n Hn.
  rewrite !Z.land_spec, Z.lor_spec, Z.lnot_spec by exact Hn.
  destruct (Z.testbit flags n), (Z.testbit (Z.lor MSG_FIN MSG_ERRQUEUE) n);
    reflexivity.
Qed.

Lemma recvfrom_mask_cleared (flags : Z) :
  Z.land (Z.land flags recvfrom_mask) recvfrom_mask = Z.land flags recvfrom_mask.
Proof. by rewrite <- Z.land_assoc, Z.land_diag. Qed.

Lemma recvfrom_mask_no_errqueue (flags : Z) :
  flag_set (Z.land flags recvfrom_mask) MSG_ERRQUEUE = false.
Proof.
  unfold flag_set, recvfrom_mask.
  rewrite <- Z.land_assoc.
  replace (Z.land (Z.lnot (Z.lor MSG_FIN MSG_ERRQUEUE)) MSG_ERRQUEUE) with 0
    by reflexivity.
  by rewrite Z.land_0_r.
Qed.

Section ResetDescriptor.
Context {Ext : Type}.
Variable K : collaborators Ext.
Variable CONFIG_HAVE_POLL : bool.
Variable f : pgm_transport_t Ext → nat → list pgm_msgv_t →
             pgm_transport_t Ext * list pgm_msgv_t.
Variables (msg_len : N) (flags : Z) (_bytes_read error : bool).
Hypothesis Hflags : flag_set flags MSG_ERRQUEUE = false.

Lemma report_reset_without_errqueue t w msg_start b d :
  report_reset (with_set_reset_error K f) flags error t w msg_start b d
  = report_reset K flags error t w msg_start b d.
Proof. unfold report_reset. by rewrite Hflags. Qed.

Lemma step_without_errqueue pc c :
  step (with_set_reset_error K f) CONFIG_HAVE_POLL msg_len flags
       _bytes_read error pc c
  = step K CONFIG_HAVE_POLL msg_len flags _bytes_read error pc c.
Proof.
  destruct pc; try reflexivity.
  simpl. unfold out. rewrite report_reset_without_errqueue. reflexivity.
Qed.

Lemma recv_loop_without_errqueue fuel pc c :
  recv_loop (with_set_reset_error K f) CONFIG_HAVE_POLL fuel msg_len flags
            _bytes_read error pc c
  = recv_loop K CONFIG_HAVE_POLL fuel msg_len flags _bytes_read error pc c.
Proof.
  revert pc c. induction fuel as [| fuel IH]; [done |]. intros pc c. simpl.
  rewrite step_without_errqueue.
  destruct (step K _ _ _ _ _ pc c); [apply IH | done..].
Qed.

Lemma pgm_recvmsgv_without_errqueue fuel t w msg_start :
  pgm_recvmsgv (with_set_reset_error K f) CONFIG_HAVE_POLL fuel t w
               msg_start msg_len flags _bytes_read error
  = pgm_recvmsgv K CONFIG_HAVE_POLL fuel t w msg_start msg_len flags
                 _bytes_read error.
Proof.
  unfold pgm_recvmsgv.
  rewrite report_reset_without_errqueue, recv_loop_without_errqueue.
  reflexivity.
Qed.
End ResetDescriptor.

Lemma pgm_recvfrom_masks_flags {Ext} (K : collaborators Ext)
    (CONFIG_HAVE_POLL : bool) fuel (t : pgm_transport_t Ext) w data len
    (flags flags' : Z) _bytes_read from error :
  Z.land flags' recvfrom_mask = Z.land flags recvfrom_mask →
  pgm_recvfrom K CONFIG_HAVE_POLL fuel t w data len flags' _bytes_read from
               error
  = pgm_recvfrom K CONFIG_HAVE_POLL fuel t w data len flags _bytes_read from
                 error.
Proof.
  intros Hmask. unfold pgm_recvfrom. fold recvfrom_mask. by rewrite Hmask.
Qed.

(** C10.  [pgm_recvfrom], and with it [pgm_recv], give the same result
    whether the FIN and ERRQUEUE bits of [flags] are set or clear: the
    result is the one for the flags with both bits set, and the one for the
    flags with both bits cleared, and any two values of [flags] that
    differ in these two bits only give the same result.  The result does
    not depend on
    [pgm_set_reset_error] either: the two calls never materialise a reset
    descriptor, whatever the caller passes. *)
Theorem recvfrom_ignores_fin_and_errqueue {Ext} (K : collaborators Ext)
    (CONFIG_HAVE_POLL : bool) (fuel : nat) (t : pgm_transport_t Ext)
    (w : World) (data : list Z) (len : N) (flags : Z)
    (_bytes_read from error : bool)
    (f : pgm_transport_t Ext → nat → list pgm_msgv_t →
         pgm_transport_t Ext * list pgm_msgv_t) :
  pgm_recvfrom K CONFIG_HAVE_POLL fuel t w data len
               (Z.lor flags (Z.lor MSG_FIN MSG_ERRQUEUE))
               _bytes_read from error
  = pgm_recvfrom K CONFIG_HAVE_POLL fuel t w data len flags
                 _bytes_read from error
  ∧ pgm_recvfrom K CONFIG_HAVE_POLL fuel t w data len
                 (Z.land flags (Z.lnot (Z.lor MSG_FIN MSG_ERRQUEUE)))
                 _bytes_read from error
    = pgm_recvfrom K CONFIG_HAVE_POLL fuel t w data len flags
                   _bytes_read from error
  ∧ pgm_recv K CONFIG_HAVE_POLL fuel t w data len
             (Z.lor flags (Z.lor MSG_FIN MSG_ERRQUEUE)) _bytes_read error
    = pgm_recv K CONFIG_HAVE_POLL fuel t w data len flags _bytes_read error
  ∧ pgm_recv K CONFIG_HAVE_POLL fuel t w data len
             (Z.land flags (Z.lnot (Z.lor MSG_FIN MSG_ERRQUEUE)))
             _bytes_read error
    = pgm_recv K CONFIG_HAVE_POLL fuel t w data len flags _bytes_read error
  ∧ (∀ flags',
       Z.land flags' (Z.lnot (Z.lor MSG_FIN MSG_ERRQUEUE))
       = Z.land flags (Z.lnot (Z.lor MSG_FIN MSG_ERRQUEUE)) →
       pgm_recvfrom K CONFIG_HAVE_POLL fuel t w data len flags'
                    _bytes_read from error
       = pgm_recvfrom K CONFIG_HAVE_POLL fuel t w data len flags
                      _bytes_read from error)
  ∧ pgm_recvfrom (with_set_reset_error K f) CONFIG_HAVE_POLL fuel t w data
                 len flags _bytes_read from error
    = pgm_recvfrom K CONFIG_HAVE_POLL fuel t w data len flags
                   _bytes_read from error.
Proof.
  split_and!.
  - apply pgm_recvfrom_masks_flags, recvfrom_mask_set.
  - apply pgm_recvfrom_masks_flags, recvfrom_mask_cleared.
  - apply pgm_recvfrom_masks_flags, recvfrom_mask_set.
  - apply pgm_recvfrom_masks_flags, recvfrom_mask_cleared.
  - intros flags' Hmask. by apply pgm_recvfrom_masks_flags.
  - unfold pgm_recvfrom, pgm_recvmsg. fold recvfrom_mask.
    rewrite pgm_recvmsgv_without_errqueue
      by apply recvfrom_mask_no_errqueue.
    reflexivity.
Qed.

(** ** Truncation in pgm_recvfrom *)

(** C9 fails on the code.  The APDU is the five octets of "hello" and the
    caller's buffer has four.  When the APDU is one buffer, [pgm_recvmsg]
    returns Normal with [bytes_read = 5], and [pgm_recvfrom] then stops in
    [g_error] instead of returning Normal with four octets copied.  When
    the APDU comes as the two fragments "hel" and "lo", the first fits, and
    the second round of the copy loop reads past the first buffer, the
    loop having stepped the buffer pointer instead of the vector of
    buffers. *)
Theorem recvfrom_truncation_aborts :
  let w := Bench.world0
             [Bench.datagram_of (Bench.ipv4 1) [] Bench.odata_hello] [] in
  let K2 := with_flush_peers_pending Bench.K Bench.flush_fragments in
  (∃ r, pgm_recvmsg Bench.K true 10 Bench.transport0 w
          {| msgv_len := 0; msgv_skb := [] |} MSG_DONTWAIT true true = Done r
        ∧ r_status r = G_IO_STATUS_NORMAL
        ∧ r_bytes_read_out r = Some 5%N)
  ∧ pgm_recvfrom Bench.K true 10 Bench.transport0 w [0; 0; 0; 0] 4
                 MSG_DONTWAIT true true true
    = Aborted
  ∧ (∃ r, pgm_recvmsg K2 true 10 Bench.transport_fragments
            (Bench.world0 [] []) {| msgv_len := 0; msgv_skb := [] |}
            MSG_DONTWAIT true true = Done r
          ∧ r_status r = G_IO_STATUS_NORMAL
          ∧ r_msgv r = [{| msgv_len := 2; msgv_skb := [1%nat; 2%nat] |}]
          ∧ r_bytes_read_out r = Some 5%N)
  ∧ pgm_recvfrom K2 true 10 Bench.transport_fragments (Bench.world0 [] [])
                 [0; 0; 0; 0] 4 MSG_DONTWAIT true true true
    = Undefined.
Proof.
  intros w K2. split_and!.
  - eexists. split; [vm_compute; reflexivity |]. split; reflexivity.
  - vm_compute. reflexivity.
  - eexists. split; [vm_compute; reflexivity |]. split_and!; reflexivity.
  - vm_compute. reflexivity.
Qed.

(** ** The source discard counter *)

Lemma stat_incr_same {I} `{EqDecision I} (i : I) (stats : I → N) :
  stat_incr i stats i = (stats i + 1)%N.
Proof. unfold stat_incr, stat_add. by rewrite decide_True. Qed.

Lemma stat_incr_other {I} `{EqDecision I} (i j : I) (stats : I → N) :
  j ≠ i → stat_incr i stats j = stats j.
Proof. intros. unfold stat_incr, stat_add. by rewrite decide_False. Qed.

Section DiscardCounter.
Context {Ext : Type}.
Variable K : collaborators Ext.
Variable CONFIG_HAVE_POLL : bool.
Hypothesis Hours : discard_counter_is_ours K.

Local Abbreviation spd := (@source_packets_discarded Ext).

Let Hproc : processors_keep spd K := proj1 Hours.
Let Hnew : new_peer_keeps spd K := proj1 (proj2 Hours).
Let Hengine : engine_keeps spd K := proj1 (proj2 (proj2 Hours)).

Lemma spd_incr (t : pgm_transport_t Ext) :
  spd (transport_stat_incr PGM_PC_SOURCE_PACKETS_DISCARDED t)
  = (spd t + 1)%N.
Proof. unfold source_packets_discarded. simpl. apply stat_incr_same. Qed.

Lemma receiver_discarded_count (t : pgm_transport_t Ext) source :
  spd (receiver_discarded t source).1.1
  = (spd t
     + if bool_decide (source = None) && can_send_data t then 1 else 0)%N.
Proof.
  unfold receiver_discarded. destruct source as [peer |]; simpl.
  - unfold source_packets_discarded. simpl. lia.
  - destruct (can_send_data t); simpl; [apply spd_incr | lia].
Qed.

(** Stores into buffers and peers, and the re-seating of the receive
    buffer, are not stores into the counter. *)
Ltac spd_stores :=
  unfold_stores; unfold source_packets_discarded in *; simpl in *;
  rewrite ?stat_incr_same.

Ltac spd_processor :=
  match goal with
  | H : pgm_on_nak K _ _ = (_, _) |- _ =>
      apply (on_nak_keeps _ _ Hproc) in H
  | H : pgm_on_nnak K _ _ = (_, _) |- _ =>
      apply (on_nnak_keeps _ _ Hproc) in H
  | H : pgm_on_spmr K _ _ _ = (_, _) |- _ =>
      apply (on_spmr_keeps _ _ Hproc) in H
  | H : pgm_on_peer_nak K _ _ _ = (_, _) |- _ =>
      apply (on_peer_nak_keeps _ _ Hproc) in H
  | H : pgm_on_data K _ _ _ = (_, _) |- _ =>
      apply (on_data_keeps _ _ Hproc) in H
  | H : pgm_on_ncf K _ _ _ = (_, _) |- _ =>
      apply (on_ncf_keeps _ _ Hproc) in H
  | H : pgm_on_spm K _ _ _ = (_, _) |- _ =>
      apply (on_spm_keeps _ _ Hproc) in H
  | H : pgm_new_peer K _ _ _ _ = (_, _) |- _ => apply Hnew in H
  end.

Lemma on_upstream_count t skb t' ok :
  on_upstream K t skb = Done (t', ok) →
  spd t' = (spd t + if ok then 0 else 1)%N.
Proof.
  unfold on_upstream. unfold_outcome. intros H.
  repeat case_match; simplify_eq/=; repeat spd_processor; spd_stores; lia.
Qed.

Lemma on_peer_count t skb source t' source' ok :
  on_peer K t skb source = Done (t', source', ok) →
  spd t'
  = (spd t
     + if negb ok && bool_decide (source' = None) && can_send_data t
       then 1 else 0)%N.
Proof.
  unfold on_peer. unfold_outcome. intros H.
  repeat case_match; simplify_eq/=; repeat spd_processor; spd_stores;
    repeat case_match; simplify_eq/=; spd_stores; try lia.
Qed.

Lemma on_downstream_count t skb src dst source t' source' ok :
  on_downstream K t skb src dst source = Done (t', source', ok) →
  spd t'
  = (spd t
     + if negb ok && bool_decide (source' = None) && can_send_data t
       then 1 else 0)%N.
Proof.
  unfold on_downstream. unfold_outcome. intros H.
  repeat case_match; simplify_eq/=; repeat spd_processor; spd_stores;
    repeat case_match; simplify_eq/=; spd_stores; try lia.
Qed.

Lemma on_pgm_count t skb src dst source t' source' ok :
  on_pgm K t skb src dst source = Done (t', source', ok) →
  spd t'
  = (spd t
     + if counts_as_source_discard
            {| fv_valid := true;
               fv_route := frame_route_spec (sport (tsi t))
                             (skb_pgm_header (skb_at t skb));
               fv_accepted := ok; fv_source := source';
               fv_can_send := can_send_data t |}
       then 1 else 0)%N.
Proof.
  rewrite on_pgm_eq_spec. unfold on_pgm_spec, counts_as_source_discard.
  simpl. destruct (frame_route_spec _ _).
  - apply on_downstream_count.
  - destruct (on_upstream K t skb) as [[t1 ok1] | | |] eqn:Hup;
      unfold_outcome; intros; simplify_eq.
    apply on_upstream_count in Hup. rewrite Hup. by destruct ok.
  - apply on_peer_count.
  - unfold_outcome. intros [= <- <- <-].
    destruct (can_send_data t); [apply spd_incr | lia].
Qed.
Lemma recv_again_count c l c' :
  recv_again K c = Goto l c' →
  spd (c_transport c')
  = (spd (c_transport c)
     + frame_count counts_as_source_discard K L_recv_again c)%N.
Proof.
  unfold recv_again, frame_count, frame_verdict_of.
  destruct (rx_buffer (c_transport c)) as [rx |]; [| done].
  pose proof (recvskb_keeps spd (λ _ _, eq_refl) (c_transport c)
                (c_world c) rx MSG_DONTWAIT (addr_of_src (c_world c))
                (c_src c) (c_dst c)) as Hread.
  destruct (recvskb _ _ _ _ _ _ _) as [t1 w1 src1 dst1 len]. simpl in *.
  destruct (Z.ltb_spec len 0);
    [rewrite (proj2 (Z.leb_le len 0)) by lia; intros [= <- <-]; simpl; lia |].
  destruct (Z.eqb_spec len 0);
    [rewrite (proj2 (Z.leb_le len 0)) by lia; intros [= <- <-]; simpl; lia |].
  rewrite (proj2 (Z.leb_gt len 0)) by lia.
  assert (spd (parse_frame K t1 rx src1 dst1).1.1.1 = spd t1) as Hparse
    by (unfold parse_frame; repeat case_match; reflexivity).
  destruct (parse_frame K t1 rx src1 dst1) as [[[t2 dst2] is_valid] err].
  simpl in Hparse. destruct is_valid; simpl.
  - destruct (on_pgm K t2 rx src1 dst2 (c_source c))
      as [[[t3 source] ok] | | |] eqn:Hpgm; [| done..].
    apply on_pgm_count in Hpgm.
    repeat case_match; intros; simplify_eq/=;
      rewrite ?(set_pending_keeps _ _ Hengine); lia.
  - unfold counts_as_source_discard. simpl.
    destruct (can_send_data t2); intros [= <- <-]; simpl; [| lia].
    unfold source_packets_discarded in *. simpl. rewrite stat_incr_same.
    destruct err as [[] |]; simpl; rewrite ?stat_incr_other by done; lia.
Qed.

Lemma step_count msg_len flags _bytes_read error pc c l c' :
  step K CONFIG_HAVE_POLL msg_len flags _bytes_read error pc c = Goto l c' →
  spd (c_transport c')
  = (spd (c_transport c) + frame_count counts_as_source_discard K pc c)%N.
Proof.
  destruct pc; simpl; intros Hstep.
  - apply (flush_pending_keeps spd K Hengine) in Hstep.
    unfold frame_count. lia.
  - exact (recv_again_count _ _ _ Hstep).
  - apply (flush_pending_keeps spd K Hengine) in Hstep.
    unfold frame_count. lia.
  - apply (check_for_repeat_keeps spd K CONFIG_HAVE_POLL (λ _ _, eq_refl)
             Hengine) in Hstep.
    unfold frame_count. lia.
  - by apply out_never_jumps in Hstep.
Qed.

Lemma report_reset_count flags error (t : pgm_transport_t Ext) w msg_start
    b d r :
  report_reset K flags error t w msg_start b d = Done r →
  spd (r_transport r) = spd t.
Proof.
  unfold report_reset. unfold_outcome.
  pose proof Hours as (_ & _ & _ & Hdescr).
  destruct (peers_pending t) as [| peer rest]; [done |].
  destruct (flag_set flags MSG_ERRQUEUE).
  - pose proof (Hdescr t peer msg_start) as Hkeep.
    destruct (pgm_set_reset_error K t peer msg_start) as [t1 msgv1].
    simpl in Hkeep. intros [= <-]. simpl.
    by destruct (negb (is_abort_on_reset t1)).
  - destruct error; intros [= <-]; simpl;
      by destruct (negb (is_abort_on_reset t)).
Qed.

(** A return is not a read: the counter stays, and no frame is counted. *)
Lemma return_count msg_len flags _bytes_read error pc c r :
  step K CONFIG_HAVE_POLL msg_len flags _bytes_read error pc c = Return r →
  spd (r_transport r) = spd (c_transport c)
  ∧ frame_count counts_as_source_discard K pc c = 0%N.
Proof.
  pose proof (clear_pending_read_keeps spd K (λ _ _, eq_refl) Hengine
                (c_transport c)) as Hclear.
  destruct pc; simpl.
  - unfold flush_pending. repeat case_match; done.
  - unfold recv_again. repeat case_match; done.
  - unfold flush_pending. repeat case_match; done.
  - unfold check_for_repeat.
    destruct (flag_set flags MSG_DONTWAIT); [repeat case_match; done |].
    destruct (c_data_read c =? 0)%N; [| done].
    destruct (wait_for_event _ _ _ _ _) as [[[t1 w1] status] | | |] eqn:Hwait;
      [| done..].
    apply (wait_for_event_keeps spd K CONFIG_HAVE_POLL (λ _ _, eq_refl)
             Hengine) in Hwait.
    repeat case_match; intros; simplify_eq/=; done.
  - unfold out. unfold_outcome.
    destruct (c_data_read c =? 0)%N.
    + destruct (is_reset _).
      * destruct (report_reset _ _ _ _ _ _ _ _) as [r0 | | |] eqn:Hreport;
          [| done..].
        apply report_reset_count in Hreport. intros [= <-].
        split; [congruence | done].
      * intros [= <-]. done.
    + intros [= <-]. simpl. split; [| done].
      repeat case_match; try done.
      * apply (notify_clear_keeps _ _ Hengine).
      * apply (notify_send_keeps _ _ Hengine).
Qed.

Lemma recv_loop_count fuel msg_len flags _bytes_read error pc c r :
  recv_loop K CONFIG_HAVE_POLL fuel msg_len flags _bytes_read error pc c
    = Done r →
  spd (r_transport r)
  = (spd (c_transport c)
     + loop_discards counts_as_source_discard K CONFIG_HAVE_POLL fuel
         msg_len flags _bytes_read error pc c)%N.
Proof.
  revert pc c. induction fuel as [| fuel IH]; [done |]. intros pc c. simpl.
  destruct (step K _ _ _ _ _ pc c) as [l c' | r' |] eqn:Hstep; [| | done].
  - intros Hrun. rewrite (IH _ _ Hrun), (step_count _ _ _ _ _ _ _ _ Hstep).
    lia.
  - intros [= ->]. apply return_count in Hstep as [-> ->]. lia.
Qed.

Lemma run_call_count t w a r :
  run_call K CONFIG_HAVE_POLL t w a = Done r →
  spd (r_transport r)
  = (spd t + call_discards counts_as_source_discard K CONFIG_HAVE_POLL t w a)%N.
Proof.
  unfold run_call, call_discards, pgm_recvmsgv. unfold_outcome.
  destruct (negb (is_bound t)); simpl; [intros [= <-]; simpl; lia |].
  destruct (is_destroyed t); simpl; [intros [= <-]; simpl; lia |].
  destruct (bool_decide _); [| done].
  destruct (0 <? max_tpdu t); [| done].
  destruct (1 <? nak_bo_ivl t); [| done].
  destruct (pgm_notify_is_valid K t); [| done].
  destruct (is_reset t).
  - intros Hreport. apply report_reset_count in Hreport. lia.
  - intros Hrun. rewrite (recv_loop_count _ _ _ _ _ _ _ _ Hrun).
    by rewrite (entry_config_keeps spd K Hengine).
Qed.

End DiscardCounter.


Lemma bench_engine_keeps {A} (f : Bench.transport_t → A) :
  (∀ v t, f (set_ext v t) = f t) →
  (∀ v t, f (set_peers_pending v t) = f t) →
  engine_keeps f Bench.K.
Proof.
  intros Hext Hpending. split; simpl; try done.
  - intros t p. unfold Bench.peer_set_pending. case_match; [done |].
    apply Hpending.
  - intros t m p e b d. unfold Bench.flush_peers_pending.
    repeat case_match; simpl; rewrite ?Hpending, ?Hext; done.
Qed.

Lemma bench_discard_counter_is_ours : discard_counter_is_ours Bench.K.
Proof.
  split_and!.
  - by apply bench_processors_keep.
  - by apply bench_new_peer_keeps.
  - by apply bench_engine_keeps.
  - done.
Qed.



(** * Further properties of the receive path *)

(** ** A non-blocking call returns *)

Section NonBlocking.
Context {Ext : Type}.
Variable K : collaborators Ext.
Variable CONFIG_HAVE_POLL : bool.
Variables (msg_len : N) (flags : Z) (_bytes_read error : bool).
Hypothesis Hdontwait : flag_set flags MSG_DONTWAIT = true.

Lemma recvskb_world (t : pgm_transport_t Ext) w skb fl src_addr src dst :
  rs_world (recvskb t w skb fl src_addr src dst) = (recvmsg w).1.
Proof.
  unfold recvskb. destruct (recvmsg w) as [w1 d].
  repeat case_match; reflexivity.
Qed.

Lemma recvmsg_queue w :
  sock_queue (recvmsg w).1 = tail (sock_queue w)
  ∧ wait_queue (recvmsg w).1 = wait_queue w.
Proof.
  unfold recvmsg. destruct (sock_queue w) eqn:Hq; simpl; rewrite ?Hq; done.
Qed.

Lemma recvskb_len_empty (t : pgm_transport_t Ext) w skb fl src_addr src dst :
  sock_queue w = [] →
  rs_len (recvskb t w skb fl src_addr src dst) = -1.
Proof.
  intros Hempty. unfold recvskb, recvmsg. rewrite Hempty. simpl.
  repeat case_match; reflexivity.
Qed.

(** Where [recv_again] goes, and with which world and [len]. *)
Lemma recv_again_world c l c' :
  recv_again K c = Goto l c' →
  c_world c' = (recvmsg (c_world c)).1
  ∧ (sock_queue (c_world c) = [] → l = L_check_for_repeat ∧ c_len c' = -1)
  ∧ (l = L_check_for_repeat → c_len c' < 0)
  ∧ (l = L_flush_pending → 0 < c_len c')
  ∧ l ≠ L_flush_first.
Proof.
  unfold recv_again.
  destruct (rx_buffer (c_transport c)) as [rx |]; [| done].
  pose proof (recvskb_world (c_transport c) (c_world c) rx MSG_DONTWAIT
                (addr_of_src (c_world c)) (c_src c) (c_dst c)) as Hworld.
  pose proof (recvskb_len_empty (c_transport c) (c_world c) rx MSG_DONTWAIT
                (addr_of_src (c_world c)) (c_src c) (c_dst c)) as Hempty.
  destruct (recvskb _ _ _ _ _ _ _) as [t1 w1 src1 dst1 len]. simpl in *.
  destruct (Z.ltb_spec len 0).
  { intros [= <- <-]. simpl.
    split_and!; [exact Hworld | | intros; lia | done | done].
    intros Hq. split; [done | exact (Hempty Hq)]. }
  destruct (Z.eqb_spec len 0).
  { intros [= <- <-]. simpl.
    split_and!; [exact Hworld | | done | done | done].
    intros Hq. specialize (Hempty Hq). lia. }
  assert (sock_queue (c_world c) ≠ []) as Hne
    by (intros Hq; specialize (Hempty Hq); lia).
  destruct (parse_frame K t1 rx src1 dst1) as [[[t2 dst2] is_valid] err].
  repeat case_match; intros; simplify_eq/=;
    (split_and!; [done | done | done | intros; lia | done]).
Qed.

Lemma flush_pending_cases_label after c l c' :
  flush_pending K msg_len after c = Goto l c' →
  (l = after ∨ l = L_out)
  ∧ c_world c' = c_world c ∧ c_len c' = c_len c.
Proof.
  unfold flush_pending, flush. intros H.
  repeat case_match; simplify_eq/=; auto.
Qed.

Lemma nonblocking_step_decreases pc c l c' :
  step K CONFIG_HAVE_POLL msg_len flags _bytes_read error pc c = Goto l c' →
  (nonblocking_measure l c' < nonblocking_measure pc c)%nat.
Proof.
  destruct pc; simpl; intros Hstep.
  - apply flush_pending_cases_label in Hstep
      as (Hlabel & Hworld & Hlen).
    unfold nonblocking_measure. rewrite Hworld.
    destruct Hlabel as [-> | ->]; repeat case_match; lia.
  - apply recv_again_world in Hstep as (Hworld & Hempty & Hneg & Hpos & Hl).
    pose proof (recvmsg_queue (c_world c)) as [Hqueue _].
    unfold nonblocking_measure. rewrite Hworld, Hqueue.
    destruct (sock_queue (c_world c)) as [| d q] eqn:Hq.
    + destruct (Hempty eq_refl) as [-> Hlen]. rewrite Hlen. simpl. lia.
    + simpl length. destruct l; try done.
      * lia.
      * specialize (Hpos eq_refl).
        rewrite (proj2 (Z.ltb_lt _ _) Hpos). lia.
      * specialize (Hneg eq_refl).
        rewrite (proj2 (Z.ltb_ge _ _)) by lia. lia.
      * lia.
  - apply flush_pending_cases_label in Hstep
      as (Hlabel & Hworld & Hlen).
    unfold nonblocking_measure. rewrite Hworld, Hlen.
    destruct Hlabel as [-> | ->]; repeat case_match; lia.
  - revert Hstep. unfold check_for_repeat. rewrite Hdontwait.
    unfold nonblocking_measure.
    destruct (0 <? c_len c); simpl; intros; simplify_eq;
      repeat case_match; simplify_eq; lia.
  - by apply out_never_jumps in Hstep.
Qed.

Lemma nonblocking_loop_returns fuel pc c :
  (nonblocking_measure pc c ≤ fuel)%nat →
  recv_loop K CONFIG_HAVE_POLL fuel msg_len flags _bytes_read error pc c
  ≠ OutOfFuel.
Proof.
  revert pc c. induction fuel as [| fuel IH]; intros pc c Hfuel.
  - destruct pc; unfold nonblocking_measure in Hfuel;
      repeat case_match; lia.
  - simpl.
    destruct (step K _ _ _ _ _ pc c) as [l c' | r |] eqn:Hstep; [| done..].
    apply IH. apply nonblocking_step_decreases in Hstep. lia.
Qed.
End NonBlocking.

Lemma recv_loop_never_undefined {Ext} (K : collaborators Ext) POLL fuel
    msg_len flags _bytes_read error pc c :
  recv_loop K POLL fuel msg_len flags _bytes_read error pc c ≠ Undefined.
Proof.
  revert pc c. induction fuel as [| fuel IH]; [done |]. intros pc c. simpl.
  destruct (step K _ _ _ _ _ pc c); [apply IH | done..].
Qed.



(** ** A non-blocking call neither waits nor fails *)

Section NonBlockingQuiet.
Context {Ext : Type}.
Variable K : collaborators Ext.
Variable CONFIG_HAVE_POLL : bool.
Variables (msg_len : N) (flags : Z) (_bytes_read error : bool).
Hypothesis Hdontwait : flag_set flags MSG_DONTWAIT = true.

Lemma nonblocking_step_wait_queue pc c l c' :
  step K CONFIG_HAVE_POLL msg_len flags _bytes_read error pc c = Goto l c' →
  wait_queue (c_world c') = wait_queue (c_world c).
Proof.
  destruct pc; simpl; intros Hstep.
  - apply (flush_pending_cases_label K msg_len) in Hstep as (_ & -> & _).
    reflexivity.
  - apply recv_again_world in Hstep as (-> & _).
    apply recvmsg_queue.
  - apply (flush_pending_cases_label K msg_len) in Hstep as (_ & -> & _).
    reflexivity.
  - revert Hstep. unfold check_for_repeat. rewrite Hdontwait.
    case_match; intros; by simplify_eq.
  - by apply out_never_jumps in Hstep.
Qed.

Lemma nonblocking_return pc c r :
  step K CONFIG_HAVE_POLL msg_len flags _bytes_read error pc c = Return r →
  r_status r ≠ G_IO_STATUS_ERROR ∧ r_world r = c_world c.
Proof.
  destruct pc; simpl.
  - unfold flush_pending. repeat case_match; done.
  - unfold recv_again. repeat case_match; done.
  - unfold flush_pending. repeat case_match; done.
  - unfold check_for_repeat. rewrite Hdontwait. repeat case_match; done.
  - unfold out, report_reset. unfold_outcome.
    repeat case_match; intros; simplify_eq/=; done.
Qed.
End NonBlockingQuiet.



(** ** The out-pointers of a delivery call *)

Lemma pgm_recv_error_from_errno_not_reset (err_no : Z) :
  pgm_recv_error_from_errno err_no ≠ PGM_RECV_ERROR_CONNRESET.
Proof. unfold pgm_recv_error_from_errno. repeat case_match; done. Qed.

Lemma report_reset_out_pointers {Ext} (K : collaborators Ext) flags
    _bytes_read error (t : pgm_transport_t Ext) w msg_start b d r :
  report_reset K flags error t w msg_start b d = Done r →
  out_pointers_discipline flags _bytes_read error r.
Proof.
  unfold report_reset, out_pointers_discipline. unfold_outcome.
  destruct (peers_pending t) as [| peer rest]; [done |].
  destruct (flag_set flags MSG_ERRQUEUE) eqn:Hflag.
  - destruct (pgm_set_reset_error K t peer msg_start) as [t1 msgv1].
    intros [= <-]. simpl. split_and!; [done | done |]. intros e [=].
  - destruct error; intros [= <-]; simpl;
      (split_and!; [done | intros [[=] | [=]] |]); intros e [= <-]; simpl.
    split; [done |]. left. done.
Qed.

Lemma return_out_pointers {Ext} (K : collaborators Ext) POLL msg_len flags
    _bytes_read error pc c r :
  step K POLL msg_len flags _bytes_read error pc c = Return r →
  out_pointers_discipline flags _bytes_read error r.
Proof.
  destruct pc; simpl.
  - unfold flush_pending. repeat case_match; done.
  - unfold recv_again. repeat case_match; done.
  - unfold flush_pending. repeat case_match; done.
  - unfold check_for_repeat.
    destruct (flag_set flags MSG_DONTWAIT) eqn:Hflag;
      [repeat case_match; done |].
    destruct (c_data_read c =? 0)%N; [| done].
    destruct (wait_for_event _ _ _ _ _) as [[[t1 w1] status] | | |];
      [| done..].
    repeat case_match; try done.
    all: intros [= <-]; unfold out_pointers_discipline; simpl;
      (split_and!; [done | intros [[=] | [=]] |]); intros e [= <-]; simpl.
    split; [done |]. right. split_and!; try done.
    apply pgm_recv_error_from_errno_not_reset.
  - unfold out. unfold_outcome.
    destruct (c_data_read c =? 0)%N.
    + destruct (is_reset _).
      * destruct (report_reset _ _ _ _ _ _ _ _) as [r0 | | |] eqn:Hreport;
          [| done..].
        intros [= <-]. eapply report_reset_out_pointers, Hreport.
      * intros [= <-]. unfold out_pointers_discipline. simpl.
        split_and!; [done | done |]. intros e [=].
    + intros [= <-]. unfold out_pointers_discipline. simpl.
      split_and!; [| done | intros e [=]].
      destruct _bytes_read; done.
Qed.

(** X3.  What [pgm_recvmsgv] stores through its out-pointers.  A number of
    octets is stored only when the call returns Normal.  An error is
    stored only through a non-NULL [error] and never with Normal or Again:
    it is ConnReset with Eof (and then ERRQUEUE was not asked for), or the
    code [pgm_recv_error_from_errno] gives for [errno] with Error (and then
    the call was a blocking one); that code is never ConnReset. *)
Theorem recvmsgv_out_pointers {Ext} (K : collaborators Ext)
    (CONFIG_HAVE_POLL : bool) (fuel : nat) (t : pgm_transport_t Ext)
    (w : World) (msg_start : list pgm_msgv_t) (msg_len : N) (flags : Z)
    (_bytes_read error : bool) (r : recv_result) :
  pgm_recvmsgv K CONFIG_HAVE_POLL fuel t w msg_start msg_len flags
               _bytes_read error = Done r →
  out_pointers_discipline flags _bytes_read error r.
Proof.
  intros Hrun.
  apply pgm_recvmsgv_cases in Hrun as [-> | [[_ Hreport] | [_ Hloop]]].
  - unfold out_pointers_discipline. simpl.
    split_and!; [done | done | intros e [=]].
  - eapply report_reset_out_pointers, Hreport.
  - destruct (recv_loop_invariant K CONFIG_HAVE_POLL msg_len flags
                _bytes_read error (λ _, True) (λ _ _ _ _ _ _, I)
                _ _ _ _ I Hloop) as (pc' & c' & _ & Hret).
    eapply return_out_pointers, Hret.
Qed.

(** A blocking call whose [poll] fails with EBADF. *)
Lemma recvmsgv_out_pointers_witness :
  ∃ r e,
    pgm_recvmsgv Bench.K true 10 Bench.transport0
      (Bench.world0 []
         [{| wo_ready := -1; wo_revents := []; wo_readfds := [];
             wo_errno := EBADF |}])
      [{| msgv_len := 0; msgv_skb := [] |}] 1 0 true true = Done r
    ∧ r_status r = G_IO_STATUS_ERROR
    ∧ r_error r = Some e
    ∧ err_code e = PGM_RECV_ERROR_BADF
    ∧ out_pointers_discipline 0 true true r.
Proof.
  destruct (pgm_recvmsgv _ _ _ _ _ _ _ _ _ _) as [r | | |] eqn:Hrun;
    try (vm_compute in Hrun; discriminate Hrun).
  pose proof (recvmsgv_out_pointers Bench.K true 10 Bench.transport0 _ _ _
                0 true true r Hrun) as Hout.
  vm_compute in Hrun. injection Hrun as <-.
  eexists _, _. split; [reflexivity |].
  split_and!; [reflexivity | reflexivity | reflexivity | exact Hout].
Defined.

(** ** The pending-read notification *)

Lemma clear_pending_read_clears {Ext} (K : collaborators Ext)
    (t : pgm_transport_t Ext) :
  is_pending_read (clear_pending_read K t) = false.
Proof. unfold clear_pending_read. by destruct (is_pending_read t) eqn:H. Qed.

Lemma return_notification {Ext} (K : collaborators Ext) POLL msg_len flags
    _bytes_read error pc c r :
  step K POLL msg_len flags _bytes_read error pc c = Return r →
  (r_status r = G_IO_STATUS_AGAIN → is_pending_read (r_transport r) = false)
  ∧ (notify_keeps_pending K →
     r_status r = G_IO_STATUS_NORMAL →
     peers_pending (r_transport r) ≠ [] →
     is_pending_read (r_transport r)
     = negb (is_edge_triggered_recv (r_transport r))).
Proof.
  destruct pc; simpl.
  - unfold flush_pending. repeat case_match; done.
  - unfold recv_again. repeat case_match; done.
  - unfold flush_pending. repeat case_match; done.
  - unfold check_for_repeat. repeat case_match; try done.
    all: intros [= <-]; simpl; done.
  - unfold out. unfold_outcome.
    destruct (c_data_read c =? 0)%N.
    + destruct (is_reset _).
      * destruct (report_reset _ _ _ _ _ _ _ _) as [r0 | | |] eqn:Hreport;
          [| done..].
        intros [= <-]. apply report_reset_status in Hreport.
        rewrite Hreport. done.
      * intros [= <-]. simpl. split; [| done].
        intros _. apply clear_pending_read_clears.
    + intros [= <-]. simpl. split; [done |]. intros Hnotify _.
      destruct (peers_pending (c_transport c)) as [| peer rest] eqn:Hpending;
        [done |].
      destruct (Hnotify (c_transport c)) as (Hc1 & Hc2 & Hs1 & Hs2).
      destruct (is_pending_read (c_transport c)) eqn:Hread,
               (is_edge_triggered_recv (c_transport c)) eqn:Hedge;
        simpl; intros _; rewrite ?Hc2, ?Hs2, ?Hread, ?Hedge; done.
Qed.

(** X4.  The pending-read flag after a delivery call.  After Again the
    flag is clear.  After Normal with peers still pending the flag is set
    exactly in level-triggered mode: an edge-triggered transport has its
    notification drained, a level-triggered one has it signalled (the
    notification pipe itself leaving the pending list and the mode
    alone). *)
Theorem recvmsgv_notification {Ext} (K : collaborators Ext)
    (CONFIG_HAVE_POLL : bool) (fuel : nat) (t : pgm_transport_t Ext)
    (w : World) (msg_start : list pgm_msgv_t) (msg_len : N) (flags : Z)
    (_bytes_read error : bool) (r : recv_result) :
  pgm_recvmsgv K CONFIG_HAVE_POLL fuel t w msg_start msg_len flags
               _bytes_read error = Done r →
  (r_status r = G_IO_STATUS_AGAIN → is_pending_read (r_transport r) = false)
  ∧ (notify_keeps_pending K →
     r_status r = G_IO_STATUS_NORMAL →
     peers_pending (r_transport r) ≠ [] →
     is_pending_read (r_transport r)
     = negb (is_edge_triggered_recv (r_transport r))).
Proof.
  intros Hrun.
  apply pgm_recvmsgv_cases in Hrun as [-> | [[_ Hreport] | [_ Hloop]]].
  - done.
  - apply report_reset_status in Hreport. rewrite Hreport. done.
  - destruct (recv_loop_invariant K CONFIG_HAVE_POLL msg_len flags
                _bytes_read error (λ _, True) (λ _ _ _ _ _ _, I)
                _ _ _ _ I Hloop) as (pc' & c' & _ & Hret).
    eapply return_notification, Hret.
Qed.

(** A level-triggered transport whose first pending peer holds two
    packets, read with a vector of one entry: one packet is handed out
    and the peer stays pending. *)
Lemma recvmsgv_notification_witness :
  ∃ r,
    pgm_recvmsgv Bench.K true 10 Bench.transport_fragments
      (Bench.world0 [] []) [{| msgv_len := 0; msgv_skb := [] |}] 1
      MSG_DONTWAIT true true = Done r
    ∧ r_status r = G_IO_STATUS_NORMAL
    ∧ peers_pending (r_transport r) = [0%nat]
    ∧ is_pending_read (r_transport r) = true.
Proof.
  destruct (pgm_recvmsgv _ _ _ _ _ _ _ _ _ _) as [r | | |] eqn:Hrun;
    try (vm_compute in Hrun; discriminate Hrun).
  destruct (recvmsgv_notification Bench.K true 10 Bench.transport_fragments
              _ _ _ MSG_DONTWAIT true true r Hrun) as [_ Hnormal].
  assert (Hstatus : r_status r = G_IO_STATUS_NORMAL)
    by (vm_compute in Hrun; injection Hrun as <-; reflexivity).
  assert (Hpending : peers_pending (r_transport r) = [0%nat])
    by (vm_compute in Hrun; injection Hrun as <-; reflexivity).
  assert (Hedge : is_edge_triggered_recv (r_transport r) = false)
    by (vm_compute in Hrun; injection Hrun as <-; reflexivity).
  exists r. split; [reflexivity |]. split_and!; [done | done |].
  rewrite Hnormal, Hedge; [done | | done |].
  - intros t. done.
  - rewrite Hpending. done.
Defined.

(** ** Accepted frames *)

Lemma skb_at_peer_update {Ext} (g : pgm_peer_t → pgm_peer_t) (peer : nat)
    (t : pgm_transport_t Ext) (skb : nat) :
  skb_at (peer_update g peer t) skb = skb_at t skb.
Proof. reflexivity. Qed.

Lemma pulled_header {Ext} (data : pgm_sk_buff_t → Z) (skb : nat)
    (t : pgm_transport_t Ext) :
  skb_pgm_header (skb_at (skb_update (λ s, skb_pull_header (data s) s) skb t)
                         skb)
  = skb_pgm_header (skb_at t skb).
Proof. apply skb_header_update. reflexivity. Qed.

Lemma on_upstream_accepts {Ext} (K : collaborators Ext)
    (t : pgm_transport_t Ext) skb t' :
  on_upstream K t skb = Done (t', true) →
  session_filter t skb Upstream
  ∧ pgm_type (skb_pgm_header (skb_at t skb))
    ∈ [PGM_NAK; PGM_NNAK; PGM_SPMR].
Proof.
  unfold on_upstream, session_filter, pgm_gsi_equal. unfold_outcome.
  rewrite pulled_header.
  destruct (Z.eqb_spec (pgm_dport (skb_pgm_header (skb_at t skb)))
                       (sport (tsi t))); [| done].
  destruct (can_send_data t); [| done]. simpl.
  destruct (Z.eqb_spec (pgm_sport (skb_pgm_header (skb_at t skb)))
                       (dport t)); [| done]. simpl.
  destruct (Z.eqb_spec (gsi (skb_tsi (skb_at t skb))) (gsi (tsi t)));
    [| done]. simpl.
  intros H. split; [done |].
  destruct (pgm_type _); try done; rewrite !elem_of_cons; tauto.
Qed.

Lemma on_peer_accepts {Ext} (K : collaborators Ext)
    (t : pgm_transport_t Ext) skb source t' source' :
  on_peer K t skb source = Done (t', source', true) →
  session_filter t skb Peer
  ∧ pgm_type (skb_pgm_header (skb_at t skb)) ∈ peer_types
  ∧ source' = peers_hashtable t !! skb_tsi (skb_at t skb).
Proof.
  unfold on_peer, session_filter, receiver_discarded. unfold_outcome.
  rewrite pulled_header.
  destruct (Z.eqb_spec (pgm_dport (skb_pgm_header (skb_at t skb)))
                       (sport (tsi t))); [done |]. simpl.
  destruct (can_recv_data t); simpl; [| repeat case_match; done].
  destruct (Z.eqb_spec (pgm_sport (skb_pgm_header (skb_at t skb)))
                       (dport t)); simpl; [| repeat case_match; done].
  destruct (peers_hashtable t !! skb_tsi (skb_at t skb)) as [peer |];
    [| repeat case_match; done].
  intros H. split; [done |].
  destruct (pgm_type _); try done; repeat case_match; simplify_eq;
    (split; [unfold peer_types; rewrite !elem_of_cons; tauto | done]).
Qed.

Lemma on_downstream_accepts {Ext} (K : collaborators Ext)
    (t : pgm_transport_t Ext) skb src dst source t' source' :
  on_downstream K t skb src dst source = Done (t', source', true) →
  session_filter t skb Downstream.
Proof.
  unfold on_downstream, session_filter, receiver_discarded. unfold_outcome.
  destruct (can_recv_data t); simpl; [| repeat case_match; done].
  destruct (Z.eqb_spec (pgm_dport (skb_pgm_header (skb_at t skb)))
                       (dport t)); simpl; [| repeat case_match; done].
  done.
Qed.

(** X5.  A frame the dispatcher accepts has passed the session filter of
    its route, whatever the packet processors do.  Downstream: the
    transport receives and the frame is addressed to our data-destination
    port.  Upstream: the transport sends, and the frame is addressed to
    our source port, comes from our data-destination port and carries our
    GSI.  Peer: the transport receives, and the frame is addressed
    elsewhere, comes from our data-destination port and is about a source
    the peer mapping knows.  No frame on the discard route is accepted. *)
Theorem on_pgm_accepts_filtered {Ext} (K : collaborators Ext)
    (t : pgm_transport_t Ext) (skb : nat) (src_addr dst_addr : sockaddr)
    (source : option nat) (t' : pgm_transport_t Ext) (source' : option nat) :
  on_pgm K t skb src_addr dst_addr source = Done (t', source', true) →
  session_filter t skb
    (frame_route_spec (sport (tsi t)) (skb_pgm_header (skb_at t skb))).
Proof.
  rewrite on_pgm_eq_spec. unfold on_pgm_spec.
  destruct (frame_route_spec _ _) eqn:Hroute.
  - apply on_downstream_accepts.
  - destruct (on_upstream K t skb) as [[t1 ok] | | |] eqn:Hup;
      unfold_outcome; [| done..].
    intros [= <- <- ->]. eapply on_upstream_accepts, Hup.
  - intros H. eapply on_peer_accepts, H.
  - unfold_outcome. done.
Qed.

(** The ODATA "hello" of a known source, accepted downstream. *)
Lemma on_pgm_accepts_filtered_witness :
  ∃ t' source',
    on_pgm Bench.K (Bench.received Bench.odata_hello) 0
           (Bench.ipv4 1) (Bench.ipv4 2) None = Done (t', source', true)
    ∧ can_recv_data (Bench.received Bench.odata_hello) = true
    ∧ pgm_dport (skb_pgm_header
                   (skb_at (Bench.received Bench.odata_hello) 0))
      = dport (Bench.received Bench.odata_hello).
Proof.
  destruct (on_pgm _ _ _ _ _ _) as [[[t' source'] ok] | | |] eqn:Hrun;
    try (vm_compute in Hrun; discriminate Hrun).
  destruct ok; [| vm_compute in Hrun; discriminate Hrun].
  exists t', source'. split; [reflexivity |].
  exact (on_pgm_accepts_filtered Bench.K _ 0%nat _ _ None t' source' Hrun).
Defined.

Lemma on_downstream_accepts_type {Ext} (K : collaborators Ext)
    (t : pgm_transport_t Ext) skb src dst source t' source' :
  new_peer_keeps (λ t, skbs t) K →
  on_downstream K t skb src dst source = Done (t', source', true) →
  pgm_type (skb_pgm_header (skb_at t skb))
  ∈ [PGM_ODATA; PGM_RDATA; PGM_NCF; PGM_SPM].
Proof.
  intros Hnew. unfold on_downstream, receiver_discarded. unfold_outcome.
  destruct (negb (can_recv_data t)); [repeat case_match; done |].
  destruct (negb (_ =? _)); [repeat case_match; done |].
  destruct (peers_hashtable t !! skb_tsi (skb_at t skb)) as [peer |].
  - rewrite pulled_header. unfold peer_set_last_packet, peer_stat_add.
    rewrite !skb_at_peer_update.
    destruct (pgm_type _); try (rewrite !elem_of_cons; tauto);
      repeat case_match; done.
  - destruct (pgm_new_peer K t _ src dst) as [t1 peer] eqn:Hcall.
    rewrite pulled_header. unfold peer_set_last_packet, peer_stat_add.
    rewrite !skb_at_peer_update.
    replace (skb_at t1 skb) with (skb_at t skb)
      by (unfold skb_at; by rewrite (Hnew _ _ _ _ _ _ Hcall)).
    destruct (pgm_type _); try (rewrite !elem_of_cons; tauto);
      repeat case_match; done.
Qed.

(** X6.  The dispatcher accepts only frames of a type some handler has a
    processor for: ODATA, RDATA, NCF and SPM downstream, NAK, NNAK and SPMR
    upstream, NAK and SPMR among peers.  A POLL, which the classifier
    sends downstream, a POLR and a frame of unknown type are never
    accepted, and an NNAK only when it is addressed to our source port.
    Creating a peer leaves the buffers alone. *)
Theorem on_pgm_accepts_processed_types {Ext} (K : collaborators Ext)
    (t : pgm_transport_t Ext) (skb : nat) (src_addr dst_addr : sockaddr)
    (source : option nat) (t' : pgm_transport_t Ext) (source' : option nat) :
  new_peer_keeps (λ t, skbs t) K →
  on_pgm K t skb src_addr dst_addr source = Done (t', source', true) →
  pgm_type (skb_pgm_header (skb_at t skb)) ∈ processed_types
  ∧ (pgm_type (skb_pgm_header (skb_at t skb)) = PGM_NNAK →
     pgm_dport (skb_pgm_header (skb_at t skb)) = sport (tsi t)).
Proof.
  intros Hnew. unfold on_pgm, processed_types. unfold_outcome.
  destruct (pgm_is_downstream _) eqn:Hdown.
  - intros H%on_downstream_accepts_type; [| done].
    split; [rewrite !elem_of_cons in *; tauto |].
    intros Hty. rewrite Hty in Hdown. done.
  - destruct (Z.eqb_spec (pgm_dport (skb_pgm_header (skb_at t skb)))
                         (sport (tsi t))).
    + destruct (_ || _); [| repeat case_match; done].
      destruct (on_upstream K t skb) as [[t1 ok] | | |] eqn:Hup; [| done..].
      intros [= <- <- ->]. apply on_upstream_accepts in Hup as [_ Hty].
      rewrite !elem_of_cons in *.
      split; [tauto | done].
    + destruct (pgm_is_peer _); [| repeat case_match; done].
      intros (_ & Hty & _)%on_peer_accepts. unfold peer_types in Hty.
      split; [rewrite !elem_of_cons in *; tauto |].
      intros Heq. rewrite Heq, !elem_of_cons, elem_of_nil in Hty.
      intuition discriminate.
Qed.

Lemma on_pgm_accepts_processed_types_witness :
  ∃ t' source',
    on_pgm Bench.K (Bench.received Bench.nak_to_us) 0
           (Bench.ipv4 1) (Bench.ipv4 2) None = Done (t', source', true)
    ∧ pgm_type (skb_pgm_header (skb_at (Bench.received Bench.nak_to_us) 0))
      ∈ processed_types.
Proof.
  destruct (on_pgm _ _ _ _ _ _) as [[[t' source'] ok] | | |] eqn:Hrun;
    try (vm_compute in Hrun; discriminate Hrun).
  destruct ok; [| vm_compute in Hrun; discriminate Hrun].
  exists t', source'. split; [reflexivity |].
  exact (proj1 (on_pgm_accepts_processed_types Bench.K _ 0%nat _ _ None
                  t' source' (bench_new_peer_keeps (λ t, skbs t) (λ _ _, eq_refl)
                     (λ _ _, eq_refl)) Hrun)).
Defined.

(** ** The peer the dispatcher leaves in [*source] *)

Lemma on_downstream_source {Ext} (K : collaborators Ext)
    (t : pgm_transport_t Ext) skb src dst source t' source' ok :
  on_downstream K t skb src dst source = Done (t', source', ok) →
  source'
  = if downstream_filters t skb
    then Some (match peers_hashtable t !! skb_tsi (skb_at t skb) with
               | Some peer => peer
               | None =>
                   (pgm_new_peer K t (skb_tsi (skb_at t skb)) src dst).2
               end)
    else source.
Proof.
  unfold on_downstream, downstream_filters, receiver_discarded.
  unfold_outcome.
  destruct (can_recv_data t); simpl; [| repeat case_match; congruence].
  destruct (_ =? _); simpl; [| repeat case_match; congruence].
  destruct (peers_hashtable t !! skb_tsi (skb_at t skb)) as [peer |].
  - repeat case_match; congruence.
  - destruct (pgm_new_peer K t _ src dst) as [t1 peer]. simpl.
    repeat case_match; congruence.
Qed.

Lemma on_peer_source {Ext} (K : collaborators Ext)
    (t : pgm_transport_t Ext) skb source t' source' ok :
  on_peer K t skb source = Done (t', source', ok) →
  source'
  = if peer_filters t skb then peers_hashtable t !! skb_tsi (skb_at t skb)
    else source.
Proof.
  unfold on_peer, peer_filters, receiver_discarded. unfold_outcome.
  destruct (negb (_ =? _)); [| done]. simpl.
  destruct (can_recv_data t); simpl; [| repeat case_match; congruence].
  destruct (_ =? _); simpl; [| repeat case_match; congruence].
  destruct (peers_hashtable t !! skb_tsi (skb_at t skb)) as [peer |];
    repeat case_match; congruence.
Qed.

(** X7.  The peer [*source] names when [on_pgm] returns, accepted or not.
    Upstream the slot is cleared.  A downstream frame that passes the
    [can_recv_data] and port filters leaves in it the peer the mapping
    registers for the frame's TSI once the handler is done, found or just
    created; a peer frame that passes its filters leaves in it what the
    mapping holds for the TSI, NULL for an unknown source.  A frame
    rejected before the lookup, and a frame on the discard route, leave
    the slot as the caller had it.  (The packet processors do not touch
    the mapping, and [pgm_new_peer] inserts the peer it returns.) *)
Theorem on_pgm_source_slot {Ext} (K : collaborators Ext)
    (t : pgm_transport_t Ext) (skb : nat) (src_addr dst_addr : sockaddr)
    (source : option nat) (t' : pgm_transport_t Ext) (source' : option nat)
    (ok : bool) :
  processors_keep peers_hashtable K →
  new_peer_inserts K →
  on_pgm K t skb src_addr dst_addr source = Done (t', source', ok) →
  source' = source_after t skb source t'.
Proof.
  intros Hproc Hnew.
  assert (Hwrites : writes_keep (@peers_hashtable Ext))
    by (split; reflexivity).
  rewrite on_pgm_eq_spec. unfold on_pgm_spec, source_after.
  destruct (frame_route_spec _ _).
  - intros Hrun. rewrite (on_downstream_source _ _ _ _ _ _ _ _ _ Hrun).
    destruct (downstream_filters t skb) eqn:Hfilter; [| done].
    destruct (peers_hashtable t !! skb_tsi (skb_at t skb)) as [peer |]
      eqn:Hpeer.
    + rewrite (on_downstream_known_peer peers_hashtable K Hwrites Hproc
                 _ _ _ _ _ _ _ _ (or_intror (mk_is_Some _ _ Hpeer)) Hrun).
      done.
    + destruct (on_downstream_new_peer peers_hashtable K Hwrites Hproc
                  _ _ _ _ _ _ _ _ Hfilter Hpeer Hrun)
        as (t1 & peer & Hcall & -> & _).
      rewrite Hcall, (Hnew _ _ _ _ _ _ Hcall), lookup_insert_eq. done.
  - destruct (on_upstream K t skb) as [[t1 ok1] | | |]; unfold_outcome;
      [| done..].
    by intros [= _ <- _].
  - apply on_peer_source.
  - unfold_outcome. by intros [= _ <- _].
Qed.

(** The ODATA "hello" of a source not yet known: the slot names the peer
    created for it. *)
Lemma on_pgm_source_slot_witness :
  ∃ t' peer,
    on_pgm Bench.K (Bench.received Bench.odata_hello) 0
           (Bench.ipv4 1) (Bench.ipv4 2) None = Done (t', Some peer, true)
    ∧ peers_hashtable t' !! {| gsi := 7; sport := 9000 |} = Some peer.
Proof.
  destruct (on_pgm _ _ _ _ _ _) as [[[t' source'] ok] | | |] eqn:Hrun;
    try (vm_compute in Hrun; discriminate Hrun).
  pose proof (on_pgm_source_slot Bench.K _ 0%nat _ _ None t' source' ok
                (bench_processors_keep peers_hashtable (λ _ _, eq_refl))
                bench_new_peer_inserts Hrun) as Hslot.
  destruct ok; [| vm_compute in Hrun; discriminate Hrun].
  destruct source' as [peer |]; [| vm_compute in Hrun; discriminate Hrun].
  exists t', peer. split; [reflexivity |]. symmetry. exact Hslot.
Defined.

(** ** Receiver statistics *)

Lemma peer_counter_update {Ext} (g : pgm_peer_t → pgm_peer_t) i peer
    (t : pgm_transport_t Ext) :
  peer_counter i peer (peer_update g peer t)
  = (λ p, peer_cumulative_stats (g p) i) <$> peers t !! peer.
Proof.
  unfold peer_counter, peer_update. simpl. rewrite lookup_alter_eq.
  by destruct (peers t !! peer).
Qed.

Lemma peer_counter_stat_add {Ext} i j n peer (t : pgm_transport_t Ext) :
  peer_counter i peer (peer_stat_add j n peer t)
  = (λ v, if decide (i = j) then (v + n)%N else v) <$> peer_counter i peer t.
Proof.
  unfold peer_stat_add. rewrite peer_counter_update. unfold peer_counter.
  destruct (peers t !! peer); simpl; [| done]. unfold stat_add. done.
Qed.

Lemma peer_counter_receiver_discarded {Ext} i peer
    (t : pgm_transport_t Ext) :
  peer_counter i peer (receiver_discarded t (Some peer)).1.1
  = (λ v, if decide (i = PGM_PC_RECEIVER_PACKETS_DISCARDED)
          then (v + 1)%N else v) <$> peer_counter i peer t.
Proof. apply peer_counter_stat_add. Qed.

(** X8.  Receiver accounting of the downstream handler.  For a frame that
    passes the filters and comes from a known peer, the peer's
    BYTES_RECEIVED grows by the length the buffer had when the handler was
    entered, PGM header included, whether the frame is then accepted or
    not; the peer's PACKETS_DISCARDED grows by one exactly when the
    handler returns FALSE.  (The packet processors leave these two
    counters alone.) *)
Theorem on_downstream_accounting {Ext} (K : collaborators Ext)
    (t : pgm_transport_t Ext) (skb : nat) (src_addr dst_addr : sockaddr)
    (source : option nat) (peer : nat) (received discarded : N)
    (t' : pgm_transport_t Ext) (source' : option nat) (ok : bool) :
  (∀ i, processors_keep (peer_counter i peer) K) →
  downstream_filters t skb = true →
  peers_hashtable t !! skb_tsi (skb_at t skb) = Some peer →
  peer_counter PGM_PC_RECEIVER_BYTES_RECEIVED peer t = Some received →
  peer_counter PGM_PC_RECEIVER_PACKETS_DISCARDED peer t = Some discarded →
  on_downstream K t skb src_addr dst_addr source = Done (t', source', ok) →
  peer_counter PGM_PC_RECEIVER_BYTES_RECEIVED peer t'
  = Some (received + Z.to_N (skb_len (skb_at t skb)))%N
  ∧ peer_counter PGM_PC_RECEIVER_PACKETS_DISCARDED peer t'
    = Some (discarded + if ok then 0 else 1)%N.
Proof.
  intros Hproc [Hrecv Hport]%andb_prop Hpeer Hreceived Hdiscarded.
  unfold on_downstream. unfold_outcome.
  rewrite Hrecv, Hport, Hpeer. simpl.
  set (t4 := skb_update _ skb _).
  assert (H4 : ∀ i, peer_counter i peer t4
                    = (λ v, if decide (i = PGM_PC_RECEIVER_BYTES_RECEIVED)
                            then (v + Z.to_N (skb_len (skb_at t skb)))%N
                            else v) <$> peer_counter i peer t).
  { intros i. subst t4. unfold skb_update, peer_set_last_packet.
    change (peer_counter i peer (set_skbs ?v ?t))
      with (peer_counter i peer t).
    rewrite peer_counter_update.
    change ((λ p, peer_cumulative_stats _ i) <$> ?m !! peer)
      with (peer_counter i peer
              (peer_stat_add PGM_PC_RECEIVER_BYTES_RECEIVED
                 (Z.to_N (skb_len (skb_at t skb))) peer t)).
    apply peer_counter_stat_add. }
  pose proof (H4 PGM_PC_RECEIVER_BYTES_RECEIVED) as Hb.
  pose proof (H4 PGM_PC_RECEIVER_PACKETS_DISCARDED) as Hd.
  rewrite Hreceived in Hb. rewrite Hdiscarded in Hd. simpl in Hb, Hd.
  clearbody t4. clear H4.
  assert (Hdone : ∀ t5 : pgm_transport_t Ext,
    (∀ i, peer_counter i peer t5 = peer_counter i peer t4) →
    (∀ i, peer_counter i peer t' = peer_counter i peer t5) →
    ok = true →
    peer_counter PGM_PC_RECEIVER_BYTES_RECEIVED peer t'
    = Some (received + Z.to_N (skb_len (skb_at t skb)))%N
    ∧ peer_counter PGM_PC_RECEIVER_PACKETS_DISCARDED peer t'
      = Some (discarded + if ok then 0 else 1)%N).
  { intros t5 H5 H' ->. rewrite !H', !H5, Hb, Hd, N.add_0_r. done. }
  assert (Hdiscard : ∀ t5 : pgm_transport_t Ext,
    (∀ i, peer_counter i peer t5 = peer_counter i peer t4) →
    (t', source', ok) = receiver_discarded t5 (Some peer) →
    peer_counter PGM_PC_RECEIVER_BYTES_RECEIVED peer t'
    = Some (received + Z.to_N (skb_len (skb_at t skb)))%N
    ∧ peer_counter PGM_PC_RECEIVER_PACKETS_DISCARDED peer t'
      = Some (discarded + if ok then 0 else 1)%N).
  { intros t5 H5 Heq.
    assert (t' = (receiver_discarded t5 (Some peer)).1.1) as ->
      by (by rewrite <- Heq).
    assert (ok = false) as -> by (simpl in Heq; congruence).
    rewrite !peer_counter_receiver_discarded, !H5, Hb, Hd. done. }
  destruct (pgm_type _).
  all: try (intros [= Heq]; apply (Hdiscard t4); [done |];
            simpl; congruence).
  - (* SPM *)
    destruct (pgm_on_spm K t4 peer skb) as [t5 ok5] eqn:Hcall.
    assert (H5 : ∀ i, peer_counter i peer t5 = peer_counter i peer t4)
      by (intros i; eapply (on_spm_keeps _ _ (Hproc i)), Hcall).
    destruct ok5.
    + destruct (pgm_sockaddr_is_addr_multicast K dst_addr);
        intros [= <- <- <-]; apply (Hdone t5); try done.
      intros i. unfold peer_set_group_nla. rewrite peer_counter_update. done.
    + intros [= Heq1 Heq2 Heq3]. apply (Hdiscard t5); [done |].
      simpl. congruence.
  - (* ODATA *)
    destruct (pgm_on_data K t4 peer skb) as [t5 ok5] eqn:Hcall.
    assert (H5 : ∀ i, peer_counter i peer t5 = peer_counter i peer t4)
      by (intros i; eapply (on_data_keeps _ _ (Hproc i)), Hcall).
    destruct ok5.
    + intros [= <- <- <-]. apply (Hdone t5); done.
    + intros [= Heq1 Heq2 Heq3]. apply (Hdiscard t5); [done |].
      simpl. congruence.
  - (* RDATA *)
    destruct (pgm_on_data K t4 peer skb) as [t5 ok5] eqn:Hcall.
    assert (H5 : ∀ i, peer_counter i peer t5 = peer_counter i peer t4)
      by (intros i; eapply (on_data_keeps _ _ (Hproc i)), Hcall).
    destruct ok5.
    + intros [= <- <- <-]. apply (Hdone t5); done.
    + intros [= Heq1 Heq2 Heq3]. apply (Hdiscard t5); [done |].
      simpl. congruence.
  - (* NCF *)
    destruct (pgm_on_ncf K t4 peer skb) as [t5 ok5] eqn:Hcall.
    assert (H5 : ∀ i, peer_counter i peer t5 = peer_counter i peer t4)
      by (intros i; eapply (on_ncf_keeps _ _ (Hproc i)), Hcall).
    destruct ok5.
    + intros [= <- <- <-]. apply (Hdone t5); done.
    + intros [= Heq1 Heq2 Heq3]. apply (Hdiscard t5); [done |].
      simpl. congruence.
Qed.

(** An ODATA without payload from a known source: the window refuses it,
    its sixteen octets are counted as received and the frame as
    discarded. *)
Lemma on_downstream_accounting_witness :
  ∃ t' source',
    on_downstream Bench.K
      (Bench.new_peer (Bench.received Bench.odata_empty)
                      {| gsi := 7; sport := 9000 |}
                      (Bench.ipv4 1) (Bench.ipv4 2)).1
      0 (Bench.ipv4 1) (Bench.ipv4 2) None = Done (t', source', false)
    ∧ peer_counter PGM_PC_RECEIVER_BYTES_RECEIVED 0 t' = Some 16%N
    ∧ peer_counter PGM_PC_RECEIVER_PACKETS_DISCARDED 0 t' = Some 1%N.
Proof.
  destruct (on_downstream _ _ _ _ _ _) as [[[t' source'] ok] | | |] eqn:Hrun;
    try (vm_compute in Hrun; discriminate Hrun).
  destruct ok; [vm_compute in Hrun; discriminate Hrun |].
  exists t', source'. split; [reflexivity |].
  exact (on_downstream_accounting Bench.K
           (Bench.new_peer (Bench.received Bench.odata_empty)
                           {| gsi := 7; sport := 9000 |}
                           (Bench.ipv4 1) (Bench.ipv4 2)).1
           0%nat _ _ None 0%nat 0%N 0%N t' source' false
           (λ i, bench_processors_keep (peer_counter i 0) (λ _ _, eq_refl))
           eq_refl eq_refl eq_refl eq_refl Hrun).
Defined.

(** ** The copy of [pgm_recvfrom] *)

Lemma recvfrom_copy_done {Ext} fuel (t : pgm_transport_t Ext) skb data len
    bytes_read data' n :
  recvfrom_copy fuel t skb 0 data len 0 bytes_read = Done (data', n) →
  (bytes_read = 0%N ∧ n = 0%N ∧ data' = data)
  ∨ (n = Z.to_N (skb_len (skb_at t skb))
     ∧ (0 < bytes_read ≤ n)%N ∧ (n ≤ len)%N
     ∧ data' = memcpy data 0
                 (read_bytes (skb_head (skb_at t skb))
                             (skb_data (skb_at t skb)) n)).
Proof.
  destruct fuel as [| fuel]; simpl.
  - destruct (N.ltb_spec 0 bytes_read); [done |].
    unfold_outcome. intros [= <- <-]. left. split; [lia | done].
  - destruct (N.ltb_spec 0 bytes_read) as [Hpos | ?];
      [| unfold_outcome; intros [= <- <-]; left; split; [lia | done]].
    unfold_outcome. rewrite N.add_0_l.
    destruct (N.ltb_spec len (Z.to_N (skb_len (skb_at t skb)))) as [| Hfit];
      [done |].
    simpl. destruct fuel as [| fuel]; simpl; rewrite ?N.add_0_l;
      destruct (N.ltb_spec (Z.to_N (skb_len (skb_at t skb))) bytes_read);
      try done; unfold_outcome; intros [= <- <-]; right; done.
Qed.

Lemma memcpy_length (dest : list Z) (off : N) (src : list Z) :
  length (memcpy dest off src) = length dest.
Proof. apply length_inserts. Qed.

Lemma read_bytes_length (buf : list Z) (off : Z) (n : N) :
  length (read_bytes buf off n) = N.to_nat n.
Proof. unfold read_bytes. by rewrite length_fmap, length_seq. Qed.

Lemma read_bytes_lookup (buf : list Z) (off : Z) (n : N) (i : nat) :
  (i < N.to_nat n)%nat →
  read_bytes buf off n !! i
  = Some (default 0 (buf !! (Z.to_nat off + i)%nat)).
Proof.
  intros Hi. unfold read_bytes.
  rewrite list_lookup_fmap, lookup_seq_lt by done. done.
Qed.



(** ** What a delivery call leaves alone *)

Section Frame.
Context {Ext A : Type}.
Variable K : collaborators Ext.
Variable CONFIG_HAVE_POLL : bool.
Variable f : pgm_transport_t Ext → A.
Hypothesis Hpending : ∀ v t, f (set_is_pending_read v t) = f t.
Hypothesis Hreset : ∀ v t, f (set_is_reset v t) = f t.
Hypothesis Hengine : engine_keeps f K.
Hypothesis Hdescriptor :
  ∀ t peer msgv, f (pgm_set_reset_error K t peer msgv).1 = f t.

Lemma report_reset_frame flags error (t : pgm_transport_t Ext) w msg_start
    b d r :
  report_reset K flags error t w msg_start b d = Done r →
  f (r_transport r) = f t.
Proof.
  unfold report_reset. unfold_outcome.
  destruct (peers_pending t) as [| peer rest]; [done |].
  destruct (flag_set flags MSG_ERRQUEUE).
  - pose proof (Hdescriptor t peer msg_start) as Hkeep.
    destruct (pgm_set_reset_error K t peer msg_start) as [t1 msgv1].
    simpl in Hkeep. intros [= <-]. simpl.
    destruct (negb (is_abort_on_reset t1)); by rewrite ?Hreset.
  - destruct error; intros [= <-]; simpl;
      destruct (negb (is_abort_on_reset t)); by rewrite ?Hreset.
Qed.

Lemma return_frame msg_len flags _bytes_read error pc c r :
  step K CONFIG_HAVE_POLL msg_len flags _bytes_read error pc c = Return r →
  f (r_transport r) = f (c_transport c).
Proof.
  destruct pc; simpl.
  - unfold flush_pending. repeat case_match; done.
  - unfold recv_again. repeat case_match; done.
  - unfold flush_pending. repeat case_match; done.
  - unfold check_for_repeat.
    destruct (flag_set flags MSG_DONTWAIT); [repeat case_match; done |].
    destruct (c_data_read c =? 0)%N; [| done].
    destruct (wait_for_event _ _ _ _ _) as [[[t1 w1] status] | | |] eqn:Hwait;
      [| done..].
    apply (wait_for_event_keeps f K CONFIG_HAVE_POLL Hpending Hengine)
      in Hwait.
    repeat case_match; try done; by intros [= <-].
  - unfold out. unfold_outcome.
    destruct (c_data_read c =? 0)%N.
    + destruct (is_reset _).
      * destruct (report_reset _ _ _ _ _ _ _ _) as [r0 | | |] eqn:Hreport;
          [| done..].
        intros [= <-]. rewrite (report_reset_frame _ _ _ _ _ _ _ _ Hreport).
        by apply clear_pending_read_keeps.
      * intros [= <-]. simpl. by apply clear_pending_read_keeps.
    + intros [= <-]. simpl.
      repeat case_match; rewrite ?Hpending,
        ?(notify_clear_keeps f K Hengine), ?(notify_send_keeps f K Hengine);
        done.
Qed.
End Frame.

(** X10.  A delivery call leaves alone whatever its own stores do not
    reach.  [recv.c] itself stores into six places of the transport only:
    the buffers, the peers, the statistics, [rx_buffer], [is_pending_read]
    and [is_reset].  An observation of the transport that these stores do
    not affect and that the collaborators keep has, when [pgm_recvmsgv]
    returns, the value it had when it was called, whatever the call
    returns. *)
Theorem recvmsgv_frame {Ext A} (K : collaborators Ext)
    (f : pgm_transport_t Ext → A)
    (CONFIG_HAVE_POLL : bool) (fuel : nat) (t : pgm_transport_t Ext)
    (w : World) (msg_start : list pgm_msgv_t) (msg_len : N) (flags : Z)
    (_bytes_read error : bool) (r : recv_result) :
  out_of_reach K f →
  pgm_recvmsgv K CONFIG_HAVE_POLL fuel t w msg_start msg_len flags
               _bytes_read error = Done r →
  f (r_transport r) = f t.
Proof.
  intros Hreach Hrun.
  pose proof Hreach as (Hwrites & Hreset & Hproc & Hnew & Hengine & Hdescr).
  pose proof (set_is_pending_read_keeps f Hwrites) as Hpending.
  apply pgm_recvmsgv_cases in Hrun as [-> | [[_ Hreport] | [_ Hloop]]].
  - done.
  - eapply report_reset_frame; eauto.
  - destruct (recv_loop_invariant K CONFIG_HAVE_POLL msg_len flags
                _bytes_read error (λ c, f (c_transport c) = f t)) with
      (fuel := fuel) (pc := L_flush_first)
      (c := entry_config K t w msg_start) (r := r)
      as (pc' & c' & Hc' & Hret).
    + intros pc c l c' Hc Hstep. rewrite <- Hc.
      eapply (step_keeps f K CONFIG_HAVE_POLL Hpending Hengine Hwrites
                Hproc Hnew), Hstep.
    + apply (entry_config_keeps f K Hengine).
    + exact Hloop.
    + rewrite <- Hc'.
      eapply (return_frame K CONFIG_HAVE_POLL f Hpending Hreset Hengine
                Hdescr), Hret.
Qed.

Lemma bench_out_of_reach {A} (f : Bench.transport_t → A) :
  writes_keep f →
  (∀ v t, f (set_is_reset v t) = f t) →
  (∀ v t, f (set_ext v t) = f t) →
  (∀ v t, f (set_peers_hashtable v t) = f t) →
  (∀ v t, f (set_peers_pending v t) = f t) →
  out_of_reach Bench.K f.
Proof.
  intros Hwrites Hreset Hext Htable Hpending.
  split_and!; try done.
  - by apply bench_processors_keep.
  - apply bench_new_peer_keeps; [apply Hwrites | done].
  - by apply bench_engine_keeps.
  - intros t peer msgv. unfold Bench.K, Bench.set_reset_error. simpl.
    unfold_stores. by rewrite !(set_skbs_keeps f Hwrites).
Qed.

(** The reset transport of the bench, read once: Eof, and the session
    configuration is what it was. *)
Lemma recvmsgv_frame_witness :
  ∃ r,
    pgm_recvmsgv Bench.K true 10 Bench.transport_reset (Bench.world0 [] [])
      [{| msgv_len := 0; msgv_skb := [] |}] 1 MSG_DONTWAIT true true = Done r
    ∧ is_reset (r_transport r) ≠ is_reset Bench.transport_reset
    ∧ session_configuration (r_transport r)
      = session_configuration Bench.transport_reset.
Proof.
  destruct (pgm_recvmsgv _ _ _ _ _ _ _ _ _ _) as [r | | |] eqn:Hrun;
    try (vm_compute in Hrun; discriminate Hrun).
  exists r. split; [reflexivity |]. split.
  - vm_compute in Hrun. injection Hrun as <-. discriminate.
  - refine (recvmsgv_frame Bench.K session_configuration true 10
              Bench.transport_reset _ _ _ MSG_DONTWAIT true true r _ Hrun).
    apply bench_out_of_reach; done.
Defined.

(** ** What a wait does besides returning a status *)

(** X11.  The side effects of [wait_for_event].  It returns only for a
    timeout other than zero, and never takes a datagram off the socket.
    When the descriptor set cannot be built it returns EFAULT at once:
    the transport and the world are untouched, no wait is made and a
    pending-read notification stays as it is.  Otherwise it leaves
    [is_pending_read] clear and makes exactly one wait, and [errno] moves
    only when the status is EFAULT. *)
Theorem wait_for_event_effects {Ext} (K : collaborators Ext)
    (CONFIG_HAVE_POLL : bool) (t : pgm_transport_t Ext) (w : World)
    (timeout : Z) (t' : pgm_transport_t Ext) (w' : World) (status : Z) :
  wait_for_event K CONFIG_HAVE_POLL t w timeout = Done (t', w', status) →
  timeout ≠ 0
  ∧ sock_queue w' = sock_queue w
  ∧ if (if CONFIG_HAVE_POLL then pgm_transport_poll_info K t
        else pgm_transport_select_info K t) =? -1
    then t' = t ∧ w' = w ∧ status = EFAULT
    else is_pending_read t' = false
         ∧ wait_queue w' = tail (wait_queue w)
         ∧ (status ≠ EFAULT → errno w' = errno w).
Proof.
  unfold wait_for_event. unfold_outcome.
  destruct (Z.eqb_spec timeout 0) as [| Htimeout]; [done |]. simpl.
  destruct (_ =? -1).
  { intros [= <- <- <-]. done. }
  unfold wait_syscall.
  destruct (wait_queue w) as [| o q] eqn:Hq; simpl.
  - intros [= <- <- <-].
    split_and!; try done. apply clear_pending_read_clears.
  - destruct (wo_ready o =? -1) eqn:Hready; simpl.
    + intros [= <- <- <-].
      split_and!; try done. apply clear_pending_read_clears.
    + destruct (_ && _); intros [= <- <- <-];
        (split_and!; try done; apply clear_pending_read_clears).
Qed.

(** A timeout of the wait on a transport with a pending-read
    notification. *)
Lemma wait_for_event_effects_witness :
  ∃ t',
    wait_for_event Bench.K true (set_is_pending_read true Bench.transport0)
      (Bench.world0 [] []) 1000
    = Done (t', Bench.world0 [] [], EINTR)
    ∧ is_pending_read t' = false.
Proof.
  destruct (wait_for_event _ _ _ _ _) as [[[t' w'] status] | | |] eqn:Hrun;
    try (vm_compute in Hrun; discriminate Hrun).
  destruct (wait_for_event_effects Bench.K true _ _ 1000 t' w' status Hrun)
    as (_ & _ & Hflag & _).
  exists t'. split; [| exact Hflag].
  vm_compute in Hrun. injection Hrun as <- <- <-. reflexivity.
Defined.

(** ** pgm_recv *)


(** ** A read of zero octets *)

Lemma recvskb_zero_length {Ext} (t : pgm_transport_t Ext) (w : World)
    (skb : nat) (flags : Z) (src dst : sockaddr) (d : datagram)
    (q : list datagram) :
  udp_encap_ucast_port t = 0 →
  addr_of_src w mod 4 = 0 →
  sock_queue w = d :: q →
  dg_len d = 0 →
  recvskb t w skb flags (addr_of_src w) src dst
  = {| rs_transport := t; rs_world := set_sock_queue q w;
       rs_src := dg_src d; rs_dst := dst; rs_len := 0 |}.
Proof.
  intros Hraw Halign Hq Hlen. unfold recvskb, recvmsg.
  rewrite Hq, Hraw, aligned_pointer_family, Hlen by exact Halign.
  reflexivity.
Qed.

(** X13.  A read of zero octets ends the call at once.  On a transport
    without UDP encapsulation, with no peer pending and no reset, whose
    socket hands out an empty datagram first: [pgm_recvmsgv] returns
    Again, blocking or not, without waiting and without reading further.
    The empty datagram is taken off the socket, the receive buffer is not
    stamped, no statistic moves and nothing is stored through the
    out-pointers: the transport is the one the timer check left, with
    its pending-read notification cleared. *)
Theorem recvmsgv_zero_length_read {Ext} (K : collaborators Ext)
    (CONFIG_HAVE_POLL : bool) (fuel : nat) (t : pgm_transport_t Ext)
    (w : World) (msg_start : list pgm_msgv_t) (msg_len : N) (flags : Z)
    (_bytes_read error : bool) (rx : nat) (d : datagram)
    (q : list datagram) :
  let t0 := c_transport (entry_config K t w msg_start) in
  delivery_preconditions K t →
  is_reset t = false →
  peers_pending t0 = [] →
  rx_buffer t0 = Some rx →
  udp_encap_ucast_port t0 = 0 →
  is_reset (clear_pending_read K t0) = false →
  addr_of_src w mod 4 = 0 →
  sock_queue w = d :: q →
  dg_len d = 0 →
  pgm_recvmsgv K CONFIG_HAVE_POLL (S (S (S fuel))) t w msg_start msg_len
               flags _bytes_read error
  = Done {| r_status := G_IO_STATUS_AGAIN;
            r_transport := clear_pending_read K t0;
            r_world := set_sock_queue q w;
            r_msgv := msg_start;
            r_bytes_read_out := None; r_error := None;
            r_bytes_read := 0; r_data_read := 0 |}.
Proof.
  intros t0 (Hbound & Hlive & Hrx0 & Hmax & Hivl & Hnotify) Hreset
         Hpending Hrx Hraw Hclear Halign Hq Hlen.
  unfold pgm_recvmsgv. unfold_outcome.
  rewrite Hbound, Hlive, Hnotify, Hreset. simpl negb. cbv iota.
  rewrite bool_decide_eq_true_2 by exact Hrx0.
  rewrite (proj2 (Z.ltb_lt _ _) Hmax), (proj2 (Z.ltb_lt _ _) Hivl).
  cbv iota.
  set (c0 := entry_config K t w msg_start) in *.
  change (recv_loop K CONFIG_HAVE_POLL (S (S (S fuel))) msg_len flags
            _bytes_read error L_flush_first c0)
    with (match flush_pending K msg_len L_recv_again c0 with
          | Goto l c' =>
              recv_loop K CONFIG_HAVE_POLL (S (S fuel)) msg_len flags
                        _bytes_read error l c'
          | Return r => Done r
          | Abort => Aborted
          end).
  unfold flush_pending. fold t0. rewrite Hpending.
  change (recv_loop K CONFIG_HAVE_POLL (S (S fuel)) msg_len flags
            _bytes_read error L_recv_again c0)
    with (match recv_again K c0 with
          | Goto l c' =>
              recv_loop K CONFIG_HAVE_POLL (S fuel) msg_len flags
                        _bytes_read error l c'
          | Return r => Done r
          | Abort => Aborted
          end).
  unfold recv_again. fold t0. rewrite Hrx.
  change (c_world c0) with w.
  rewrite (recvskb_zero_length t0 w rx MSG_DONTWAIT _ _ d q Hraw Halign
             Hq Hlen).
  simpl. unfold out. simpl. fold c0. fold t0. rewrite Hclear. reflexivity.
Qed.

(** A blocking call on the bench transport whose socket holds one empty
    datagram. *)
Lemma recvmsgv_zero_length_read_witness :
  ∃ r,
    pgm_recvmsgv Bench.K true 3 Bench.transport0
      (Bench.world0 [Bench.datagram_of (Bench.ipv4 1) [] []] [])
      [{| msgv_len := 0; msgv_skb := [] |}] 1 0 true true = Done r
    ∧ r_status r = G_IO_STATUS_AGAIN
    ∧ sock_queue (r_world r) = [].
Proof.
  eexists. split.
  - apply (recvmsgv_zero_length_read Bench.K true 0 Bench.transport0
             (Bench.world0 [Bench.datagram_of (Bench.ipv4 1) [] []] [])
             [{| msgv_len := 0; msgv_skb := [] |}] 1 0 true true 0%nat
             (Bench.datagram_of (Bench.ipv4 1) [] []) []);
      try reflexivity.
    unfold delivery_preconditions. simpl. split_and!; by eauto.
  - split; reflexivity.
Defined.

(** ** An idle socket *)

Lemma recvskb_empty_socket {Ext} (t : pgm_transport_t Ext) (w : World)
    (skb : nat) (flags src_addr : Z) (src dst : sockaddr) :
  sock_queue w = [] →
  recvskb t w skb flags src_addr src dst
  = {| rs_transport := skb_update (failed_read_stamp (clock w)) skb t;
       rs_world := set_errno EAGAIN w;
       rs_src := src; rs_dst := dst; rs_len := -1 |}.
Proof.
  intros Hq. unfold recvskb, recvmsg. rewrite Hq. simpl.
  destruct (_ || _); reflexivity.
Qed.

(** X14.  A non-blocking call on an idle transport.  With no peer
    pending, no reset and nothing on the socket, [pgm_recvmsgv] returns
    Again after one failed read, under UDP encapsulation or not: [errno]
    is EAGAIN, the vector is untouched and nothing is stored through the
    out-pointers.  The receive buffer is nonetheless stamped as after a
    read, with the -1 that [recvmsg] returned assigned to its length; the
    rest of the transport is as the timer check left it, with its
    pending-read notification cleared. *)
Theorem recvmsgv_idle_socket {Ext} (K : collaborators Ext)
    (CONFIG_HAVE_POLL : bool) (fuel : nat) (t : pgm_transport_t Ext)
    (w : World) (msg_start : list pgm_msgv_t) (msg_len : N) (flags : Z)
    (_bytes_read error : bool) (rx : nat) :
  let t0 := c_transport (entry_config K t w msg_start) in
  let t1 := skb_update (failed_read_stamp (clock w)) rx t0 in
  delivery_preconditions K t →
  is_reset t = false →
  flag_set flags MSG_DONTWAIT = true →
  peers_pending t0 = [] →
  rx_buffer t0 = Some rx →
  is_reset (clear_pending_read K t1) = false →
  sock_queue w = [] →
  pgm_recvmsgv K CONFIG_HAVE_POLL (S (S (S (S fuel)))) t w msg_start msg_len
               flags _bytes_read error
  = Done {| r_status := G_IO_STATUS_AGAIN;
            r_transport := clear_pending_read K t1;
            r_world := set_errno EAGAIN w;
            r_msgv := msg_start;
            r_bytes_read_out := None; r_error := None;
            r_bytes_read := 0; r_data_read := 0 |}.
Proof.
  intros t0 t1 (Hbound & Hlive & Hrx0 & Hmax & Hivl & Hnotify) Hreset
         Hflag Hpending Hrx Hclear Hq.
  unfold pgm_recvmsgv. unfold_outcome.
  rewrite Hbound, Hlive, Hnotify, Hreset. simpl negb. cbv iota.
  rewrite bool_decide_eq_true_2 by exact Hrx0.
  rewrite (proj2 (Z.ltb_lt _ _) Hmax), (proj2 (Z.ltb_lt _ _) Hivl).
  cbv iota.
  set (c0 := entry_config K t w msg_start) in *.
  change (recv_loop K CONFIG_HAVE_POLL (S (S (S (S fuel)))) msg_len flags
            _bytes_read error L_flush_first c0)
    with (match flush_pending K msg_len L_recv_again c0 with
          | Goto l c' =>
              recv_loop K CONFIG_HAVE_POLL (S (S (S fuel))) msg_len flags
                        _bytes_read error l c'
          | Return r => Done r
          | Abort => Aborted
          end).
  unfold flush_pending. fold t0. rewrite Hpending.
  change (recv_loop K CONFIG_HAVE_POLL (S (S (S fuel))) msg_len flags
            _bytes_read error L_recv_again c0)
    with (match recv_again K c0 with
          | Goto l c' =>
              recv_loop K CONFIG_HAVE_POLL (S (S fuel)) msg_len flags
                        _bytes_read error l c'
          | Return r => Done r
          | Abort => Aborted
          end).
  unfold recv_again. fold t0. rewrite Hrx.
  change (c_world c0) with w.
  rewrite (recvskb_empty_socket t0 w rx MSG_DONTWAIT _ _ _ Hq).
  simpl. unfold check_for_repeat. rewrite Hflag. simpl.
  unfold out. simpl. fold c0. fold t0. fold t1. rewrite Hclear.
  reflexivity.
Qed.

(** The bench transport with an empty socket. *)
Lemma recvmsgv_idle_socket_witness :
  ∃ r,
    pgm_recvmsgv Bench.K true 4 Bench.transport0 (Bench.world0 [] [])
      [{| msgv_len := 0; msgv_skb := [] |}] 1 MSG_DONTWAIT true true = Done r
    ∧ r_status r = G_IO_STATUS_AGAIN
    ∧ errno (r_world r) = EAGAIN
    ∧ skb_transport (skb_at Bench.transport0 0) = false
    ∧ skb_transport (skb_at (r_transport r) 0) = true.
Proof.
  eexists. split.
  - apply (recvmsgv_idle_socket Bench.K true 0 Bench.transport0
             (Bench.world0 [] [])
             [{| msgv_len := 0; msgv_skb := [] |}] 1 MSG_DONTWAIT true true
             0%nat);
      try reflexivity.
    unfold delivery_preconditions. simpl. split_and!; by eauto.
  - split_and!; reflexivity.
Defined.

(** ** Packet information *)

Lemma pktinfo_dst_first (cmsgs : list cmsghdr) (dst : sockaddr) :
  pktinfo_dst cmsgs dst
  = (λ cmsg, pktinfo_address cmsg dst) <$> find is_pktinfo cmsgs.
Proof.
  induction cmsgs as [| cmsg rest IH]; [done |].
  cbn [pktinfo_dst find]. rewrite IH.
  fold (is_in_pktinfo cmsg). fold (is_in6_pktinfo cmsg).
  change (is_pktinfo cmsg) with (is_in_pktinfo cmsg || is_in6_pktinfo cmsg).
  destruct (is_in_pktinfo cmsg) eqn:Hin;
    [| destruct (is_in6_pktinfo cmsg) eqn:Hin6];
    cbn [orb fmap option_fmap option_map]; try done;
    unfold pktinfo_address; by rewrite Hin.
Qed.

(** X15.  Where [recvskb] takes the destination address from on a UDP
    encapsulated socket.  The datagram is taken off the socket in every
    case.  When its control messages hold a packet-info message, the
    first one decides and the later ones are not looked at: the call
    returns what [recvmsg] returned and [*dst_addr] is the address of that
    message, an IPv4 one leaving the scope id as it was.  When they hold
    none, the call returns -1 and [*dst_addr] is untouched. *)
Theorem recvskb_first_pktinfo {Ext} (t : pgm_transport_t Ext) (w : World)
    (skb : nat) (flags src_addr : Z) (src dst : sockaddr) (d : datagram)
    (q : list datagram) :
  udp_encap_ucast_port t ≠ 0 →
  sock_queue w = d :: q →
  rs_world (recvskb t w skb flags src_addr src dst) = set_sock_queue q w
  ∧ match find is_pktinfo (dg_cmsgs d) with
    | Some cmsg =>
        rs_len (recvskb t w skb flags src_addr src dst) = dg_len d
        ∧ rs_dst (recvskb t w skb flags src_addr src dst)
          = pktinfo_address cmsg dst
    | None =>
        rs_len (recvskb t w skb flags src_addr src dst) = -1
        ∧ rs_dst (recvskb t w skb flags src_addr src dst) = dst
    end.
Proof.
  intros Hudp%Z.eqb_neq Hq. unfold recvskb, recvmsg.
  rewrite Hq, Hudp, pktinfo_dst_first.
  destruct (find is_pktinfo (dg_cmsgs d)); done.
Qed.

(** A datagram with an unrelated control message, an IPv6 packet-info
    message and an IPv4 one, in this order: the IPv6 one decides. *)
Lemma recvskb_first_pktinfo_witness :
  let cmsgs :=
    [ {| cmsg_level := 1; cmsg_type := 29; ipi_addr := 0; ipi6_addr := 0;
         ipi6_ifindex := 0 |};
      {| cmsg_level := IPPROTO_IPV6; cmsg_type := IPV6_PKTINFO;
         ipi_addr := 0; ipi6_addr := 66; ipi6_ifindex := 3 |};
      {| cmsg_level := IPPROTO_IP; cmsg_type := IP_PKTINFO;
         ipi_addr := 77; ipi6_addr := 0; ipi6_ifindex := 0 |} ] in
  let d := Bench.datagram_of (Bench.ipv6 1) cmsgs Bench.odata_hello in
  let r :=
    recvskb transport_udp_encap (Bench.world0 [d] []) 0 MSG_DONTWAIT 0
            sockaddr_zero sockaddr_zero in
  rs_len r = 21
  ∧ rs_dst r = {| sa_family := AF_INET6; sa_addr := 66; sa_scope_id := 3 |}.
Proof.
  intros cmsgs d r.
  exact (proj2 (recvskb_first_pktinfo transport_udp_encap
                  (Bench.world0 [d] []) 0%nat MSG_DONTWAIT 0 sockaddr_zero
                  sockaddr_zero d []
                  ltac:(discriminate) eq_refl)).
Defined.

(** ** The source statistics *)

Section Statistics.
Context {Ext : Type}.
Variable K : collaborators Ext.
Variable CONFIG_HAVE_POLL : bool.
Hypothesis Hours : statistics_are_ours K.

Let Hproc : processors_keep cumulative_stats K := proj1 Hours.
Let Hnew : new_peer_keeps cumulative_stats K := proj1 (proj2 Hours).
Let Hengine : engine_keeps cumulative_stats K := proj1 (proj2 (proj2 Hours)).

Local Abbreviation discarded_once stats :=
  (stat_incr PGM_PC_SOURCE_PACKETS_DISCARDED stats).

Ltac stats_processor :=
  match goal with
  | H : pgm_on_nak K _ _ = (_, _) |- _ =>
      apply (on_nak_keeps _ _ Hproc) in H
  | H : pgm_on_nnak K _ _ = (_, _) |- _ =>
      apply (on_nnak_keeps _ _ Hproc) in H
  | H : pgm_on_spmr K _ _ _ = (_, _) |- _ =>
      apply (on_spmr_keeps _ _ Hproc) in H
  | H : pgm_on_peer_nak K _ _ _ = (_, _) |- _ =>
      apply (on_peer_nak_keeps _ _ Hproc) in H
  | H : pgm_on_data K _ _ _ = (_, _) |- _ =>
      apply (on_data_keeps _ _ Hproc) in H
  | H : pgm_on_ncf K _ _ _ = (_, _) |- _ =>
      apply (on_ncf_keeps _ _ Hproc) in H
  | H : pgm_on_spm K _ _ _ = (_, _) |- _ =>
      apply (on_spm_keeps _ _ Hproc) in H
  | H : pgm_new_peer K _ _ _ _ = (_, _) |- _ => apply Hnew in H
  end.

Lemma on_upstream_statistics t skb t' ok :
  on_upstream K t skb = Done (t', ok) →
  cumulative_stats t'
  = if ok then cumulative_stats t else discarded_once (cumulative_stats t).
Proof.
  unfold on_upstream. unfold_outcome. intros H.
  repeat case_match; simplify_eq/=; repeat stats_processor; unfold_stores;
    simpl in *; congruence.
Qed.

Lemma on_peer_statistics t skb source t' source' ok :
  on_peer K t skb source = Done (t', source', ok) →
  cumulative_stats t' = cumulative_stats t
  ∨ (ok = false
     ∧ cumulative_stats t' = discarded_once (cumulative_stats t)).
Proof.
  unfold on_peer. unfold_outcome. intros H.
  repeat case_match; simplify_eq/=; repeat stats_processor; unfold_stores;
    repeat case_match; simplify_eq/=; simpl in *;
    first [left; congruence | right; split; [done | congruence]].
Qed.

Lemma on_downstream_statistics t skb src dst source t' source' ok :
  on_downstream K t skb src dst source = Done (t', source', ok) →
  cumulative_stats t' = cumulative_stats t
  ∨ (ok = false
     ∧ cumulative_stats t' = discarded_once (cumulative_stats t)).
Proof.
  unfold on_downstream. unfold_outcome. intros H.
  repeat case_match; simplify_eq/=; repeat stats_processor; unfold_stores;
    repeat case_match; simplify_eq/=; simpl in *;
    first [left; congruence | right; split; [done | congruence]].
Qed.

Lemma on_pgm_statistics t skb src dst source t' source' ok :
  on_pgm K t skb src dst source = Done (t', source', ok) →
  cumulative_stats t' = cumulative_stats t
  ∨ (ok = false
     ∧ cumulative_stats t' = discarded_once (cumulative_stats t)).
Proof.
  rewrite on_pgm_eq_spec. unfold on_pgm_spec.
  destruct (frame_route_spec _ _).
  - apply on_downstream_statistics.
  - destruct (on_upstream K t skb) as [[t1 ok1] | | |] eqn:Hup;
      unfold_outcome; intros; simplify_eq.
    apply on_upstream_statistics in Hup. destruct ok; auto.
  - apply on_peer_statistics.
  - unfold_outcome. intros [= <- <- <-]. unfold_stores.
    destruct (can_send_data t); auto.
Qed.

Lemma counters_grow_refl (s : source_counter → N) : counters_grow s s.
Proof. unfold counters_grow. lia. Qed.

Lemma counters_grow_trans (s1 s2 s3 : source_counter → N) :
  counters_grow s1 s2 → counters_grow s2 s3 → counters_grow s1 s3.
Proof. unfold counters_grow. lia. Qed.

Lemma counters_grow_discard (s : source_counter → N) :
  counters_grow s (discarded_once s).
Proof.
  unfold counters_grow.
  rewrite stat_incr_same, stat_incr_other by done. lia.
Qed.

Lemma counters_grow_cksum (s : source_counter → N) :
  counters_grow s
    (discarded_once (stat_incr PGM_PC_SOURCE_CKSUM_ERRORS s)).
Proof.
  unfold counters_grow.
  rewrite stat_incr_same, !stat_incr_other, stat_incr_same by done.
  rewrite stat_incr_other by done. lia.
Qed.

Lemma recv_again_statistics c l c' :
  recv_again K c = Goto l c' →
  counters_grow (cumulative_stats (c_transport c))
                (cumulative_stats (c_transport c')).
Proof.
  unfold recv_again.
  destruct (rx_buffer (c_transport c)) as [rx |]; [| done].
  pose proof (recvskb_keeps cumulative_stats (λ _ _, eq_refl) (c_transport c)
                (c_world c) rx MSG_DONTWAIT (addr_of_src (c_world c))
                (c_src c) (c_dst c)) as Hread.
  destruct (recvskb _ _ _ _ _ _ _) as [t1 w1 src1 dst1 len]. simpl in *.
  rewrite <- Hread.
  destruct (len <? 0); [intros [= <- <-]; apply counters_grow_refl |].
  destruct (len =? 0); [intros [= <- <-]; apply counters_grow_refl |].
  assert (cumulative_stats (parse_frame K t1 rx src1 dst1).1.1.1
          = cumulative_stats t1) as Hparse
    by (unfold parse_frame; repeat case_match; reflexivity).
  destruct (parse_frame K t1 rx src1 dst1) as [[[t2 dst2] is_valid] err].
  simpl in Hparse. rewrite <- Hparse. destruct is_valid; simpl.
  - destruct (on_pgm K t2 rx src1 dst2 (c_source c))
      as [[[t3 source] ok] | | |] eqn:Hpgm; [| done..].
    apply on_pgm_statistics in Hpgm.
    repeat case_match; intros; simplify_eq/=;
      rewrite ?(set_pending_keeps _ _ Hengine);
      destruct Hpgm as [-> | [_ ->]];
      auto using counters_grow_refl, counters_grow_discard.
  - destruct (can_send_data t2); intros [= <- <-]; simpl;
      [| apply counters_grow_refl].
    destruct err as [[] |]; simpl;
      auto using counters_grow_discard, counters_grow_cksum.
Qed.

Lemma step_statistics msg_len flags _bytes_read error pc c l c' :
  step K CONFIG_HAVE_POLL msg_len flags _bytes_read error pc c = Goto l c' →
  counters_grow (cumulative_stats (c_transport c))
                (cumulative_stats (c_transport c')).
Proof.
  destruct pc; simpl; intros Hstep.
  - rewrite (flush_pending_keeps cumulative_stats K Hengine _ _ _ _ _ Hstep).
    apply counters_grow_refl.
  - exact (recv_again_statistics _ _ _ Hstep).
  - rewrite (flush_pending_keeps cumulative_stats K Hengine _ _ _ _ _ Hstep).
    apply counters_grow_refl.
  - rewrite (check_for_repeat_keeps cumulative_stats K CONFIG_HAVE_POLL
               (λ _ _, eq_refl) Hengine _ _ _ _ _ _ Hstep).
    apply counters_grow_refl.
  - by apply out_never_jumps in Hstep.
Qed.

End Statistics.

(** X16.  Checksum errors are discards.  Over a delivery call in which
    no collaborator moves the source statistics, neither
    SOURCE_CKSUM_ERRORS nor SOURCE_PACKETS_DISCARDED goes down, and
    SOURCE_CKSUM_ERRORS grows by no more than SOURCE_PACKETS_DISCARDED
    does: the only increment of the checksum counter, for a frame the
    parser refuses with a checksum error on a sending transport, is
    followed by an increment of the discard counter. *)
Theorem recvmsgv_cksum_errors_are_discards {Ext} (K : collaborators Ext)
    (CONFIG_HAVE_POLL : bool) (fuel : nat) (t : pgm_transport_t Ext)
    (w : World) (msg_start : list pgm_msgv_t) (msg_len : N) (flags : Z)
    (_bytes_read error : bool) (r : recv_result) :
  statistics_are_ours K →
  pgm_recvmsgv K CONFIG_HAVE_POLL fuel t w msg_start msg_len flags
               _bytes_read error = Done r →
  (source_cksum_errors t ≤ source_cksum_errors (r_transport r))%N
  ∧ (source_packets_discarded t
     ≤ source_packets_discarded (r_transport r))%N
  ∧ (source_cksum_errors (r_transport r) - source_cksum_errors t
     ≤ source_packets_discarded (r_transport r)
       - source_packets_discarded t)%N.
Proof.
  intros Hours Hrun.
  pose proof Hours as (Hproc & Hnew & Hengine & Hdescriptor).
  enough (counters_grow (cumulative_stats t)
                        (cumulative_stats (r_transport r))) as Hgrow
    by (unfold counters_grow, source_cksum_errors,
          source_packets_discarded in *; lia).
  apply pgm_recvmsgv_cases in Hrun as [-> | [[_ Hreport] | [_ Hloop]]].
  - apply counters_grow_refl.
  - rewrite (report_reset_frame K cumulative_stats (λ _ _, eq_refl)
               Hdescriptor _ _ _ _ _ _ _ _ Hreport).
    apply counters_grow_refl.
  - destruct (recv_loop_invariant K CONFIG_HAVE_POLL msg_len flags
                _bytes_read error
                (λ c, counters_grow (cumulative_stats t)
                                    (cumulative_stats (c_transport c)))) with
      (fuel := fuel) (pc := L_flush_first)
      (c := entry_config K t w msg_start) (r := r)
      as (pc' & c' & Hc' & Hret).
    + intros pc c l c' Hc Hstep.
      eapply counters_grow_trans; [exact Hc |].
      eapply step_statistics; eauto.
    + rewrite (entry_config_keeps cumulative_stats K Hengine).
      apply counters_grow_refl.
    + exact Hloop.
    + by rewrite (return_frame K CONFIG_HAVE_POLL cumulative_stats
                    (λ _ _, eq_refl) (λ _ _, eq_refl) Hengine Hdescriptor
                    _ _ _ _ _ _ _ Hret).
Qed.


Lemma bench_statistics_are_ours : statistics_are_ours Bench.K.
Proof.
  split_and!.
  - by apply bench_processors_keep.
  - by apply bench_new_peer_keeps.
  - by apply bench_engine_keeps.
  - done.
Qed.

(** A datagram of three octets on the bench transport: the parser refuses
    it, it is counted as discarded and not as a checksum error. *)
Lemma recvmsgv_cksum_errors_are_discards_witness :
  ∃ r,
    pgm_recvmsgv Bench.K true 10 Bench.transport0
      (Bench.world0 [Bench.datagram_of (Bench.ipv4 1) [] [1; 2; 3]] [])
      [{| msgv_len := 0; msgv_skb := [] |}] 1 MSG_DONTWAIT true true = Done r
    ∧ source_packets_discarded (r_transport r) = 1%N
    ∧ (source_cksum_errors (r_transport r)
       - source_cksum_errors Bench.transport0
       ≤ source_packets_discarded (r_transport r)
         - source_packets_discarded Bench.transport0)%N.
Proof.
  destruct (pgm_recvmsgv _ _ _ _ _ _ _ _ _ _) as [r | | |] eqn:Hrun;
    try (vm_compute in Hrun; discriminate Hrun).
  destruct (recvmsgv_cksum_errors_are_discards Bench.K true 10
              Bench.transport0 _ _ _ MSG_DONTWAIT true true r
              bench_statistics_are_ours Hrun) as (_ & _ & Hgrow).
  exists r. split; [reflexivity |]. split; [| exact Hgrow].
  vm_compute in Hrun. injection Hrun as <-. reflexivity.
Defined.

(** ** A transport that cannot be read *)

(** X17.  Reading a transport that is not bound, or that is destroyed.
    Each of the four delivery calls returns Error at once, whatever the
    flags: the transport and the world are untouched, no datagram is
    read, the vector or the caller's buffer is as it was, and nothing is
    stored through [_bytes_read], [from] or [error]; in particular no
    GError comes with this Error. *)
Theorem unreadable_transport_is_an_error {Ext} (K : collaborators Ext)
    (CONFIG_HAVE_POLL : bool) (fuel : nat) (t : pgm_transport_t Ext)
    (w : World) (msg_start : list pgm_msgv_t) (msg_len : N)
    (msgv : pgm_msgv_t) (data : list Z) (len : N) (flags : Z)
    (_bytes_read from error : bool) :
  is_bound t = false ∨ is_destroyed t = true →
  pgm_recvmsgv K CONFIG_HAVE_POLL fuel t w msg_start msg_len flags
               _bytes_read error
  = Done (status_only G_IO_STATUS_ERROR t w msg_start)
  ∧ pgm_recvmsg K CONFIG_HAVE_POLL fuel t w msgv flags _bytes_read error
    = Done (status_only G_IO_STATUS_ERROR t w [msgv])
  ∧ pgm_recvfrom K CONFIG_HAVE_POLL fuel t w data len flags
                 _bytes_read from error
    = Done {| rf_status := G_IO_STATUS_ERROR; rf_transport := t;
              rf_world := w; rf_data := data; rf_bytes_read_out := None;
              rf_from := None; rf_error := None |}
  ∧ pgm_recv K CONFIG_HAVE_POLL fuel t w data len flags _bytes_read error
    = Done {| rf_status := G_IO_STATUS_ERROR; rf_transport := t;
              rf_world := w; rf_data := data; rf_bytes_read_out := None;
              rf_from := None; rf_error := None |}.
Proof.
  intros Hguard.
  assert (Hcall : ∀ msg_start msg_len flags _bytes_read error,
            pgm_recvmsgv K CONFIG_HAVE_POLL fuel t w msg_start msg_len flags
                         _bytes_read error
            = Done (status_only G_IO_STATUS_ERROR t w msg_start)).
  { intros. unfold pgm_recvmsgv. unfold_outcome.
    destruct Hguard as [-> | ->]; [done |].
    by destruct (negb (is_bound t)). }
  unfold pgm_recv, pgm_recvfrom, pgm_recvmsg. rewrite !Hcall.
  split_and!; done.
Qed.

(** The bench transport once it is destroyed, with a datagram waiting. *)
Lemma unreadable_transport_is_an_error_witness :
  let t :=
    {| is_bound := true; is_destroyed := true; is_reset := false;
       is_abort_on_reset := false; can_send_data := true;
       can_recv_data := true; is_pending_read := false;
       is_edge_triggered_recv := false; udp_encap_ucast_port := 0;
       max_tpdu := 1500; nak_bo_ivl := 50;
       tsi := tsi Bench.transport0; dport := 7600; recv_sock := 3;
       rx_buffer := Some 0%nat; peers_hashtable := ∅; peers_pending := [];
       cumulative_stats := λ _, 0%N;
       skbs := skbs Bench.transport0;
       peers := ∅; ext := (∅ : Bench.window_state) |} in
  let w :=
    Bench.world0 [Bench.datagram_of (Bench.ipv4 1) [] Bench.odata_hello] [] in
  pgm_recv Bench.K true 10 t w [0; 0; 0] 3 0 true true
  = Done {| rf_status := G_IO_STATUS_ERROR; rf_transport := t;
            rf_world := w; rf_data := [0; 0; 0]; rf_bytes_read_out := None;
            rf_from := None; rf_error := None |}.
Proof.
  intros t w.
  exact (proj2 (proj2 (proj2
           (unreadable_transport_is_an_error Bench.K true 10 t w [] 0
              {| msgv_len := 0; msgv_skb := [] |} [0; 0; 0] 3 0 true false
              true (or_intror eq_refl))))).
Defined.

(** ** The dispatcher meets the assertions of the handlers *)

Lemma on_downstream_done {Ext} (K : collaborators Ext)
    (t : pgm_transport_t Ext) skb src dst source :
  ∃ res, on_downstream K t skb src dst source = Done res.
Proof.
  unfold on_downstream. unfold_outcome. repeat case_match; eauto.
Qed.

Lemma on_upstream_done {Ext} (K : collaborators Ext)
    (t : pgm_transport_t Ext) skb :
  (pgm_dport (skb_pgm_header (skb_at t skb)) =? sport (tsi t)) = true →
  ∃ res, on_upstream K t skb = Done res.
Proof.
  intros Hport. unfold on_upstream. unfold_outcome. rewrite Hport.
  repeat case_match; eauto.
Qed.

Lemma on_peer_done {Ext} (K : collaborators Ext)
    (t : pgm_transport_t Ext) skb source :
  (pgm_dport (skb_pgm_header (skb_at t skb)) =? sport (tsi t)) = false →
  ∃ res, on_peer K t skb source = Done res.
Proof.
  intros Hport. unfold on_peer. unfold_outcome. rewrite Hport. simpl.
  repeat case_match; eauto.
Qed.


Lemma on_pgm_done {Ext} (K : collaborators Ext)
    (t : pgm_transport_t Ext) skb src dst source :
  ∃ res, on_pgm K t skb src dst source = Done res.
Proof.
  unfold on_pgm.
  destruct (pgm_is_downstream _); [apply on_downstream_done |].
  destruct (_ =? _) eqn:Hport.
  - destruct (_ || _).
    + destruct (on_upstream_done K t skb Hport) as [[t' ok] ->].
      unfold_outcome. eauto.
    + unfold_outcome. destruct (can_send_data t); eauto.
  - destruct (pgm_is_peer _); [by apply on_peer_done |].
    unfold_outcome. destruct (can_send_data t); eauto.
Qed.

Section Healthy.
Context {Ext : Type}.
Variable K : collaborators Ext.
Variable CONFIG_HAVE_POLL : bool.
Variables (msg_len : N) (flags : Z) (_bytes_read error : bool).
Hypothesis Hdontwait : flag_set flags MSG_DONTWAIT = true.
Hypothesis Hhealthy : healthy K.

Let Hproc : processors_keep rx_buffer K := proj1 (proj2 Hhealthy).
Let Hnew : new_peer_keeps rx_buffer K := proj1 (proj2 (proj2 Hhealthy)).
Let Hengine : engine_keeps rx_buffer K := proj2 (proj2 (proj2 Hhealthy)).

Ltac rx_processor :=
  match goal with
  | H : pgm_on_nak K _ _ = (_, _) |- _ =>
      apply (on_nak_keeps _ _ Hproc) in H
  | H : pgm_on_nnak K _ _ = (_, _) |- _ =>
      apply (on_nnak_keeps _ _ Hproc) in H
  | H : pgm_on_spmr K _ _ _ = (_, _) |- _ =>
      apply (on_spmr_keeps _ _ Hproc) in H
  | H : pgm_on_peer_nak K _ _ _ = (_, _) |- _ =>
      apply (on_peer_nak_keeps _ _ Hproc) in H
  | H : pgm_on_data K _ _ _ = (_, _) |- _ =>
      apply (on_data_keeps _ _ Hproc) in H
  | H : pgm_on_ncf K _ _ _ = (_, _) |- _ =>
      apply (on_ncf_keeps _ _ Hproc) in H
  | H : pgm_on_spm K _ _ _ = (_, _) |- _ =>
      apply (on_spm_keeps _ _ Hproc) in H
  | H : pgm_new_peer K _ _ _ _ = (_, _) |- _ => apply Hnew in H
  end.

Lemma on_pgm_rx_buffer t skb src dst source t' source' ok :
  on_pgm K t skb src dst source = Done (t', source', ok) →
  is_Some (rx_buffer t) → is_Some (rx_buffer t').
Proof.
  intros Hrun Hrx.
  enough (rx_buffer t' = rx_buffer t ∨ is_Some (rx_buffer t'))
    as [-> | ?]; [done | done |].
  revert Hrun. unfold on_pgm.
  destruct (pgm_is_downstream _).
  - unfold on_downstream. unfold_outcome. intros H.
    repeat case_match; simplify_eq/=; repeat rx_processor; unfold_stores;
      repeat case_match; simplify_eq/=; simpl in *;
      first [left; congruence | right; by eexists].
  - destruct (_ =? _).
    + destruct (_ || _).
      * destruct (on_upstream K t skb) as [[t1 ok1] | | |] eqn:Hup;
          unfold_outcome; [| done..].
        intros [= <- <- <-]. left. revert Hup.
        unfold on_upstream. unfold_outcome. intros H.
        repeat case_match; simplify_eq/=; repeat rx_processor;
          unfold_stores; simpl in *; congruence.
      * unfold_outcome. intros H. left.
        repeat case_match; by simplify_eq/=.
    + destruct (pgm_is_peer _).
      * unfold on_peer. unfold_outcome. intros H. left.
        repeat case_match; simplify_eq/=; repeat rx_processor;
          unfold_stores; repeat case_match; simplify_eq/=; simpl in *;
          congruence.
      * unfold_outcome. intros H. left.
        repeat case_match; by simplify_eq/=.
Qed.

Lemma recv_again_rx_buffer c :
  is_Some (rx_buffer (c_transport c)) →
  ∃ l c', recv_again K c = Goto l c'
          ∧ is_Some (rx_buffer (c_transport c')).
Proof.
  intros [rx Hrx]. unfold recv_again. rewrite Hrx.
  pose proof (recvskb_keeps rx_buffer (λ _ _, eq_refl) (c_transport c)
                (c_world c) rx MSG_DONTWAIT (addr_of_src (c_world c))
                (c_src c) (c_dst c)) as Hread.
  destruct (recvskb _ _ _ _ _ _ _) as [t1 w1 src1 dst1 len]. simpl in *.
  assert (Hrx1 : is_Some (rx_buffer t1)) by (rewrite Hread, Hrx; eauto).
  destruct (len <? 0); [eauto |].
  destruct (len =? 0); [eauto |].
  assert (rx_buffer (parse_frame K t1 rx src1 dst1).1.1.1 = rx_buffer t1)
    as Hparse by (unfold parse_frame; repeat case_match; reflexivity).
  destruct (parse_frame K t1 rx src1 dst1) as [[[t2 dst2] is_valid] err].
  simpl in Hparse. rewrite <- Hparse in Hrx1. destruct is_valid; simpl.
  - destruct (on_pgm_done K t2 rx src1 dst2 (c_source c))
      as [[[t3 source] ok] Hpgm].
    rewrite Hpgm. apply on_pgm_rx_buffer in Hpgm; [| done].
    repeat case_match; eexists _, _; (split; [reflexivity |]); simpl;
      rewrite ?(set_pending_keeps _ _ Hengine); done.
  - eexists _, _. split; [reflexivity |]. simpl.
    unfold_stores. repeat case_match; done.
Qed.

Lemma healthy_step pc c :
  readable (c_transport c) →
  match step K CONFIG_HAVE_POLL msg_len flags _bytes_read error pc c with
  | Goto l c' => readable (c_transport c')
  | Return r => True
  | Abort => False
  end.
Proof.
  intros [Hreset Hrx].
  pose proof Hhealthy as ((Hproc_r & Hnew_r & Hengine_r) & _).
  assert (Hwrites : writes_keep (@is_reset Ext)) by (split; reflexivity).
  destruct (step K _ _ _ _ _ pc c) as [l c' | r |] eqn:Hstep; [| done |].
  - split.
    + by rewrite (step_keeps is_reset K CONFIG_HAVE_POLL
                    (λ _ _, eq_refl) Hengine_r Hwrites Hproc_r Hnew_r
                    _ _ _ _ _ _ _ _ Hstep).
    + destruct pc; simpl in Hstep.
      * by rewrite (flush_pending_keeps rx_buffer K Hengine _ _ _ _ _ Hstep).
      * destruct (recv_again_rx_buffer c Hrx) as (l0 & c0 & Heq & Hc0).
        congruence.
      * by rewrite (flush_pending_keeps rx_buffer K Hengine _ _ _ _ _ Hstep).
      * revert Hstep. unfold check_for_repeat. rewrite Hdontwait.
        case_match; intros; by simplify_eq.
      * by apply out_never_jumps in Hstep.
  - destruct pc; simpl in Hstep.
    + unfold flush_pending in Hstep. repeat case_match; done.
    + destruct (recv_again_rx_buffer c Hrx) as (l0 & c0 & Heq & _).
      congruence.
    + unfold flush_pending in Hstep. repeat case_match; done.
    + revert Hstep. unfold check_for_repeat. rewrite Hdontwait.
      case_match; done.
    + revert Hstep. unfold out. unfold_outcome.
      rewrite (clear_pending_read_keeps is_reset K (λ _ _, eq_refl)
                 Hengine_r), Hreset.
      repeat case_match; done.
Qed.

Lemma healthy_loop_never_aborts fuel pc c :
  readable (c_transport c) →
  recv_loop K CONFIG_HAVE_POLL fuel msg_len flags _bytes_read error pc c
  ≠ Aborted.
Proof.
  revert pc c. induction fuel as [| fuel IH]; [done |].
  intros pc c Hc. simpl.
  pose proof (healthy_step pc c Hc) as Hstep.
  destruct (step K _ _ _ _ _ pc c); [by apply IH | done | done].
Qed.
End Healthy.


Lemma bench_healthy : healthy Bench.K.
Proof.
  split_and!.
  - split_and!.
    + by apply bench_processors_keep.
    + by apply bench_new_peer_keeps.
    + by apply bench_engine_keeps.
  - by apply bench_processors_keep.
  - by apply bench_new_peer_keeps.
  - by apply bench_engine_keeps.
Qed.

